(** * Authentication subsystem of the warehouse dashboard back end

    A shallow embedding of the token service ([JWTService],
    [src/services/jwtService.js]), the identity-provider gateway
    ([GoogleOAuthService], [src/services/googleOAuthService.js]), the
    authentication middleware ([AuthMiddleware], required by the routes as
    [middleware/authMiddleware]) and the OAuth callback handler
    ([AuthController], required by the routes as
    [controllers/authController]), followed by the properties of these
    components.

    Conventions of the embedding:
    - a JavaScript string is a [string], read as the bytes of its WTF-8
      form, in which an unpaired surrogate is a three-byte sequence of
      its own ([isWellFormed]); a value that may be [undefined] is an
      [option]; truthiness of such a value is [truthy];
    - a function that can [throw] returns a [result]; a [try]/[catch]
      block is [try_catch];
    - the wall clock ([Date.now()] in whole seconds) is an explicit
      argument [now : Z];
    - the two external collaborators, the [jsonwebtoken] package and the
      HTTP client [fetch], are interfaces ([JwtPrimitives], [Provider]). *)

From Stdlib Require Import String Ascii List ZArith Bool Lia DecimalString DecimalPos.
Import ListNotations.

Local Open Scope string_scope.
Local Open Scope Z_scope.

(* ================================================================== *)
(** * Part I: definitions                                              *)
(* ================================================================== *)

(** ** JavaScript string primitives used by the sources *)

Module JsString.

(** [s.startsWith(p)] *)
Definition startsWith (s p : string) : bool := String.prefix p s.

(** [s.slice(n)] for a non-negative [n] *)
Fixpoint slice (n : nat) (s : string) : string :=
  match n, s with
  | O, _ => s
  | S _, EmptyString => EmptyString
  | S n', String _ r => slice n' r
  end.

(** [s.includes(c)] for a one-character needle *)
Fixpoint includes (c : ascii) (s : string) : bool :=
  match s with
  | EmptyString => false
  | String a r => Ascii.eqb a c || includes c r
  end.

(** [s.split(c)] for a one-character separator: never the empty list *)
Fixpoint split (c : ascii) (s : string) : list string :=
  match s with
  | EmptyString => [EmptyString]
  | String a r =>
      if Ascii.eqb a c then EmptyString :: split c r
      else match split c r with
           | x :: xs => String a x :: xs
           | [] => [String a EmptyString]
           end
  end.

Definition isUpper (a : ascii) : bool :=
  (65 <=? nat_of_ascii a)%nat && (nat_of_ascii a <=? 90)%nat.

Definition lowerChar (a : ascii) : ascii :=
  if isUpper a then ascii_of_nat (nat_of_ascii a + 32) else a.

(** [s.toLowerCase()] on the ASCII range *)
Fixpoint toLowerCase (s : string) : string :=
  match s with
  | EmptyString => EmptyString
  | String a r => String (lowerChar a) (toLowerCase r)
  end.

(** White space removed by [trim]: TAB, LF, VT, FF, CR and SPACE *)
Definition isWhitespace (a : ascii) : bool :=
  let n := nat_of_ascii a in
  ((9 <=? n)%nat && (n <=? 13)%nat) || (n =? 32)%nat.

Fixpoint trimStart (s : string) : string :=
  match s with
  | EmptyString => EmptyString
  | String a r => if isWhitespace a then trimStart r else s
  end.

Fixpoint trimEnd (s : string) : string :=
  match s with
  | EmptyString => EmptyString
  | String a r =>
      match trimEnd r with
      | EmptyString => if isWhitespace a then EmptyString else String a EmptyString
      | r' => String a r'
      end
  end.

(** [s.trim()] *)
Definition trim (s : string) : string := trimStart (trimEnd s).

Definition isEmpty (s : string) : bool :=
  match s with EmptyString => true | _ => false end.

(** [s.isWellFormed()]: no unpaired surrogate.  In WTF-8 an unpaired
    surrogate, and nothing else, starts with the byte [ED] followed by a
    byte in [A0..BF]. *)
Fixpoint isWellFormed (s : string) : bool :=
  match s with
  | EmptyString => true
  | String a r =>
      match r with
      | EmptyString => true
      | String b _ =>
          if (nat_of_ascii a =? 237)%nat
             && (160 <=? nat_of_ascii b)%nat && (nat_of_ascii b <=? 191)%nat
          then false
          else isWellFormed r
      end
  end.

(** [!v] is [negb (truthy v)] for a value that is a string or [undefined] *)
Definition truthy (v : option string) : bool :=
  match v with
  | Some s => negb (isEmpty s)
  | None => false
  end.

(** [v === s] for a value that is a string or [undefined] *)
Definition strictEquals (v : option string) (s : string) : bool :=
  match v with
  | Some a => (a =? s)%string
  | None => false
  end.

(** [a || b] on strings *)
Definition orElse (a : option string) (b : string) : string :=
  match a with
  | Some s => if isEmpty s then b else s
  | None => b
  end.

(** Template-literal interpolation of an integer *)
Definition showZ (z : Z) : string := NilZero.string_of_int (Z.to_int z).

End JsString.
Import JsString.

(** ** Errors and the exception monad *)

(** The error objects of the sources: an [Error] with the ad hoc fields
    the services attach to it. *)
Record JsError : Type := mkError {
  errName : string;
  message : string;
  code : option string;
  statusCode : option Z;
  originalError : option string;
  userDomain : option string;
  errAllowedDomain : option string
}.

(** [new Error(msg)] *)
Definition newError (msg : string) : JsError :=
  mkError "Error" msg None None None None None.

(** The [TypeError] of reading a property of [null] *)
Definition typeErrorOfNull (property : string) : JsError :=
  mkError "TypeError" ("Cannot read properties of null (reading '" ++ property ++ "')")
          None None None None None.

(** [new Error(msg)] followed by [error.code = c; error.statusCode = st] *)
Definition codedError (msg c : string) (st : Z) : JsError :=
  mkError "Error" msg (Some c) (Some st) None None None.

Definition withOriginal (e : JsError) (orig : string) : JsError :=
  mkError (errName e) (message e) (code e) (statusCode e) (Some orig)
          (userDomain e) (errAllowedDomain e).

Definition withMessage (e : JsError) (msg : string) : JsError :=
  mkError (errName e) msg (code e) (statusCode e) (originalError e)
          (userDomain e) (errAllowedDomain e).

Definition withDomains (e : JsError) (ud ad : string) : JsError :=
  mkError (errName e) (message e) (code e) (statusCode e) (originalError e)
          (Some ud) (Some ad).

Inductive result (A : Type) : Type :=
| Ok (a : A)
| Throw (e : JsError).
Arguments Ok {A} a.
Arguments Throw {A} e.

Definition bind {A B : Type} (c : result A) (k : A -> result B) : result B :=
  match c with
  | Ok a => k a
  | Throw e => Throw e
  end.

Notation "x <- c ;; k" := (bind c (fun x => k))
  (at level 61, c at next level, right associativity).

(** [try { c } catch (error) { h error }] *)
Definition try_catch {A : Type} (c : result A) (h : JsError -> result A) : result A :=
  match c with
  | Ok a => Ok a
  | Throw e => h e
  end.

Definition nonzero (z : option Z) : bool :=
  match z with
  | Some n => negb (n =? 0)
  | None => false
  end.

(** The idiom closing every service method:
    [if (!error.code) error.code = c; if (!error.statusCode) error.statusCode = st] *)
Definition ensureStructure (c : string) (st : Z) (e : JsError) : JsError :=
  mkError (errName e) (message e)
          (if truthy (code e) then code e else Some c)
          (if nonzero (statusCode e) then statusCode e else Some st)
          (originalError e) (userDomain e) (errAllowedDomain e).

(** [BaseService.handleError]: logs, then re-throws the same error *)
Definition handleError {A : Type} (e : JsError) : result A := Throw e.

(** ** Claims: the objects that travel through the token service

    One record serves for the identity payload handed to [generateToken],
    for the payload signed into a token and for the decoded payload
    returned by [verifyToken]; an absent property is [None]. *)
Record Claims : Type := mkClaims {
  id : option string;
  email : option string;
  name : option string;
  picture : option string;
  domain : option string;
  iss : option string;
  aud : option string;
  iat : option Z;
  exp : option Z;
  nbf : option Z
}.

(** ** The [jsonwebtoken] package

    The package is an external dependency.  Its compact serialisation is
    modelled down to the three dot-separated segments; the codecs and the
    keyed hash underneath are the operations of [JwtPrimitives].  Errors
    are classified as the package documents them: every failure of
    format, algorithm, signature, audience or issuer is a
    [JsonWebTokenError]; an expired token is a [TokenExpiredError]; a
    token presented before its [nbf] is a [NotBeforeError].  Two errors
    are not the package's own and pass through it unchanged: the
    [SyntaxError] of [JSON.parse] on the payload of a token whose header
    says [typ: 'JWT'], and the [TypeError] of reading a claim of a
    payload that is the JSON [null]. *)

(** The protected header of a token, as far as the package reads it *)
Record Header : Type := mkHeader {
  header_alg : option string;
  header_typ : option string
}.

(** [JSON.parse] on the decoded payload segment: an object (a value that
    is neither an object nor [null] carries no claim and reads as the
    empty object), the JSON [null], or a [SyntaxError] with its message *)
Inductive ParsedPayload : Type :=
| PayloadValue (payload : Claims)
| PayloadNull
| PayloadSyntaxError (msg : string).

Class JwtPrimitives : Type := {
  (** base64url(JSON.stringify(payload)) *)
  encodePayload : Claims -> string;
  (** JSON.parse(base64url-decode(segment)) *)
  decodePayload : string -> ParsedPayload;
  (** the header segment parsed, [None] when it is not a JSON object *)
  parseHeader : string -> option Header;
  (** base64url(HMAC-SHA256(key, message)) *)
  hmacSha256 : string -> string -> string;
  (** the time span denoted by an [expiresIn] option, in seconds *)
  timespan : string -> option Z
}.

Module Jsonwebtoken.

(** base64url of [{"alg":"HS256","typ":"JWT"}] *)
Definition joseHeader : string := "eyJhbGciOiJIUzI1NiIsInR5cCI6IkpXVCJ9".

Definition jwtError (n msg : string) : JsError :=
  mkError n msg None None None None None.

Definition JsonWebTokenError : string -> JsError := jwtError "JsonWebTokenError".
Definition TokenExpiredError : string -> JsError := jwtError "TokenExpiredError".
Definition NotBeforeError : string -> JsError := jwtError "NotBeforeError".
Definition SyntaxError : string -> JsError := jwtError "SyntaxError".

(** The header that [sign] writes, parsed *)
Definition hs256Header : Header := mkHeader (Some "HS256") (Some "JWT").

(** A payload without claims *)
Definition noClaims : Claims :=
  mkClaims None None None None None None None None None None.

(** One character of the alphabet [[a-zA-Z0-9_-]] of a JWS segment *)
Definition isBase64url (a : ascii) : bool :=
  let n := nat_of_ascii a in
  ((97 <=? n)%nat && (n <=? 122)%nat) || ((65 <=? n)%nat && (n <=? 90)%nat)
  || ((48 <=? n)%nat && (n <=? 57)%nat) || (n =? 45)%nat || (n =? 95)%nat.

Fixpoint allBase64url (s : string) : bool :=
  match s with
  | EmptyString => true
  | String a r => isBase64url a && allBase64url r
  end.

Section WithPrimitives.
Context {P : JwtPrimitives}.

(** [jwt.sign(payload, secret, { expiresIn, algorithm: 'HS256' })] *)
Definition sign (payload : Claims) (secret expiresIn : string) (now : Z)
  : result string :=
  if isEmpty secret then Throw (newError "secretOrPrivateKey must have a value")
  else
    match timespan expiresIn with
    | None =>
        Throw (newError "expiresIn should be a number of seconds or string representing a timespan")
    | Some span =>
        let body :=
          mkClaims (id payload) (email payload) (name payload) (picture payload)
                   (domain payload) (iss payload) (aud payload)
                   (Some now) (Some (now + span)) (nbf payload) in
        let signingInput := joseHeader ++ "." ++ encodePayload body in
        Ok (signingInput ++ "." ++ hmacSha256 secret signingInput)
    end.

(** [jwt.decode(token, { complete: true })]: header and payload, without
    any verification.  [Ok None] is the [null] answered for a token that
    is not a JWS or whose header does not parse; a payload of [None] is
    the JSON [null].  Under a header with [typ: 'JWT'] the payload is
    parsed unguarded, so that its [SyntaxError] is thrown; under any
    other header a payload that does not parse is kept as text, which
    carries no claim. *)
Definition decodeComplete (token : string)
  : result (option (Header * option Claims)) :=
  match split "." token with
  | [h; p; s] =>
      if negb (isEmpty h) && allBase64url h && negb (isEmpty p) && allBase64url p
         && allBase64url s
      then match parseHeader h with
           | None => Ok None
           | Some header =>
               if strictEquals (header_typ header) "JWT"
               then match decodePayload p with
                    | PayloadValue payload => Ok (Some (header, Some payload))
                    | PayloadNull => Ok (Some (header, None))
                    | PayloadSyntaxError msg => Throw (SyntaxError msg)
                    end
               else match decodePayload p with
                    | PayloadValue payload => Ok (Some (header, Some payload))
                    | PayloadNull | PayloadSyntaxError _ =>
                        Ok (Some (header, Some noClaims))
                    end
           end
      else Ok None
  | _ => Ok None
  end.

(** [jwt.decode(token)]: the payload alone *)
Definition decode (token : string) : result (option Claims) :=
  decoded <- decodeComplete token ;;
  match decoded with
  | None => Ok None
  | Some (_, payload) => Ok payload
  end.

Definition checkNotBefore (payload : Claims) (now : Z) : result unit :=
  match nbf payload with
  | Some n => if now <? n then Throw (NotBeforeError "jwt not active") else Ok tt
  | None => Ok tt
  end.

Definition checkExpiry (payload : Claims) (now : Z) : result unit :=
  match exp payload with
  | Some e => if e <=? now then Throw (TokenExpiredError "jwt expired") else Ok tt
  | None => Ok tt
  end.

Definition checkAudience (payload : Claims) (audience : string) : result unit :=
  if strictEquals (aud payload) audience then Ok tt
  else Throw (JsonWebTokenError "jwt audience invalid").

Definition checkIssuer (payload : Claims) (issuer : string) : result unit :=
  if strictEquals (iss payload) issuer then Ok tt
  else Throw (JsonWebTokenError "jwt issuer invalid").

(** [jwt.verify(token, secret, { algorithms: ['HS256'], audience, issuer })]:
    format, algorithm and signature first, then the time and identity
    claims of the payload.  The signature is compared with the keyed
    hash of the first two segments; a token without a signature, which
    passes the two tests before only under an empty key, matches no
    keyed hash. *)
Definition verify (token secret audience issuer : string) (now : Z)
  : result Claims :=
  if isEmpty token then Throw (JsonWebTokenError "jwt must be provided")
  else
    match split "." token with
    | [h; p; s] =>
        decoded <- decodeComplete token ;;
        match decoded with
        | None => Throw (JsonWebTokenError "invalid token")
        | Some (header, payload) =>
            let hasSignature := negb (isEmpty s) in
            if negb hasSignature && negb (isEmpty secret)
            then Throw (JsonWebTokenError "jwt signature is required")
            else if hasSignature && isEmpty secret
            then Throw (JsonWebTokenError "secret or public key must be provided")
            else if negb (strictEquals (header_alg header) "HS256")
            then Throw (JsonWebTokenError "invalid algorithm")
            else if negb hasSignature
                    || negb (s =? hmacSha256 secret (h ++ "." ++ p))%string
            then Throw (JsonWebTokenError "invalid signature")
            else
              match payload with
              | None => Throw (typeErrorOfNull "nbf")
              | Some payload =>
                  _ <- checkNotBefore payload now ;;
                  _ <- checkExpiry payload now ;;
                  _ <- checkAudience payload audience ;;
                  _ <- checkIssuer payload issuer ;;
                  Ok payload
              end
        end
    | _ => Throw (JsonWebTokenError "jwt malformed")
    end.

End WithPrimitives.
End Jsonwebtoken.

(** ** Configuration ([src/utils/config.js], [getAuthConfig]) *)

Record Config : Type := mkConfig {
  (** [config.jwt.secret]; an unset secret is the empty string *)
  jwtSecret : string;
  (** [config.jwt.expiresIn] *)
  jwtExpiresIn : string;
  (** [config.auth.allowedDomain] *)
  allowedDomain : string;
  (** [config.server.frontendUrl] *)
  frontendUrl : string;
  (** [config.oauth.google] *)
  clientId : string;
  clientSecret : string;
  redirectUri : string
}.

(** [undefined.toLowerCase()] *)
Definition typeErrorToLowerCase : JsError :=
  mkError "TypeError" "Cannot read properties of undefined (reading 'toLowerCase')"
          None None None None None.

(** ** The token service ([src/services/jwtService.js]) *)

Module JWTService.
Section WithConfig.
Context {P : JwtPrimitives} (config : Config).

(** [extractDomain(email)]: the second element of [email.split('@')] *)
Definition extractDomain (email : option string) : result (option string) :=
  match email with
  | Some e =>
      if isEmpty e || negb (includes "@" e)
      then Throw (newError "Invalid email format")
      else Ok (nth_error (split "@" e) 1)
  | None => Throw (newError "Invalid email format")
  end.

(** [validateEmailDomain(email)] *)
Definition validateEmailDomain (email : option string) : result bool :=
  if negb (truthy email) then Ok false
  else
    d <- extractDomain email ;;
    match d with
    | Some dom => Ok (toLowerCase dom =? toLowerCase (allowedDomain config))%string
    | None => Throw typeErrorToLowerCase
    end.

(** The object literal [tokenPayload] of [generateToken] *)
Definition tokenPayload (payload : Claims) (dom : option string) : Claims :=
  mkClaims (id payload) (email payload) (name payload) (picture payload) dom
           (Some "warehouse-api") (Some "warehouse-frontend") None None None.

(** [generateToken(payload, expiresIn = null)] *)
Definition generateToken (payload : option Claims) (expiresIn : option string) (now : Z)
  : result string :=
  try_catch
    (match payload with
     | None => Throw (codedError "Token payload must be a valid object" "INVALID_PAYLOAD" 400)
     | Some p =>
         if negb (truthy (id p)) || negb (truthy (email p))
         then Throw (codedError "Token payload must include id and email"
                                "MISSING_REQUIRED_FIELDS" 400)
         else
           valid <- validateEmailDomain (email p) ;;
           if negb valid
           then Throw (codedError "Invalid email domain for token generation"
                                  "INVALID_DOMAIN" 403)
           else
             dom <- extractDomain (email p) ;;
             match Jsonwebtoken.sign (tokenPayload p dom) (jwtSecret config)
                                     (orElse expiresIn (jwtExpiresIn config)) now with
             | Ok token => Ok token
             | Throw jwtError =>
                 Throw (withOriginal
                          (codedError "Failed to sign JWT token" "TOKEN_SIGNING_ERROR" 500)
                          (message jwtError))
             end
     end)
    (fun error => handleError (ensureStructure "TOKEN_GENERATION_ERROR" 500 error)).

(** [getJWTErrorMessage(jwtError)] *)
Definition getJWTErrorMessage (jwtError : JsError) : string :=
  if (errName jwtError =? "TokenExpiredError")%string
  then "Your session has expired. Please sign in again."
  else if (errName jwtError =? "JsonWebTokenError")%string
  then "Invalid authentication token. Please sign in again."
  else if (errName jwtError =? "NotBeforeError")%string
  then "Authentication token is not yet valid."
  else "Authentication token verification failed.".

(** [getJWTErrorCode(jwtError)] *)
Definition getJWTErrorCode (jwtError : JsError) : string :=
  if (errName jwtError =? "TokenExpiredError")%string then "TOKEN_EXPIRED"
  else if (errName jwtError =? "JsonWebTokenError")%string then "INVALID_TOKEN"
  else if (errName jwtError =? "NotBeforeError")%string then "TOKEN_NOT_ACTIVE"
  else "TOKEN_VERIFICATION_ERROR".

(** [token.startsWith('Bearer ') ? token.slice(7) : token] *)
Definition cleanToken (token : string) : string :=
  if startsWith token "Bearer " then slice 7 token else token.

(** [verifyToken(token)] *)
Definition verifyToken (token : string) (now : Z) : result Claims :=
  try_catch
    (if isEmpty token
     then Throw (codedError "Token must be a valid string" "INVALID_TOKEN_FORMAT" 400)
     else if isEmpty (trim (cleanToken token))
     then Throw (codedError "Token cannot be empty" "EMPTY_TOKEN" 400)
     else
       decoded <-
         try_catch
           (Jsonwebtoken.verify (cleanToken token) (jwtSecret config)
                                "warehouse-frontend" "warehouse-api" now)
           (fun jwtError =>
              let c := getJWTErrorCode jwtError in
              Throw (withOriginal
                       (codedError (getJWTErrorMessage jwtError) c
                                   (if (c =? "TOKEN_EXPIRED")%string then 401 else 400))
                       (message jwtError))) ;;
       if negb (truthy (id decoded)) || negb (truthy (email decoded))
       then Throw (codedError "Token payload is missing required fields"
                              "INVALID_TOKEN_PAYLOAD" 400)
       else
         valid <- validateEmailDomain (email decoded) ;;
         if negb valid
         then Throw (codedError "Token contains invalid email domain" "INVALID_DOMAIN" 403)
         else Ok decoded)
    (fun error => handleError (ensureStructure "TOKEN_VERIFICATION_ERROR" 400 error)).

(** [const { iat, exp, iss, aud, ...userPayload } = decoded] *)
Definition userPayload (decoded : Claims) : Claims :=
  mkClaims (id decoded) (email decoded) (name decoded) (picture decoded)
           (domain decoded) None None None None (nbf decoded).

(** [refreshToken(token)] *)
Definition refreshToken (token : string) (now : Z) : result string :=
  try_catch
    (decoded <- verifyToken token now ;;
     generateToken (Some (userPayload decoded)) None now)
    (fun error =>
       if truthy (code error) && nonzero (statusCode error) then Throw error
       else
         handleError
           (mkError "Error" ("Token refresh failed: " ++ message error)
                    (Some "TOKEN_REFRESH_ERROR") (Some 400) (Some (message error))
                    None None)).

(** [decodeToken(token)]: [Ok None] is the [null] of [jwt.decode]; what
    [jwt.decode] throws is thrown again under a new message *)
Definition decodeToken (token : string) : result (option Claims) :=
  try_catch (Jsonwebtoken.decode (cleanToken token))
    (fun error => Throw (newError ("Token decode failed: " ++ message error))).

(** [isTokenExpired(token)]: every failure of the decoding counts as
    expired *)
Definition isTokenExpired (token : string) (now : Z) : bool :=
  match decodeToken token with
  | Ok (Some decoded) =>
      match exp decoded with
      | None => true
      | Some e => if e =? 0 then true else e <? now
      end
  | Ok None => true
  | Throw _ => true
  end.

(** The character class [\d] *)
Definition isDigit (a : ascii) : bool :=
  (48 <=? nat_of_ascii a)%nat && (nat_of_ascii a <=? 57)%nat.

(** [parseInt] on a string of decimal digits (exact: the source computes
    in doubles, which agrees up to 2^53) *)
Fixpoint parseDigits (acc : Z) (s : string) : Z :=
  match s with
  | EmptyString => acc
  | String a r => parseDigits (10 * acc + Z.of_nat (nat_of_ascii a - 48)) r
  end.

(** The two groups of [/^(\d+)([smhd])$/] *)
Fixpoint matchSpan (s : string) : option (string * ascii) :=
  match s with
  | EmptyString => None
  | String a r =>
      if isDigit a then
        match matchSpan r with
        | Some (ds, u) => Some (String a ds, u)
        | None =>
            match r with
            | String u EmptyString =>
                if Ascii.eqb u "s" || Ascii.eqb u "m" || Ascii.eqb u "h" || Ascii.eqb u "d"
                then Some (String a EmptyString, u)
                else None
            | _ => None
            end
        end
      else None
  end.

(** [getTokenExpirationTime()] for the string-valued [expiresIn] of the
    configuration *)
Definition getTokenExpirationTime : Z :=
  match matchSpan (jwtExpiresIn config) with
  | Some (digits, u) =>
      let value := parseDigits 0 digits in
      if Ascii.eqb u "s" then value
      else if Ascii.eqb u "m" then value * 60
      else if Ascii.eqb u "h" then value * 60 * 60
      else if Ascii.eqb u "d" then value * 24 * 60 * 60
      else 24 * 60 * 60
  | None => 24 * 60 * 60
  end.

End WithConfig.
End JWTService.

(** ** The identity provider seen through [fetch] *)

(** The JSON bodies of the provider's token endpoint (success and error
    responses share one shape here). *)
Record OAuthBody : Type := mkOAuthBody {
  access_token : option string;
  refresh_token : option string;
  expires_in : option Z;
  token_type : option string;
  scope : option string;
  oauth_error : option string;
  oauth_error_description : option string
}.

(** The JSON bodies of the provider's user-info endpoint. *)
Record ProfileBody : Type := mkProfileBody {
  profile_id : option string;
  profile_email : option string;
  profile_name : option string;
  profile_picture : option string;
  profile_verified_email : option bool;
  profile_locale : option string;
  profile_error_description : option string
}.

(** What [await response.json()] gives: a rejection when the body is not
    JSON, the value [null], or a value whose properties can be read (a
    property that is absent is [None]). *)
Inductive JsonBody (B : Type) : Type :=
| JsonRejected
| JsonNull
| JsonValue (body : B).
Arguments JsonRejected {B}.
Arguments JsonNull {B}.
Arguments JsonValue {B} body.

Record Response (B : Type) : Type := mkResponse {
  status : Z;
  statusText : string;
  json : JsonBody B
}.
Arguments mkResponse {B}.
Arguments status {B}.
Arguments statusText {B}.
Arguments json {B}.

(** [let errorData = {}; try { errorData = await response.json(); } catch
    (parseError) { }]: [None] is [null] *)
Definition errorDataOf {B : Type} (empty : B) (body : JsonBody B) : option B :=
  match body with
  | JsonRejected => Some empty
  | JsonNull => None
  | JsonValue d => Some d
  end.

(** [response.ok] *)
Definition ok {B : Type} (r : Response B) : bool :=
  (200 <=? status r) && (status r <=? 299).

(** The outcome of [await fetch(...)]: a rejection carrying the message of
    the network error, or a response. *)
Inductive FetchResult (B : Type) : Type :=
| FetchFailed (msg : string)
| Fetched (r : Response B).
Arguments FetchFailed {B}.
Arguments Fetched {B}.

Record TokenRequest : Type := mkTokenRequest {
  client_id : string;
  client_secret : string;
  request_code : string;
  grant_type : string;
  redirect_uri : string
}.

Class Provider : Type := {
  (** POST to [https://oauth2.googleapis.com/token] *)
  fetchToken : TokenRequest -> FetchResult OAuthBody;
  (** GET [https://www.googleapis.com/oauth2/v2/userinfo] with a bearer token *)
  fetchUserInfo : string -> FetchResult ProfileBody
}.

Record TokenSet : Type := mkTokenSet {
  accessToken : string;
  refreshToken : option string;
  expiresIn : option Z;
  tokenType : string;
  tokenScope : option string
}.

Record Profile : Type := mkProfile {
  user_id : string;
  user_email : string;
  user_name : string;
  user_picture : string;
  verified_email : bool;
  locale : string
}.

(** The result of [completeOAuthFlow]: [{ user, tokens }] *)
Record OAuthResult : Type := mkOAuthResult {
  oauth_user : Profile;
  oauth_tokens : TokenSet
}.

(** ** The identity-provider gateway ([src/services/googleOAuthService.js]) *)

Module GoogleOAuthService.
Section WithConfig.
Context {G : Provider} (config : Config).

Definition emptyErrorData : OAuthBody :=
  mkOAuthBody None None None None None None None.

Definition emptyProfileData : ProfileBody :=
  mkProfileBody None None None None None None None.

(** [exchangeCodeForTokens(code)] *)
Definition exchangeCodeForTokens (authorizationCode : option string) : result TokenSet :=
  try_catch
    (match authorizationCode with
     | None =>
         Throw (codedError "Authorization code is required and must be a string"
                           "INVALID_AUTH_CODE" 400)
     | Some c =>
         if isEmpty c
         then Throw (codedError "Authorization code is required and must be a string"
                                "INVALID_AUTH_CODE" 400)
         else
           match fetchToken (mkTokenRequest (clientId config) (clientSecret config) c
                                            "authorization_code" (redirectUri config)) with
           | FetchFailed fetchError =>
               Throw (withOriginal
                        (codedError "Failed to connect to Google OAuth service"
                                    "OAUTH_SERVICE_UNAVAILABLE" 503)
                        fetchError)
           | Fetched response =>
               if negb (ok response)
               then
                 match errorDataOf emptyErrorData (json response) with
                 | None => Throw (typeErrorOfNull "error_description")
                 | Some errorData =>
                     let msg :=
                       "Google OAuth token exchange failed: "
                       ++ orElse (oauth_error_description errorData)
                                 (statusText response) in
                     let '(c', m') :=
                       if status response =? 400 then
                         if strictEquals (oauth_error errorData) "invalid_grant"
                         then ("INVALID_AUTH_CODE",
                               "Authorization code is invalid or expired")
                         else if strictEquals (oauth_error errorData) "invalid_client"
                         then ("OAUTH_CONFIG_ERROR",
                               "OAuth client configuration is invalid")
                         else ("OAUTH_REQUEST_ERROR", msg)
                       else if status response =? 401
                       then ("OAUTH_UNAUTHORIZED", "OAuth client authentication failed")
                       else if 500 <=? status response
                       then ("OAUTH_SERVICE_ERROR",
                             "Google OAuth service is temporarily unavailable")
                       else ("OAUTH_UNKNOWN_ERROR", msg) in
                     Throw (codedError m' c' (status response))
                 end
               else
                 match json response with
                 | JsonRejected =>
                     Throw (codedError "Invalid response format from Google OAuth service"
                                       "OAUTH_RESPONSE_ERROR" 502)
                 | JsonNull => Throw (typeErrorOfNull "access_token")
                 | JsonValue tokenData =>
                     match access_token tokenData with
                     | Some at_ =>
                         if isEmpty at_
                         then Throw (codedError
                                       "Invalid token response: missing access_token"
                                       "OAUTH_RESPONSE_ERROR" 502)
                         else Ok (mkTokenSet at_ (refresh_token tokenData)
                                             (expires_in tokenData)
                                             (orElse (token_type tokenData) "Bearer")
                                             (scope tokenData))
                     | None =>
                         Throw (codedError "Invalid token response: missing access_token"
                                           "OAUTH_RESPONSE_ERROR" 502)
                     end
                 end
           end
     end)
    (fun error => handleError (ensureStructure "OAUTH_TOKEN_EXCHANGE_ERROR" 500 error)).

(** [extractDomain(email)]: the part after the single ['@'] *)
Definition extractDomain (email : option string) : result string :=
  match email with
  | None => Throw (newError "Email must be a valid string")
  | Some e =>
      if isEmpty e then Throw (newError "Email must be a valid string")
      else if negb (includes "@" e)
      then Throw (newError "Invalid email format: missing @ symbol")
      else
        match split "@" e with
        | [_; d] =>
            if isEmpty d then Throw (newError "Invalid email format: malformed domain")
            else Ok d
        | _ => Throw (newError "Invalid email format: malformed domain")
        end
  end.

(** [validateDomain(email)]: the [catch] turns every failure into [false] *)
Definition validateDomain (email : option string) : bool :=
  match
    try_catch
      (if negb (truthy email) then Ok false
       else
         d <- extractDomain email ;;
         Ok (toLowerCase d =? toLowerCase (allowedDomain config))%string)
      (fun _ => Ok false)
  with
  | Ok b => b
  | Throw _ => false
  end.

(** [getUserProfile(accessToken)] *)
Definition getUserProfile (accessToken : string) : result Profile :=
  try_catch
    (if isEmpty accessToken
     then Throw (codedError "Access token is required and must be a string"
                            "INVALID_ACCESS_TOKEN" 400)
     else
       match fetchUserInfo accessToken with
       | FetchFailed fetchError =>
           Throw (withOriginal
                    (codedError "Failed to connect to Google user info service"
                                "GOOGLE_API_UNAVAILABLE" 503)
                    fetchError)
       | Fetched response =>
           if negb (ok response)
           then
             match errorDataOf emptyProfileData (json response) with
             | None => Throw (typeErrorOfNull "error_description")
             | Some errorData =>
                 let '(c', m') :=
                   if status response =? 401
                   then ("INVALID_ACCESS_TOKEN", "Access token is invalid or expired")
                   else if status response =? 403
                   then ("INSUFFICIENT_PERMISSIONS",
                         "Access token does not have required permissions")
                   else if 500 <=? status response
                   then ("GOOGLE_API_ERROR",
                         "Google user info service is temporarily unavailable")
                   else ("PROFILE_RETRIEVAL_ERROR",
                         "Google profile retrieval failed: " ++ showZ (status response)
                         ++ " - "
                         ++ orElse (profile_error_description errorData)
                                   (statusText response)) in
                 Throw (codedError m' c' (status response))
             end
           else
             match json response with
             | JsonRejected =>
                 Throw (codedError "Invalid response format from Google user info service"
                                   "GOOGLE_API_RESPONSE_ERROR" 502)
             | JsonNull => Throw (typeErrorOfNull "id")
             | JsonValue profileData =>
                 if negb (truthy (profile_id profileData))
                    || negb (truthy (profile_email profileData))
                 then Throw (codedError
                               "Invalid profile response: missing required fields (id, email)"
                               "INCOMPLETE_PROFILE_DATA" 502)
                 else if negb (validateDomain (profile_email profileData))
                 then
                   d <- extractDomain (profile_email profileData) ;;
                   Throw (withDomains
                            (codedError ("Access restricted to @" ++ allowedDomain config
                                         ++ " accounts. Found: @" ++ d)
                                        "DOMAIN_RESTRICTED" 403)
                            d (allowedDomain config))
                 else
                   Ok (mkProfile
                         (orElse (profile_id profileData) "")
                         (orElse (profile_email profileData) "")
                         (orElse (profile_name profileData) "")
                         (orElse (profile_picture profileData) "")
                         (match profile_verified_email profileData with
                          | Some b => b
                          | None => false
                          end)
                         (orElse (profile_locale profileData) "en"))
             end
       end)
    (fun error => handleError (ensureStructure "PROFILE_RETRIEVAL_ERROR" 500 error)).

(** [completeOAuthFlow(code)] *)
Definition completeOAuthFlow (authorizationCode : option string) : result OAuthResult :=
  try_catch
    (tokenData <- exchangeCodeForTokens authorizationCode ;;
     userProfile <- getUserProfile (accessToken tokenData) ;;
     Ok (mkOAuthResult userProfile tokenData))
    (fun error =>
       if truthy (code error) && nonzero (statusCode error) then Throw error
       else
         handleError
           (mkError "Error" ("OAuth flow completion failed: " ++ message error)
                    (Some "OAUTH_FLOW_ERROR") (Some 500) (Some (message error))
                    None None)).

(** The list [requiredFields] of [validateConfiguration] *)
Definition requiredFields : list (string * string) :=
  [("Google Client ID", clientId config);
   ("Google Client Secret", clientSecret config);
   ("Redirect URI", redirectUri config);
   ("Allowed Domain", allowedDomain config)].

(** [validateConfiguration()] *)
Definition validateConfiguration : result bool :=
  let missingFields := filter (fun field => isEmpty (snd field)) requiredFields in
  if (0 <? List.length missingFields)%nat
  then Throw (newError ("OAuth configuration incomplete: missing "
                        ++ String.concat ", " (map fst missingFields)))
  else Ok true.

End WithConfig.
End GoogleOAuthService.

(** ** Requests and responses of the HTTP layer *)

(** [req.user] as attached by the middleware *)
Record Identity : Type := mkIdentity {
  identity_id : option string;
  identity_email : option string;
  identity_name : option string;
  identity_picture : option string;
  identity_domain : option string;
  isAuthenticated : bool
}.

(** [req.tokenInfo] *)
Record TokenInfo : Type := mkTokenInfo {
  token : string;
  issuedAt : option Z;
  expiresAt : option Z
}.

Inductive UserContext : Type :=
| UserUndefined
| UserNull
| UserObject (u : Identity).

Record Request : Type := mkRequest {
  (** [req.headers.authorization] *)
  authorization : option string;
  user : UserContext;
  tokenInfo : option TokenInfo
}.

(** The body of [res.status(..).json({ error, code, timestamp })]; the
    time stamp is left out. *)
Record ErrorBody : Type := mkErrorBody {
  body_error : string;
  body_code : string
}.

(** What a middleware does with a request: it either calls [next()] on the
    (possibly updated) request or answers it. *)
Inductive Outcome : Type :=
| Next (req : Request)
| Respond (st : Z) (body : ErrorBody).

(** ** The authentication middleware (class [AuthMiddleware]) *)

Module AuthMiddleware.
Section WithConfig.
Context {P : JwtPrimitives} (config : Config).

(** [extractTokenFromHeader(req)]: [None] is [null] *)
Definition extractTokenFromHeader (req : Request) : option string :=
  match authorization req with
  | None => None
  | Some authHeader =>
      if isEmpty authHeader then None
      else if startsWith authHeader "Bearer " then Some (slice 7 authHeader)
      else if negb (includes " " authHeader) then Some authHeader
      else None
  end.

(** [sendUnauthorizedResponse(res, message, code = 'UNAUTHORIZED')] *)
Definition sendUnauthorizedResponse (msg : string) (c : option string) : Outcome :=
  Respond 401 (mkErrorBody msg (match c with Some c' => c' | None => "UNAUTHORIZED" end)).

(** [sendForbiddenResponse(res, message, code = 'FORBIDDEN')] *)
Definition sendForbiddenResponse (msg : string) (c : option string) : Outcome :=
  Respond 403 (mkErrorBody msg (match c with Some c' => c' | None => "FORBIDDEN" end)).

(** [handleAuthenticationError(error, res)] *)
Definition handleAuthenticationError (error : JsError) : Outcome :=
  if strictEquals (code error) "TOKEN_EXPIRED" then
    sendUnauthorizedResponse "Your session has expired. Please sign in again."
                             (Some "TOKEN_EXPIRED")
  else if strictEquals (code error) "INVALID_TOKEN"
          || strictEquals (code error) "INVALID_TOKEN_FORMAT"
          || strictEquals (code error) "INVALID_TOKEN_PAYLOAD" then
    sendUnauthorizedResponse "Invalid authentication token. Please sign in again."
                             (Some "INVALID_TOKEN")
  else if strictEquals (code error) "EMPTY_TOKEN" then
    sendUnauthorizedResponse "Authentication token is required." (Some "MISSING_TOKEN")
  else if strictEquals (code error) "INVALID_DOMAIN" then
    sendForbiddenResponse "Access restricted to authorized domains."
                          (Some "DOMAIN_RESTRICTED")
  else if strictEquals (code error) "TOKEN_NOT_ACTIVE" then
    sendUnauthorizedResponse "Authentication token is not yet valid."
                             (Some "TOKEN_NOT_ACTIVE")
  else
    let statusCode' :=
      match statusCode error with
      | Some n => if n =? 0 then 401 else n
      | None => 401
      end in
    let msg :=
      if 500 <=? statusCode' then "Authentication service error. Please try again."
      else if isEmpty (message error) then "Authentication failed"
      else message error in
    sendUnauthorizedResponse msg (Some "AUTH_FAILED").

(** The object assigned to [req.user] *)
Definition identityOf (userPayload : Claims) : Identity :=
  mkIdentity (id userPayload) (email userPayload) (name userPayload)
             (picture userPayload) (domain userPayload) true.

(** The request after [req.user = ...; req.tokenInfo = ...] *)
Definition attach (req : Request) (tok : string) (userPayload : Claims) : Request :=
  mkRequest (authorization req) (UserObject (identityOf userPayload))
            (Some (mkTokenInfo tok (iat userPayload) (exp userPayload))).

Definition setUserNull (req : Request) : Request :=
  mkRequest (authorization req) UserNull (tokenInfo req).

(** [authenticateJWT(req, res, next)]: [if (!token)] also catches the
    empty token that [extractTokenFromHeader] returns for the header
    ["Bearer "] *)
Definition authenticateJWT (req : Request) (now : Z) : Outcome :=
  match extractTokenFromHeader req with
  | None => sendUnauthorizedResponse "No authentication token provided" None
  | Some tok =>
      if isEmpty tok
      then sendUnauthorizedResponse "No authentication token provided" None
      else
        match JWTService.verifyToken config tok now with
        | Ok userPayload => Next (attach req tok userPayload)
        | Throw error => handleAuthenticationError error
        end
  end.

(** [optionalAuthentication(req, res, next)] *)
Definition optionalAuthentication (req : Request) (now : Z) : Outcome :=
  match extractTokenFromHeader req with
  | None => Next (setUserNull req)
  | Some tok =>
      if isEmpty tok then Next (setUserNull req)
      else
        match JWTService.verifyToken config tok now with
        | Ok userPayload => Next (attach req tok userPayload)
        | Throw _ => Next (setUserNull req)
        end
  end.

(** [requireDomain(requiredDomain)]: the middleware it returns *)
Definition requireDomain (requiredDomain : string) (req : Request) : Outcome :=
  match user req with
  | UserObject u =>
      if negb (isAuthenticated u)
      then sendUnauthorizedResponse "Authentication required" None
      else if negb (strictEquals (identity_domain u) requiredDomain)
      then sendForbiddenResponse ("Access restricted to " ++ requiredDomain ++ " domain")
                                 None
      else Next req
  | _ => sendUnauthorizedResponse "Authentication required" None
  end.

(** [checkTokenExpiration(refreshThresholdMinutes)]: the response headers
    the middleware it returns sets before it calls [next()]; a missing
    [expiresAt] makes both comparisons false *)
Definition checkTokenExpiration (refreshThresholdMinutes : Z) (req : Request) (now : Z)
  : list (string * string) * Outcome :=
  match tokenInfo req with
  | None => ([], Next req)
  | Some info =>
      match expiresAt info with
      | None => ([], Next req)
      | Some e =>
          let timeUntilExpiration := e - now in
          let thresholdSeconds := refreshThresholdMinutes * 60 in
          if (timeUntilExpiration <=? thresholdSeconds) && (0 <? timeUntilExpiration)
          then ([("X-Token-Refresh-Suggested", "true");
                 ("X-Token-Expires-In", showZ timeUntilExpiration)], Next req)
          else ([], Next req)
      end
  end.

End WithConfig.
End AuthMiddleware.

(** ** The OAuth callback (class [AuthController]) *)

(** [req.query] of the callback route, each parameter a string or absent *)
Record Query : Type := mkQuery {
  query_code : option string;
  query_error : option string;
  query_error_description : option string;
  query_state : option string
}.

(** The object [userData] serialised into the redirect URL *)
Record UserData : Type := mkUserData {
  data_id : string;
  data_email : string;
  data_name : string;
  data_picture : string;
  data_domain : option string
}.

(** What becomes of a request handed to an [async] controller method: the
    method answers it, or its promise rejects and the route hands the
    error to [next] *)
Inductive Reply : Type :=
| Redirect (url : string)
| Json (st : Z) (body : string)
| Rejects (error : JsError).

(** Built-ins of the JavaScript runtime the callback relies on *)
Class UrlCodec : Type := {
  (** [encodeURIComponent(s)] on a well-formed [s] *)
  encodeURIComponent : string -> string;
  (** [JSON.stringify(userData)] *)
  stringifyUserData : UserData -> string;
  (** [String(Object.prototype[key])] for a key every object inherits *)
  inheritedText : string -> string;
  (** [JSON.stringify] escapes unpaired surrogates *)
  stringify_wellFormed : forall userData, isWellFormed (stringifyUserData userData) = true
}.

(** The [URIError] of [encodeURIComponent] *)
Definition uriError : JsError :=
  mkError "URIError" "URI malformed" None None None None None.

(** [encodeURIComponent(s)]: it throws on an unpaired surrogate *)
Definition encodeComponent {U : UrlCodec} (s : string) : result string :=
  if isWellFormed s then Ok (encodeURIComponent s) else Throw uriError.

(** The property names an object literal inherits from [Object.prototype]:
    looking one of them up in [errorMessages] yields a function or an
    object, which is truthy. *)
Definition inheritedMember (key : string) : bool :=
  existsb (String.eqb key)
    ["constructor"; "toString"; "toLocaleString"; "valueOf"; "hasOwnProperty";
     "isPrototypeOf"; "propertyIsEnumerable"; "__proto__"; "__defineGetter__";
     "__defineSetter__"; "__lookupGetter__"; "__lookupSetter__"].

(** The [details] object of an error response *)
Record ErrorDetails : Type := mkErrorDetails {
  error_type : string;
  error_code : option string;
  allowed_domain : option string;
  user_domain : option string;
  retry_after : option Z
}.

(** The public identity fields echoed by the JSON endpoints *)
Record PublicUser : Type := mkPublicUser {
  public_id : option string;
  public_email : option string;
  public_name : option string;
  public_picture : option string;
  public_domain : option string
}.

(** The bodies of the JSON endpoints; time stamps and the request path
    are left out *)
Inductive ApiBody : Type :=
| ErrorJson (error : string) (details : ErrorDetails)
| RefreshJson (newToken : string) (expiresInSeconds : Z) (u : PublicUser)
| UserJson (u : PublicUser)
| HealthJson (healthStatus : string).

(** [res.status(st).json(body)] *)
Record ApiReply : Type := mkApiReply {
  api_status : Z;
  api_body : ApiBody
}.

(** A value interpolated into a template literal *)
Definition interpolate (v : option string) : string :=
  match v with
  | Some s => s
  | None => "undefined"
  end.

Module AuthController.
Section WithConfig.
Context {P : JwtPrimitives} {G : Provider} {U : UrlCodec} (config : Config).

(** The own properties of the object literal [errorMessages] *)
Definition errorMessages (error : string) : option string :=
  if (error =? "access_denied")%string
  then Some "You cancelled the sign-in process. Please try again to access the application."
  else if (error =? "invalid_request")%string
  then Some "Invalid authentication request. Please try signing in again."
  else if (error =? "unauthorized_client")%string
          || (error =? "unsupported_response_type")%string
          || (error =? "invalid_scope")%string
  then Some "Authentication service configuration error. Please contact support."
  else if (error =? "server_error")%string || (error =? "temporarily_unavailable")%string
  then Some "Google authentication service is temporarily unavailable. Please try again."
  else None.

(** [getOAuthErrorMessage(error, errorDescription)], read as the text that
    reaches [encodeURIComponent] *)
Definition getOAuthErrorMessage (error : string) (errorDescription : option string)
  : string :=
  match errorMessages error with
  | Some text => text
  | None =>
      if inheritedMember error then inheritedText error
      else orElse errorDescription "Authentication failed. Please try again."
  end.

(** The [{ id, email, name, picture, ... }] profile read as a token payload *)
Definition payloadOfProfile (u : Profile) : Claims :=
  mkClaims (Some (user_id u)) (Some (user_email u)) (Some (user_name u))
           (Some (user_picture u)) None None None None None None.

Definition errorRedirect (msg : string) : Reply :=
  Redirect (frontendUrl config ++ "/?error=" ++ encodeURIComponent msg).

(** [res.redirect(`${frontendUrl}/?error=${encodeURIComponent(msg)}`)] *)
Definition redirectWithError (msg : string) : result Reply :=
  encoded <- encodeComponent msg ;;
  Ok (Redirect (frontendUrl config ++ "/?error=" ++ encoded)).

(** [handleOAuthCallback(req, res)]: an error thrown inside the [try]
    block, the [URIError] of [encodeURIComponent] included, reaches the
    [catch] block; one thrown inside the [catch] block rejects the
    promise of the method *)
Definition handleOAuthCallback (query : Query) (now : Z) : Reply :=
  let attempt : result Reply :=
    if truthy (query_error query) then
      redirectWithError
        (getOAuthErrorMessage (orElse (query_error query) "")
                              (query_error_description query))
    else if negb (truthy (query_code query)) then
      redirectWithError "Authorization code is required"
    else
      oauthResult <- GoogleOAuthService.completeOAuthFlow config (query_code query) ;;
      jwtToken <-
        JWTService.generateToken config (Some (payloadOfProfile (oauth_user oauthResult)))
                                 None now ;;
      dom <- JWTService.extractDomain (Some (user_email (oauth_user oauthResult))) ;;
      let userData :=
        mkUserData (user_id (oauth_user oauthResult)) (user_email (oauth_user oauthResult))
                   (user_name (oauth_user oauthResult))
                   (user_picture (oauth_user oauthResult)) dom in
      encodedToken <- encodeComponent jwtToken ;;
      encodedUser <- encodeComponent (stringifyUserData userData) ;;
      Ok (Redirect (frontendUrl config ++ "/auth/callback?token="
                    ++ encodedToken ++ "&user=" ++ encodedUser))
  in
  match attempt with
  | Ok reply => reply
  | Throw error =>
      match redirectWithError (if isEmpty (message error) then "Authentication failed"
                               else message error) with
      | Ok reply => reply
      | Throw uriError => Rejects uriError
      end
  end.

(** [sendError(res, message, statusCode, details)] *)
Definition sendError (msg : string) (st : Z) (details : ErrorDetails) : ApiReply :=
  mkApiReply st (ErrorJson msg details).

Definition detailsOf (ty : string) : ErrorDetails :=
  mkErrorDetails ty None None None None.

(** [handleAuthenticationError(error, res, context)] of the controller *)
Definition handleAuthenticationError (error : JsError) : ApiReply :=
  if strictEquals (code error) "DOMAIN_RESTRICTED" then
    sendError ("Access restricted to @" ++ interpolate (errAllowedDomain error)
               ++ " accounts. Your account uses @" ++ interpolate (userDomain error) ++ ".")
              403
              (mkErrorDetails "domain_restricted" None (errAllowedDomain error)
                              (userDomain error) None)
  else if strictEquals (code error) "INVALID_AUTH_CODE" then
    sendError "The authorization code is invalid or has expired. Please try signing in again."
              400 (detailsOf "invalid_auth_code")
  else if strictEquals (code error) "OAUTH_SERVICE_UNAVAILABLE"
          || strictEquals (code error) "GOOGLE_API_UNAVAILABLE" then
    sendError "Authentication service is temporarily unavailable. Please try again in a few moments."
              503 (mkErrorDetails "service_unavailable" None None None (Some 30))
  else if strictEquals (code error) "OAUTH_CONFIG_ERROR" then
    sendError "Authentication service configuration error. Please contact support."
              500 (detailsOf "configuration_error")
  else if strictEquals (code error) "TOKEN_EXPIRED" then
    sendError "Your session has expired. Please sign in again." 401
              (detailsOf "token_expired")
  else if strictEquals (code error) "INVALID_TOKEN" then
    sendError "Invalid authentication token. Please sign in again." 401
              (detailsOf "invalid_token")
  else if strictEquals (code error) "INSUFFICIENT_PERMISSIONS" then
    sendError "Insufficient permissions to access user profile. Please ensure you grant all required permissions."
              403 (detailsOf "insufficient_permissions")
  else
    let statusCode' :=
      match statusCode error with
      | Some n => if n =? 0 then 500 else n
      | None => 500
      end in
    sendError
      (if 500 <=? statusCode'
       then "An internal error occurred during authentication. Please try again."
       else if isEmpty (message error) then "Authentication failed" else message error)
      statusCode'
      (mkErrorDetails "authentication_error"
                      (if truthy (code error) then code error else None)
                      None None None).

Definition publicUserOf (c : Claims) : PublicUser :=
  mkPublicUser (id c) (email c) (name c) (picture c) (domain c).

(** [refreshToken(req, res)]: the refresh endpoint *)
Definition refreshToken (req : Request) (now : Z) : ApiReply :=
  let attempt : result ApiReply :=
    match authorization req with
    | None =>
        Ok (sendError "Authorization header with Bearer token is required for token refresh"
                      401 (detailsOf "missing_token"))
    | Some authHeader =>
        if isEmpty authHeader || negb (startsWith authHeader "Bearer ")
        then Ok (sendError
                   "Authorization header with Bearer token is required for token refresh"
                   401 (detailsOf "missing_token"))
        else
          newToken <- JWTService.refreshToken config (slice 7 authHeader) now ;;
          decoded <- JWTService.verifyToken config newToken now ;;
          Ok (mkApiReply 200
                (RefreshJson newToken (JWTService.getTokenExpirationTime config)
                             (publicUserOf decoded)))
    end in
  match attempt with
  | Ok reply => reply
  | Throw error => handleAuthenticationError error
  end.

(** [getCurrentUser(req, res)] *)
Definition getCurrentUser (req : Request) : ApiReply :=
  match user req with
  | UserObject u =>
      mkApiReply 200
        (UserJson (mkPublicUser (identity_id u) (identity_email u) (identity_name u)
                                (identity_picture u) (identity_domain u)))
  | _ => sendError "User information not available" 401 (detailsOf "no_user_context")
  end.

(** [healthCheck(req, res)] *)
Definition healthCheck : ApiReply :=
  match GoogleOAuthService.validateConfiguration config with
  | Ok _ => mkApiReply 200 (HealthJson "healthy")
  | Throw error =>
      sendError ("Authentication service configuration error: " ++ message error) 503
                (detailsOf "configuration_error")
  end.

End WithConfig.
End AuthController.

(** ** Loading and validating the configuration ([src/utils/config.js]) *)

(** The variables of [process.env] the authentication configuration reads *)
Record Environment : Type := mkEnvironment {
  FRONTEND_URL : option string;
  GOOGLE_CLIENT_ID : option string;
  GOOGLE_CLIENT_SECRET : option string;
  GOOGLE_REDIRECT_URI : option string;
  JWT_SECRET : option string;
  JWT_EXPIRES_IN : option string;
  ALLOWED_DOMAIN : option string
}.

(** The object [config], restricted to what [getAuthConfig] returns; an
    unset variable without default is the empty string *)
Definition loadConfig (env : Environment) : Config :=
  mkConfig (orElse (JWT_SECRET env) "")
           (orElse (JWT_EXPIRES_IN env) "24h")
           (orElse (ALLOWED_DOMAIN env) "wareongo.com")
           (orElse (FRONTEND_URL env) "http://localhost:3000")
           (orElse (GOOGLE_CLIENT_ID env) "")
           (orElse (GOOGLE_CLIENT_SECRET env) "")
           (orElse (GOOGLE_REDIRECT_URI env) "http://localhost:3001/auth/google/callback").

(** [validateAuthConfig()] *)
Definition validateAuthConfig (config : Config) : result unit :=
  let requiredVars :=
    [("GOOGLE_CLIENT_ID", clientId config);
     ("GOOGLE_CLIENT_SECRET", clientSecret config);
     ("JWT_SECRET", jwtSecret config);
     ("ALLOWED_DOMAIN", allowedDomain config)] in
  let missingVars := filter (fun v => isEmpty (snd v)) requiredVars in
  if (0 <? List.length missingVars)%nat
  then Throw (newError ("Missing required environment variables: "
                        ++ String.concat ", " (map fst missingVars)))
  else if (String.length (jwtSecret config) <? 32)%nat
  then Throw (newError "JWT_SECRET must be at least 32 characters long for security")
  else if negb (includes "." (allowedDomain config))
  then Throw (newError
                "ALLOWED_DOMAIN must be a valid domain format (e.g., wareongo.com)")
  else Ok tt.

(** ** A reference implementation of the external interfaces

    The properties below are stated for every implementation of
    [JwtPrimitives] that satisfies the laws of [SoundCodec] (the
    tampering property asks, of the token at hand, that its signature is
    not shared by a neighbouring message; the [CollisionFree] hash given
    here guarantees it).  The implementation given here shows that the
    laws can be met and lets the services run on concrete inputs:
    segments are written in a sixteen-letter alphabet, and the signature
    is a transparent, injective image of key and message. *)

Module Reference.

(** Two letters of ['a'..'p'] per character *)
Fixpoint hexEncode (s : string) : string :=
  match s with
  | EmptyString => EmptyString
  | String a r =>
      String (ascii_of_nat (97 + nat_of_ascii a / 16))
             (String (ascii_of_nat (97 + nat_of_ascii a mod 16)) (hexEncode r))
  end.

Definition hexValue (a : ascii) : option nat :=
  let n := nat_of_ascii a in
  if (97 <=? n)%nat && (n <=? 112)%nat then Some (n - 97)%nat else None.

Fixpoint hexDecode (s : string) : option string :=
  match s with
  | EmptyString => Some EmptyString
  | String a (String b r) =>
      match hexValue a, hexValue b, hexDecode r with
      | Some x, Some y, Some r' => Some (String (ascii_of_nat (16 * x + y)) r')
      | _, _, _ => None
      end
  | String _ EmptyString => None
  end.

Fixpoint bitsEncode (p : positive) : string :=
  match p with
  | xH => EmptyString
  | xO q => String "0" (bitsEncode q)
  | xI q => String "1" (bitsEncode q)
  end.

Fixpoint bitsDecode (s : string) : option positive :=
  match s with
  | EmptyString => Some xH
  | String a r =>
      match bitsDecode r with
      | Some q =>
          if Ascii.eqb a "0" then Some (xO q)
          else if Ascii.eqb a "1" then Some (xI q)
          else None
      | None => None
      end
  end.

(** The text before the first ['_'] and the text after it *)
Fixpoint takeField (s : string) : option (string * string) :=
  match s with
  | EmptyString => None
  | String a r =>
      if Ascii.eqb a "_" then Some (EmptyString, r)
      else match takeField r with
           | Some (f, rest) => Some (String a f, rest)
           | None => None
           end
  end.

Definition putString (v : option string) (rest : string) : string :=
  match v with
  | None => String "n" (String "_" rest)
  | Some s => String "s" (hexEncode s ++ String "_" rest)
  end.

Definition getString (s : string) : option (option string * string) :=
  match s with
  | String tag r =>
      match takeField r with
      | Some (f, rest) =>
          if Ascii.eqb tag "n" then
            if isEmpty f then Some (None, rest) else None
          else if Ascii.eqb tag "s" then
            match hexDecode f with
            | Some v => Some (Some v, rest)
            | None => None
            end
          else None
      | None => None
      end
  | EmptyString => None
  end.

Definition putZ (v : option Z) (rest : string) : string :=
  match v with
  | None => String "n" (String "_" rest)
  | Some Z0 => String "z" (String "_" rest)
  | Some (Zpos p) => String "p" (bitsEncode p ++ String "_" rest)
  | Some (Zneg p) => String "m" (bitsEncode p ++ String "_" rest)
  end.

Definition getZ (s : string) : option (option Z * string) :=
  match s with
  | String tag r =>
      match takeField r with
      | Some (f, rest) =>
          if Ascii.eqb tag "n" then
            if isEmpty f then Some (None, rest) else None
          else if Ascii.eqb tag "z" then
            if isEmpty f then Some (Some 0, rest) else None
          else if Ascii.eqb tag "p" then
            match bitsDecode f with
            | Some q => Some (Some (Zpos q), rest)
            | None => None
            end
          else if Ascii.eqb tag "m" then
            match bitsDecode f with
            | Some q => Some (Some (Zneg q), rest)
            | None => None
            end
          else None
      | None => None
      end
  | EmptyString => None
  end.

Definition encodeClaims (c : Claims) : string :=
  putString (id c) (putString (email c) (putString (name c) (putString (picture c)
  (putString (domain c) (putString (iss c) (putString (aud c)
  (putZ (iat c) (putZ (exp c) (putZ (nbf c) EmptyString))))))))).

Definition decodeClaims (s : string) : option Claims :=
  match getString s with
  | Some (f1, s1) =>
  match getString s1 with
  | Some (f2, s2) =>
  match getString s2 with
  | Some (f3, s3) =>
  match getString s3 with
  | Some (f4, s4) =>
  match getString s4 with
  | Some (f5, s5) =>
  match getString s5 with
  | Some (f6, s6) =>
  match getString s6 with
  | Some (f7, s7) =>
  match getZ s7 with
  | Some (f8, s8) =>
  match getZ s8 with
  | Some (f9, s9) =>
  match getZ s9 with
  | Some (f10, EmptyString) => Some (mkClaims f1 f2 f3 f4 f5 f6 f7 f8 f9 f10)
  | _ => None
  end
  | None => None end
  | None => None end
  | None => None end
  | None => None end
  | None => None end
  | None => None end
  | None => None end
  | None => None end
  | None => None end.

Definition isDigit (a : ascii) : bool :=
  (48 <=? nat_of_ascii a)%nat && (nat_of_ascii a <=? 57)%nat.

Definition unitSeconds (a : ascii) : option Z :=
  if Ascii.eqb a "s" then Some 1
  else if Ascii.eqb a "m" then Some 60
  else if Ascii.eqb a "h" then Some 3600
  else if Ascii.eqb a "d" then Some 86400
  else None.

(** Spans of the form digits followed by one of [s], [m], [h], [d] *)
Fixpoint parseSpan (acc : Z) (seen : bool) (s : string) : option Z :=
  match s with
  | EmptyString => None
  | String a r =>
      if isDigit a then parseSpan (10 * acc + Z.of_nat (nat_of_ascii a - 48)) true r
      else if seen && isEmpty r then
        match unitSeconds a with
        | Some u => Some (acc * u)
        | None => None
        end
      else None
  end.

#[export] Instance primitives : JwtPrimitives := {
  encodePayload := encodeClaims;
  decodePayload := fun p =>
    match decodeClaims p with
    | Some c => PayloadValue c
    | None => PayloadSyntaxError "Unexpected end of JSON input"
    end;
  parseHeader := fun h =>
    if (h =? Jsonwebtoken.joseHeader)%string then Some Jsonwebtoken.hs256Header
    else None;
  hmacSha256 := fun key msg => String "S" (hexEncode key ++ String "_" (hexEncode msg));
  timespan := parseSpan 0 false
}.

(** Percent-encoding of everything outside [[A-Za-z0-9_-]] *)
Definition upperHexDigit (n : nat) : ascii :=
  if (n <? 10)%nat then ascii_of_nat (48 + n) else ascii_of_nat (55 + n).

Fixpoint percentEncode (s : string) : string :=
  match s with
  | EmptyString => EmptyString
  | String a r =>
      if Jsonwebtoken.isBase64url a then String a (percentEncode r)
      else String "%" (String (upperHexDigit (nat_of_ascii a / 16))
                      (String (upperHexDigit (nat_of_ascii a mod 16)) (percentEncode r)))
  end.

(** A text that is not well formed is replaced by the empty text *)
Definition keepWellFormed (s : string) : string :=
  if isWellFormed s then s else "".

Definition keepWellFormed_wellFormed (s : string)
  : isWellFormed (keepWellFormed s) = true :=
  match isWellFormed s as b
        return isWellFormed s = b -> isWellFormed (if b then s else "") = true with
  | true => fun H => H
  | false => fun _ => eq_refl
  end eq_refl.

Definition showUserData (u : UserData) : string :=
  keepWellFormed
    ("{id:" ++ data_id u ++ ",email:" ++ data_email u ++ ",name:" ++ data_name u
     ++ ",picture:" ++ data_picture u ++ ",domain:"
     ++ match data_domain u with Some d => d | None => "" end ++ "}").

#[export] Instance urlCodec : UrlCodec := {
  encodeURIComponent := percentEncode;
  stringifyUserData := showUserData;
  inheritedText := fun key => "function " ++ key ++ "() { [native code] }";
  stringify_wellFormed := fun u => keepWellFormed_wellFormed _
}.

Definition config : Config :=
  mkConfig "0123456789abcdef0123456789abcdef" "24h" "wareongo.com"
           "http://localhost:3000" "client-id" "client-secret"
           "http://localhost:3001/auth/google/callback".

End Reference.

#[local] Existing Instance Reference.primitives.
#[local] Existing Instance Reference.urlCodec.

(** ** Laws of the external interfaces *)

(** What the token service relies on when it reads back what it signed *)
Class SoundCodec (P : JwtPrimitives) : Prop := {
  decode_encode : forall c, decodePayload (encodePayload c) = PayloadValue c;
  encode_base64url : forall c, Jsonwebtoken.allBase64url (encodePayload c) = true;
  encode_nonempty : forall c, encodePayload c <> EmptyString;
  header_parses : parseHeader Jsonwebtoken.joseHeader = Some Jsonwebtoken.hs256Header;
  hmac_base64url : forall k m, Jsonwebtoken.allBase64url (hmacSha256 k m) = true;
  hmac_nonempty : forall k m, hmacSha256 k m <> EmptyString
}.

(** A keyed hash under which distinct messages never share a signature:
    what the reference implementation offers, and more than any property
    below assumes *)
Class CollisionFree (P : JwtPrimitives) : Prop := {
  hmac_injective : forall k m1 m2, hmacSha256 k m1 = hmacSha256 k m2 -> m1 = m2
}.

(** ** Vocabulary of the properties *)

(** The [code] of the error a call ends with, if it ends with one *)
Definition errorCodeOf {A : Type} (r : result A) : option string :=
  match r with
  | Ok _ => None
  | Throw e => code e
  end.

(** [t'] is [t] with exactly one character replaced by a different one *)
Inductive tampered : string -> string -> Prop :=
| tampered_here : forall a b r, a <> b -> tampered (String a r) (String b r)
| tampered_later : forall a r r', tampered r r' -> tampered (String a r) (String a r').

(** The claims [d'] expire strictly later than the claims [d] *)
Definition expiresLater (d d' : Claims) : Prop :=
  match exp d, exp d' with
  | Some e, Some e' => e < e'
  | _, _ => False
  end.

(** The refresh property in the strict form: every successful refresh
    ends strictly later than the token it replaces *)
Definition refreshStrictlyExtends {P : JwtPrimitives} (config : Config) : Prop :=
  forall tok now d tok' d',
    JWTService.verifyToken config tok now = Ok d ->
    JWTService.refreshToken config tok now = Ok tok' ->
    JWTService.decodeToken tok' = Ok (Some d') ->
    expiresLater d d'.

(** The refresh property on the domain claim: every successful refresh
    carries the domain claim of the token it replaces *)
Definition refreshKeepsDomain {P : JwtPrimitives} (config : Config) : Prop :=
  forall tok now d tok' d',
    JWTService.verifyToken config tok now = Ok d ->
    JWTService.refreshToken config tok now = Ok tok' ->
    JWTService.decodeToken tok' = Ok (Some d') ->
    domain d' = domain d.

(** Worlds used to run the gateway and the callback on concrete inputs *)
Definition tokenEndpointOk : TokenRequest -> FetchResult OAuthBody :=
  fun _ => Fetched (mkResponse 200 "OK"
                      (JsonValue (mkOAuthBody (Some "ya29.access") None (Some 3599)
                                              (Some "Bearer")
                                              (Some "openid email profile")
                                              None None))).

(** The provider answers the profile request with the given id and email *)
Definition providerWithProfile (pid pemail : string) : Provider := {|
  fetchToken := tokenEndpointOk;
  fetchUserInfo := fun _ =>
    Fetched (mkResponse 200 "OK"
               (JsonValue (mkProfileBody (Some pid) (Some pemail) (Some "A") None
                                         (Some true) None None)))
|}.

(** The provider rejects the code exchange with a 400 it describes itself *)
Definition providerRejecting (err descr : string) : Provider := {|
  fetchToken := fun _ =>
    Fetched (mkResponse 400 "Bad Request"
               (JsonValue (mkOAuthBody None None None None None (Some err)
                                       (Some descr))));
  fetchUserInfo := fun _ => FetchFailed "unreachable"
|}.

(** The empty-input rule in the strict form: the empty string and every
    input that is blank once the scheme prefix is removed end with
    [EMPTY_TOKEN] *)
Definition rejectsEveryEmptyInput {P : JwtPrimitives} (config : Config) : Prop :=
  forall t now,
    t = "" \/ trim (JWTService.cleanToken t) = "" ->
    errorCodeOf (JWTService.verifyToken config t now) = Some "EMPTY_TOKEN".

(** The domain rule of [generateToken] in the strict form: whenever the
    email does not carry the allowed domain, malformed emails included,
    the call ends with [INVALID_DOMAIN] *)
Definition hasAllowedDomain (config : Config) (e : string) : Prop :=
  exists d, JWTService.extractDomain (Some e) = Ok (Some d)
            /\ toLowerCase d = toLowerCase (allowedDomain config).

Definition rejectsEveryForeignEmail {P : JwtPrimitives} (config : Config) : Prop :=
  forall p e expiresIn now,
    truthy (id p) = true -> email p = Some e -> e <> "" ->
    ~ hasAllowedDomain config e ->
    errorCodeOf (JWTService.generateToken config (Some p) expiresIn now)
    = Some "INVALID_DOMAIN".

(** The response table of [authenticateJWT] in the form that names the
    no-token answer [missing_token] and lets an unknown error code keep
    the status code of the error *)
Definition statusAsTabled (error : JsError) : Z :=
  if strictEquals (code error) "INVALID_DOMAIN" then 403
  else if strictEquals (code error) "TOKEN_EXPIRED"
          || strictEquals (code error) "INVALID_TOKEN"
          || strictEquals (code error) "INVALID_TOKEN_FORMAT"
          || strictEquals (code error) "INVALID_TOKEN_PAYLOAD"
          || strictEquals (code error) "EMPTY_TOKEN"
          || strictEquals (code error) "TOKEN_NOT_ACTIVE" then 401
  else match statusCode error with
       | Some n => if n =? 0 then 401 else n
       | None => 401
       end.

Definition respondsAsTabled {P : JwtPrimitives} (config : Config) : Prop :=
  forall req now,
    match AuthMiddleware.extractTokenFromHeader req with
    | None =>
        exists msg c,
          AuthMiddleware.authenticateJWT config req now = Respond 401 (mkErrorBody msg c)
          /\ toLowerCase c = "missing_token"
    | Some tok =>
        match JWTService.verifyToken config tok now with
        | Ok d =>
            AuthMiddleware.authenticateJWT config req now
            = Next (AuthMiddleware.attach req tok d)
        | Throw error =>
            exists body,
              AuthMiddleware.authenticateJWT config req now
              = Respond (statusAsTabled error) body
        end
    end.

(** A token signed with the reference key over the given payload *)
Definition signedAt (payload : Claims) (now : Z) : string :=
  match Jsonwebtoken.sign payload (jwtSecret Reference.config) "24h" now with
  | Ok t => t
  | Throw _ => ""
  end.

Definition alicePayload : Claims :=
  mkClaims (Some "1") (Some "a@wareongo.com") (Some "Alice") None None
           None None None None None.

(** The token issued to Alice at second 1000 *)
Definition aliceToken : string :=
  Eval vm_compute in
    match JWTService.generateToken Reference.config (Some alicePayload) None 1000 with
    | Ok t => t
    | Throw _ => ""
    end.

Definition bearer (t : string) : Request :=
  mkRequest (Some ("Bearer " ++ t)) UserUndefined None.

(** The callback rule in the strict form: the message carried by an error
    redirect is never the message of the internal error that ended the
    flow *)
Definition callbackHidesInternalErrors
  {P : JwtPrimitives} {G : Provider} {U : UrlCodec} (config : Config) : Prop :=
  forall query now error,
    truthy (query_error query) = false ->
    GoogleOAuthService.completeOAuthFlow config (query_code query) = Throw error ->
    AuthController.handleOAuthCallback config query now
    <> AuthController.errorRedirect config (message error).

(** The callback rule in the form that lets every request end in a
    redirect *)
Definition callbackAlwaysRedirects
  {P : JwtPrimitives} {G : Provider} {U : UrlCodec} (config : Config) : Prop :=
  forall query now,
    exists url, AuthController.handleOAuthCallback config query now = Redirect url.

(** No byte of the string is the lead byte [ED] of a surrogate *)
Fixpoint plainBytes (s : string) : bool :=
  match s with
  | EmptyString => true
  | String a r => negb (nat_of_ascii a =? 237)%nat && plainBytes r
  end.

(** The WTF-8 bytes of the unpaired surrogate U+D800 *)
Definition loneSurrogate : string :=
  String (ascii_of_nat 237) (String (ascii_of_nat 160) (String (ascii_of_nat 128) "")).

(** The payload [jwt.sign] writes into the token *)
Definition signedBody (payload : Claims) (now span : Z) : Claims :=
  mkClaims (id payload) (email payload) (name payload) (picture payload)
           (domain payload) (iss payload) (aud payload)
           (Some now) (Some (now + span)) (nbf payload).

(** The compact serialisation of a payload under a key *)
Definition compact {P : JwtPrimitives} (body : Claims) (secret : string) : string :=
  (Jsonwebtoken.joseHeader ++ "." ++ encodePayload body)
  ++ "." ++ hmacSha256 secret (Jsonwebtoken.joseHeader ++ "." ++ encodePayload body).

(** [{ ...payload, domain: dom }]: the payload with another [domain] property *)
Definition withDomain (p : Claims) (dom : option string) : Claims :=
  mkClaims (id p) (email p) (name p) (picture p) dom
           (iss p) (aud p) (iat p) (exp p) (nbf p).

(** The claims inside [aliceToken] *)
Definition aliceClaims : Claims :=
  signedBody (JWTService.tokenPayload alicePayload (Some "wareongo.com")) 1000 86400.

(** The number of occurrences of a character *)
Fixpoint count (c : ascii) (s : string) : nat :=
  match s with
  | EmptyString => O
  | String a r => if Ascii.eqb a c then S (count c r) else count c r
  end.

(** Exactly one segment of a list of segments is tampered with *)
Inductive tamperedOne : list string -> list string -> Prop :=
| one_here : forall x x' l, tampered x x' -> tamperedOne (x :: l) (x' :: l)
| one_later : forall x l l', tamperedOne l l' -> tamperedOne (x :: l) (x :: l').

(** A compact token whose third segment is the keyed hash of the first two *)
Definition signatureVerifies {P : JwtPrimitives} (secret j : string) : Prop :=
  exists h p s,
    split "." j = [h; p; s] /\ s = hmacSha256 secret (h ++ "." ++ p).

(** [d] is the text of [e] between its first ['@'] and the next one, or
    the end of [e] when there is no other *)
Definition afterFirstAt (e d : string) : Prop :=
  exists l,
    includes "@" l = false /\ includes "@" d = false
    /\ (e = l ++ "@" ++ d \/ exists rest, e = l ++ "@" ++ d ++ "@" ++ rest).

(** The embedded domain read as the whole text after the first ['@'] of
    the email *)
Definition embedsTextAfterFirstAt {P : JwtPrimitives} (config : Config) : Prop :=
  forall p expiresIn now tok c l r,
    JWTService.generateToken config (Some p) expiresIn now = Ok tok ->
    JWTService.decodeToken tok = Ok (Some c) ->
    email p = Some (l ++ "@" ++ r) -> includes "@" l = false ->
    domain c = Some r.

(** The embedded domain read as the text after the last ['@'] of the
    email *)
Definition embedsTextAfterLastAt {P : JwtPrimitives} (config : Config) : Prop :=
  forall p expiresIn now tok c l r,
    JWTService.generateToken config (Some p) expiresIn now = Ok tok ->
    JWTService.decodeToken tok = Ok (Some c) ->
    email p = Some (l ++ "@" ++ r) -> includes "@" r = false ->
    domain c = Some r.

(** An identity whose email has two ['@'], and the token issued to it at
    second 1000 *)
Definition twoAtPayload : Claims :=
  mkClaims (Some "2") (Some "a@wareongo.com@evil.example") (Some "Mallory") None None
           None None None None None.

Definition twoAtToken : string :=
  Eval vm_compute in
    match JWTService.generateToken Reference.config (Some twoAtPayload) None 1000 with
    | Ok t => t
    | Throw _ => ""
    end.

(** Alice's claims under another domain claim, and the token that carries
    them under the configured key: not a token [generateToken] issues,
    but one [verifyToken] accepts *)
Definition mislabelledClaims : Claims := withDomain aliceClaims (Some "example.org").

Definition mislabelledToken : string :=
  Eval vm_compute in compact mislabelledClaims (jwtSecret Reference.config).

(** Alice's token with its first character replaced *)
Definition forgedToken : string := String "f" (slice 1 aliceToken).

(** The part of a compact token that its signature covers *)
Definition signingInput (j : string) : string :=
  match split "." j with
  | [h; p; s] => h ++ "." ++ p
  | _ => ""
  end.

(** What replacing one character of a presented token can make of the
    signed part [m] of the token: [m] with one character replaced, or,
    when the replaced character belongs to the prefix ["Bearer "] that
    [cleanToken] removes, [m] behind the damaged prefix, or [m] without
    one. *)
Inductive tamperedInput (m : string) : string -> Prop :=
| input_replaced : forall m', tampered m m' -> tamperedInput m m'
| input_prefixed : forall x, tampered "Bearer " x -> tamperedInput m (x ++ m)
| input_unprefixed : forall x m', tampered "Bearer " x -> m = x ++ m' -> tamperedInput m m'.

(** The signature of [m] under [secret] is not the signature of any of
    these neighbours of [m] *)
Definition signatureUnshared {P : JwtPrimitives} (secret m : string) : Prop :=
  forall m', tamperedInput m m' -> hmacSha256 secret m' <> hmacSha256 secret m.

(** The tampering property in the strict form: whatever character of an
    accepted token is replaced, the answer is [INVALID_TOKEN] *)
Definition tamperingIsInvalidToken {P : JwtPrimitives} (config : Config) : Prop :=
  forall t now d t' now',
    JWTService.verifyToken config t now = Ok d ->
    tampered t t' ->
    errorCodeOf (JWTService.verifyToken config t' now') = Some "INVALID_TOKEN".

(** [s] with the character at index [n] replaced by [c] *)
Fixpoint replaceAt (n : nat) (c : ascii) (s : string) : string :=
  match s, n with
  | EmptyString, _ => EmptyString
  | String a r, O => String c r
  | String a r, S n => String a (replaceAt n c r)
  end.

(** Alice's token with the first character of its payload segment
    replaced *)
Definition garbledToken : string := Eval vm_compute in replaceAt 37 "z" aliceToken.

(** The value of a decimal numeral read from its most significant digit *)
Fixpoint digitsValue (d : Decimal.uint) (acc : Z) : Z :=
  match d with
  | Decimal.Nil => acc
  | Decimal.D0 l => digitsValue l (10 * acc)
  | Decimal.D1 l => digitsValue l (10 * acc + 1)
  | Decimal.D2 l => digitsValue l (10 * acc + 2)
  | Decimal.D3 l => digitsValue l (10 * acc + 3)
  | Decimal.D4 l => digitsValue l (10 * acc + 4)
  | Decimal.D5 l => digitsValue l (10 * acc + 5)
  | Decimal.D6 l => digitsValue l (10 * acc + 6)
  | Decimal.D7 l => digitsValue l (10 * acc + 7)
  | Decimal.D8 l => digitsValue l (10 * acc + 8)
  | Decimal.D9 l => digitsValue l (10 * acc + 9)
  end.

Fixpoint allDigits (s : string) : bool :=
  match s with
  | EmptyString => true
  | String a r => JWTService.isDigit a && allDigits r
  end.

(** The units [getTokenExpirationTime] knows *)
Definition isSpanUnit (u : ascii) : bool :=
  Ascii.eqb u "s" || Ascii.eqb u "m" || Ascii.eqb u "h" || Ascii.eqb u "d".

(** The seconds in one unit of [getTokenExpirationTime] *)
Definition unitSeconds (u : ascii) : Z :=
  if Ascii.eqb u "s" then 1
  else if Ascii.eqb u "m" then 60
  else if Ascii.eqb u "h" then 3600
  else 86400.

(** ** The routes of [src/routes/auth.js] *)

(** The answer of a route: the one of a middleware that ended the
    request, or the one of the controller *)
Inductive RouteReply : Type :=
| MiddlewareReply (st : Z) (body : ErrorBody)
| ControllerReply (reply : ApiReply).

Module AuthRoutes.
Section WithConfig.
Context {P : JwtPrimitives} (config : Config).

(** [router.get('/me', authMiddleware.authenticateJWT, ...getCurrentUser...)] *)
Definition me (req : Request) (now : Z) : RouteReply :=
  match AuthMiddleware.authenticateJWT config req now with
  | Respond st body => MiddlewareReply st body
  | Next req' => ControllerReply (AuthController.getCurrentUser req')
  end.

(** [router.post('/refresh', ...refreshToken...)] *)
Definition refresh (req : Request) (now : Z) : RouteReply :=
  ControllerReply (AuthController.refreshToken config req now).

End WithConfig.
End AuthRoutes.

(** The profile and the flow result the gateway returns for Alice *)
Definition aliceProfile : Profile :=
  mkProfile "1" "a@wareongo.com" "A" "" true "en".

Definition aliceFlow : OAuthResult :=
  mkOAuthResult aliceProfile
                (mkTokenSet "ya29.access" None (Some 3599) "Bearer"
                            (Some "openid email profile")).

(** An environment that sets the three variables without default *)
Definition minimalEnvironment : Environment :=
  mkEnvironment None (Some "client-id") (Some "client-secret") None
                (Some "0123456789abcdef0123456789abcdef") None None.

(* ================================================================== *)
(** * Part II: properties                                              *)
(* ================================================================== *)

(** ** Strings *)

Lemma append_nil_r (s : string) : s ++ "" = s.
Proof. induction s as [|a s IH]; simpl; [reflexivity | now rewrite IH]. Qed.

Lemma append_assoc (a b c : string) : (a ++ b) ++ c = a ++ (b ++ c).
Proof. induction a as [|x a IH]; simpl; [reflexivity | now rewrite IH]. Qed.

Lemma length_append (a b : string) :
  String.length (a ++ b) = (String.length a + String.length b)%nat.
Proof. induction a as [|x a IH]; simpl; [reflexivity | now rewrite IH]. Qed.

Lemma append_inv_head (a b c : string) : a ++ b = a ++ c -> b = c.
Proof.
  induction a as [|x a IH]; simpl; intro H; [assumption|].
  injection H as H. now apply IH.
Qed.

Lemma isEmpty_true (s : string) : isEmpty s = true <-> s = "".
Proof. destruct s; simpl; split; intro H; try reflexivity; discriminate. Qed.

Lemma isEmpty_false (s : string) : isEmpty s = false <-> s <> "".
Proof.
  destruct s; simpl; split; intro H; try reflexivity; try discriminate.
  now contradiction H.
Qed.

Lemma prefix_nil (s : string) : String.prefix "" s = true.
Proof. now destruct s. Qed.

Lemma startsWith_append (p s : string) : startsWith (p ++ s) p = true.
Proof.
  unfold startsWith. induction p as [|a p IH]; simpl.
  - apply prefix_nil.
  - destruct (ascii_dec a a) as [_|n]; [exact IH | now contradiction n].
Qed.

Lemma slice_append (p s : string) : slice (String.length p) (p ++ s) = s.
Proof. induction p as [|a p IH]; simpl; [now destruct s | exact IH]. Qed.

Lemma startsWith_split (s p : string) :
  startsWith s p = true -> s = p ++ slice (String.length p) s.
Proof.
  unfold startsWith. revert s. induction p as [|a p IH]; intros s H.
  - now destruct s.
  - destruct s as [|b s]; simpl in H; [discriminate|].
    destruct (ascii_dec a b) as [->|]; [|discriminate].
    simpl. f_equal. now apply IH.
Qed.

(** ** The token service: scheme prefix and empty input *)

Section TokenInput.
Context {P : JwtPrimitives} (config : Config).

Lemma cleanToken_prefixed (t : string) :
  JWTService.cleanToken ("Bearer " ++ t) = t.
Proof.
  unfold JWTService.cleanToken.
  rewrite (startsWith_append "Bearer " t).
  exact (slice_append "Bearer " t).
Qed.

Lemma cleanToken_bare (t : string) :
  startsWith t "Bearer " = false -> JWTService.cleanToken t = t.
Proof. unfold JWTService.cleanToken. now intros ->. Qed.

Lemma verifyToken_empty_string (now : Z) :
  JWTService.verifyToken config "" now
  = Throw (codedError "Token must be a valid string" "INVALID_TOKEN_FORMAT" 400).
Proof. reflexivity. Qed.

(** The verification of a non-empty input only depends on its clean form *)
Lemma verifyToken_cleanToken (t u : string) (now : Z) :
  t <> "" -> u <> "" ->
  JWTService.cleanToken t = JWTService.cleanToken u ->
  JWTService.verifyToken config t now = JWTService.verifyToken config u now.
Proof.
  intros Ht Hu Hc. unfold JWTService.verifyToken.
  apply isEmpty_false in Ht. apply isEmpty_false in Hu.
  now rewrite Ht, Hu, Hc.
Qed.

End TokenInput.

(** C8, as amended.  [verifyToken] accepts a token with or without the
    leading ["Bearer "] scheme prefix: for every non-empty token that does
    not itself begin with the prefix, verifying the prefixed token gives
    exactly the result of verifying the bare token.  Every non-empty input
    that is blank after removing the prefix and the surrounding white
    space is rejected with [EMPTY_TOKEN]; the empty string itself is
    rejected with [INVALID_TOKEN_FORMAT]. *)
Theorem verifyToken_prefix_and_blank_input :
  forall {P : JwtPrimitives} (config : Config) (t : string) (now : Z),
    (t <> "" -> startsWith t "Bearer " = false ->
     JWTService.verifyToken config ("Bearer " ++ t) now
     = JWTService.verifyToken config t now)
    /\ (t <> "" -> trim (JWTService.cleanToken t) = "" ->
        JWTService.verifyToken config t now
        = Throw (codedError "Token cannot be empty" "EMPTY_TOKEN" 400))
    /\ JWTService.verifyToken config "" now
       = Throw (codedError "Token must be a valid string" "INVALID_TOKEN_FORMAT" 400).
Proof.
  intros P config t now. repeat split.
  - intros Ht Hbare. apply verifyToken_cleanToken.
    + discriminate.
    + exact Ht.
    + now rewrite cleanToken_prefixed, cleanToken_bare.
  - intros Ht Hblank. unfold JWTService.verifyToken.
    apply isEmpty_false in Ht. rewrite Ht, Hblank. reflexivity.
Qed.

Lemma verifyToken_prefix_and_blank_input_witness :
  JWTService.verifyToken Reference.config ("Bearer " ++ "  ") 0
  = JWTService.verifyToken Reference.config "  " 0
  /\ JWTService.verifyToken Reference.config "  " 0
     = Throw (codedError "Token cannot be empty" "EMPTY_TOKEN" 400).
Proof.
  destruct (verifyToken_prefix_and_blank_input Reference.config "  " 0)
    as (Hprefix & Hblank & _).
  split; [apply Hprefix | apply Hblank]; solve [discriminate | reflexivity].
Defined.

(** C8, counterexample: the empty string is an empty input, and
    [verifyToken] answers it with [INVALID_TOKEN_FORMAT]. *)
Lemma empty_string_is_not_EMPTY_TOKEN :
  ~ rejectsEveryEmptyInput Reference.config.
Proof.
  intro H. specialize (H "" 0 (or_introl eq_refl)). discriminate H.
Qed.

(** ** The token service: the domain rule of [generateToken] *)

Lemma split_cons (c : ascii) (s : string) : exists x xs, split c s = x :: xs.
Proof.
  induction s as [|a s (x & xs & IH)]; cbn [split].
  - now exists "", [].
  - destruct (Ascii.eqb a c); [now exists "", (split c s)|].
    rewrite IH. now exists (String a x), xs.
Qed.

Lemma split_without_separator (c : ascii) (s : string) :
  includes c s = false -> split c s = [s].
Proof.
  induction s as [|a s IH]; simpl; [reflexivity|].
  intro H. apply orb_false_iff in H as [Ha Hs].
  rewrite Ha, (IH Hs). reflexivity.
Qed.

Lemma split_with_separator (c : ascii) (s : string) :
  includes c s = true -> exists x d rest, split c s = x :: d :: rest.
Proof.
  induction s as [|a s IH]; simpl; [discriminate|].
  destruct (Ascii.eqb a c) eqn:Ha; simpl.
  - intros _. destruct s as [|b s'].
    + now exists "", "", [].
    + remember (String b s') as s0. destruct (split c s0) as [|y ys] eqn:Hs.
      * subst s0. simpl in Hs. destruct (Ascii.eqb b c), (split c s'); discriminate.
      * now exists "", y, ys.
  - intro H. destruct (IH H) as (x & d & rest & ->). now exists (String a x), d, rest.
Qed.

Section DomainRule.
Context {P : JwtPrimitives} (config : Config).

Lemma extractDomain_defined (e : string) (d : option string) :
  JWTService.extractDomain (Some e) = Ok d -> isEmpty e = false /\ includes "@" e = true.
Proof.
  unfold JWTService.extractDomain.
  destruct (isEmpty e); simpl; [discriminate|].
  destruct (includes "@" e); simpl; [auto | discriminate].
Qed.

Lemma extractDomain_without_at (e : string) :
  includes "@" e = false ->
  JWTService.extractDomain (Some e) = Throw (newError "Invalid email format").
Proof.
  intro H. unfold JWTService.extractDomain. rewrite H.
  now rewrite orb_true_r.
Qed.

Lemma validateEmailDomain_spec (e d : string) :
  JWTService.extractDomain (Some e) = Ok (Some d) ->
  JWTService.validateEmailDomain config (Some e)
  = Ok (toLowerCase d =? toLowerCase (allowedDomain config))%string.
Proof.
  intro H. destruct (extractDomain_defined _ _ H) as [Hne _].
  unfold JWTService.validateEmailDomain. simpl truthy. rewrite Hne. cbn [negb].
  rewrite H. reflexivity.
Qed.

End DomainRule.

(** C2, as amended.  For every identity payload with [id] and [email]
    present whose email contains ['@'] and whose domain part (the text
    after the first ['@'], up to the next one if any) does not
    case-insensitively equal the configured allowed domain,
    [generateToken] fails with [INVALID_DOMAIN]; an email without ['@']
    is rejected too, with [TOKEN_GENERATION_ERROR] and the message
    "Invalid email format". *)
Theorem generateToken_rejects_foreign_domain :
  forall {P : JwtPrimitives} (config : Config) (p : Claims) (e : string)
         (expiresIn : option string) (now : Z),
    truthy (id p) = true ->
    email p = Some e ->
    (forall d,
        JWTService.extractDomain (Some e) = Ok (Some d) ->
        toLowerCase d <> toLowerCase (allowedDomain config) ->
        JWTService.generateToken config (Some p) expiresIn now
        = Throw (codedError "Invalid email domain for token generation"
                            "INVALID_DOMAIN" 403))
    /\ (e <> "" -> includes "@" e = false ->
        JWTService.generateToken config (Some p) expiresIn now
        = Throw (mkError "Error" "Invalid email format"
                         (Some "TOKEN_GENERATION_ERROR") (Some 500) None None None)).
Proof.
  intros P config p e expiresIn now Hid Hemail. split.
  - intros d Hd Hneq.
    destruct (extractDomain_defined _ _ Hd) as [Hne _].
    unfold JWTService.generateToken.
    rewrite Hid, Hemail. simpl truthy. rewrite Hne. cbn [negb orb].
    rewrite (validateEmailDomain_spec config e d Hd).
    apply String.eqb_neq in Hneq. rewrite Hneq. reflexivity.
  - intros Hne Hat. apply isEmpty_false in Hne.
    unfold JWTService.generateToken, JWTService.validateEmailDomain.
    rewrite Hid, Hemail. simpl truthy. rewrite Hne. cbn [negb orb].
    rewrite (extractDomain_without_at e Hat). reflexivity.
Qed.

Lemma generateToken_rejects_foreign_domain_witness :
  JWTService.generateToken Reference.config
    (Some (mkClaims (Some "2") (Some "a@other.com") None None None None None None None None))
    None 1000
  = Throw (codedError "Invalid email domain for token generation" "INVALID_DOMAIN" 403).
Proof.
  refine (proj1 (generateToken_rejects_foreign_domain Reference.config
                   (mkClaims (Some "2") (Some "a@other.com") None None None None None
                             None None None)
                   "a@other.com" None 1000 eq_refl eq_refl) "other.com" eq_refl _).
  vm_compute. discriminate.
Defined.

(** C2, counterexample: an email without ['@'] does not carry the allowed
    domain, yet the call ends with [TOKEN_GENERATION_ERROR]. *)
Lemma email_without_at_is_not_INVALID_DOMAIN :
  ~ rejectsEveryForeignEmail Reference.config.
Proof.
  intro H.
  specialize (H (mkClaims (Some "1") (Some "nodomain") None None None None None None
                          None None)
                "nodomain" None 1000 eq_refl eq_refl).
  assert (Hcode : errorCodeOf
            (JWTService.generateToken Reference.config
               (Some (mkClaims (Some "1") (Some "nodomain") None None None None None
                               None None None)) None 1000)
          = Some "TOKEN_GENERATION_ERROR") by reflexivity.
  rewrite H in Hcode; [discriminate | discriminate |].
  intros (d & Hd & _). discriminate Hd.
Qed.

(** ** The authentication middleware *)

Section Middleware.
Context {P : JwtPrimitives} (config : Config).

Lemma handleAuthenticationError_unknown (error : JsError) :
  strictEquals (code error) "TOKEN_EXPIRED" = false ->
  strictEquals (code error) "INVALID_TOKEN" = false ->
  strictEquals (code error) "INVALID_TOKEN_FORMAT" = false ->
  strictEquals (code error) "INVALID_TOKEN_PAYLOAD" = false ->
  strictEquals (code error) "EMPTY_TOKEN" = false ->
  strictEquals (code error) "INVALID_DOMAIN" = false ->
  strictEquals (code error) "TOKEN_NOT_ACTIVE" = false ->
  exists msg,
    AuthMiddleware.handleAuthenticationError error
    = Respond 401 (mkErrorBody msg "AUTH_FAILED").
Proof.
  intros H1 H2 H3 H4 H5 H6 H7. unfold AuthMiddleware.handleAuthenticationError.
  rewrite H1, H2, H3, H4, H5, H6, H7. simpl. eexists. reflexivity.
Qed.

Lemma handleAuthenticationError_known (error : JsError) (c : string) :
  code error = Some c ->
  (c = "TOKEN_EXPIRED" ->
   AuthMiddleware.handleAuthenticationError error
   = Respond 401 (mkErrorBody "Your session has expired. Please sign in again."
                              "TOKEN_EXPIRED"))
  /\ (c = "INVALID_TOKEN" \/ c = "INVALID_TOKEN_FORMAT" \/ c = "INVALID_TOKEN_PAYLOAD" ->
      AuthMiddleware.handleAuthenticationError error
      = Respond 401 (mkErrorBody "Invalid authentication token. Please sign in again."
                                 "INVALID_TOKEN"))
  /\ (c = "EMPTY_TOKEN" ->
      AuthMiddleware.handleAuthenticationError error
      = Respond 401 (mkErrorBody "Authentication token is required." "MISSING_TOKEN"))
  /\ (c = "INVALID_DOMAIN" ->
      AuthMiddleware.handleAuthenticationError error
      = Respond 403 (mkErrorBody "Access restricted to authorized domains."
                                 "DOMAIN_RESTRICTED"))
  /\ (c = "TOKEN_NOT_ACTIVE" ->
      AuthMiddleware.handleAuthenticationError error
      = Respond 401 (mkErrorBody "Authentication token is not yet valid."
                                 "TOKEN_NOT_ACTIVE")).
Proof.
  intro Hc. unfold AuthMiddleware.handleAuthenticationError. rewrite Hc.
  repeat split; intro H; [| destruct H as [H|[H|H]] | | |]; subst c; reflexivity.
Qed.

End Middleware.

(** C3, as amended.  For every incoming request, [authenticateJWT]
    answers 401 with code [UNAUTHORIZED] when no token, or the empty
    token of the header ["Bearer "], is extracted from the Authorization
    header; when [verifyToken] fails on a non-empty token it
    answers by the error code: [TOKEN_EXPIRED] gives 401 [TOKEN_EXPIRED];
    [INVALID_TOKEN], [INVALID_TOKEN_FORMAT] and [INVALID_TOKEN_PAYLOAD]
    give 401 [INVALID_TOKEN]; [EMPTY_TOKEN] gives 401 [MISSING_TOKEN];
    [INVALID_DOMAIN] gives 403 [DOMAIN_RESTRICTED]; [TOKEN_NOT_ACTIVE]
    gives 401 [TOKEN_NOT_ACTIVE]; every other code gives 401
    [AUTH_FAILED], whatever the status code of the error; when
    [verifyToken] succeeds the identity and the token metadata
    (issued-at, expires-at) are attached to the request, which proceeds. *)
Theorem authenticateJWT_outcomes :
  forall {P : JwtPrimitives} (config : Config) (req : Request) (now : Z),
    (AuthMiddleware.extractTokenFromHeader req = None
     \/ AuthMiddleware.extractTokenFromHeader req = Some "" ->
     AuthMiddleware.authenticateJWT config req now
     = Respond 401 (mkErrorBody "No authentication token provided" "UNAUTHORIZED"))
    /\ (forall tok d,
          AuthMiddleware.extractTokenFromHeader req = Some tok ->
          JWTService.verifyToken config tok now = Ok d ->
          AuthMiddleware.authenticateJWT config req now
          = Next (mkRequest (authorization req)
                    (UserObject (mkIdentity (id d) (email d) (name d) (picture d)
                                            (domain d) true))
                    (Some (mkTokenInfo tok (iat d) (exp d)))))
    /\ (forall tok error,
          AuthMiddleware.extractTokenFromHeader req = Some tok -> tok <> "" ->
          JWTService.verifyToken config tok now = Throw error ->
          (code error = Some "TOKEN_EXPIRED" ->
           AuthMiddleware.authenticateJWT config req now
           = Respond 401 (mkErrorBody "Your session has expired. Please sign in again."
                                      "TOKEN_EXPIRED"))
          /\ (code error = Some "INVALID_TOKEN"
              \/ code error = Some "INVALID_TOKEN_FORMAT"
              \/ code error = Some "INVALID_TOKEN_PAYLOAD" ->
              AuthMiddleware.authenticateJWT config req now
              = Respond 401
                  (mkErrorBody "Invalid authentication token. Please sign in again."
                               "INVALID_TOKEN"))
          /\ (code error = Some "EMPTY_TOKEN" ->
              AuthMiddleware.authenticateJWT config req now
              = Respond 401 (mkErrorBody "Authentication token is required."
                                         "MISSING_TOKEN"))
          /\ (code error = Some "INVALID_DOMAIN" ->
              AuthMiddleware.authenticateJWT config req now
              = Respond 403 (mkErrorBody "Access restricted to authorized domains."
                                         "DOMAIN_RESTRICTED"))
          /\ (code error = Some "TOKEN_NOT_ACTIVE" ->
              AuthMiddleware.authenticateJWT config req now
              = Respond 401 (mkErrorBody "Authentication token is not yet valid."
                                         "TOKEN_NOT_ACTIVE"))
          /\ (~ In (code error)
                  [Some "TOKEN_EXPIRED"; Some "INVALID_TOKEN"; Some "INVALID_TOKEN_FORMAT";
                   Some "INVALID_TOKEN_PAYLOAD"; Some "EMPTY_TOKEN"; Some "INVALID_DOMAIN";
                   Some "TOKEN_NOT_ACTIVE"] ->
              exists msg,
                AuthMiddleware.authenticateJWT config req now
                = Respond 401 (mkErrorBody msg "AUTH_FAILED"))).
Proof.
  intros P config req now. unfold AuthMiddleware.authenticateJWT. split; [|split].
  - now intros [->| ->].
  - intros tok d -> Hv. destruct tok; [discriminate Hv|]. cbn [isEmpty].
    now rewrite Hv.
  - intros tok error -> Hne ->. apply isEmpty_false in Hne. rewrite Hne.
    assert (Hknown := handleAuthenticationError_known error).
    repeat split.
    + intro H. now apply (Hknown _ H).
    + intro H.
      destruct H as [H|[H|H]]; apply (Hknown _ H); auto.
    + intro H. now apply (Hknown _ H).
    + intro H. now apply (Hknown _ H).
    + intro H. now apply (Hknown _ H).
    + intro Hnot. apply handleAuthenticationError_unknown;
        (destruct (code error) as [c|]; [|reflexivity]; simpl; apply String.eqb_neq;
         intros ->; apply Hnot; simpl; tauto).
Qed.

Lemma authenticateJWT_outcomes_witness :
  AuthMiddleware.authenticateJWT Reference.config (mkRequest None UserUndefined None) 0
  = Respond 401 (mkErrorBody "No authentication token provided" "UNAUTHORIZED")
  /\ AuthMiddleware.authenticateJWT Reference.config (bearer aliceToken) (1000 + 86400)
     = Respond 401 (mkErrorBody "Your session has expired. Please sign in again."
                                "TOKEN_EXPIRED").
Proof.
  split.
  - exact (proj1 (authenticateJWT_outcomes Reference.config
                    (mkRequest None UserUndefined None) 0) (or_introl eq_refl)).
  - refine (proj1 (proj2 (proj2 (authenticateJWT_outcomes Reference.config
                                   (bearer aliceToken) (1000 + 86400)))
                     aliceToken
                     (withOriginal
                        (codedError "Your session has expired. Please sign in again."
                                    "TOKEN_EXPIRED" 401) "jwt expired")
                     _ _ _) eq_refl); [vm_compute; reflexivity | discriminate
                                      | vm_compute; reflexivity].
Defined.

(** C3, counterexample: a request without an Authorization header is
    answered with code [UNAUTHORIZED], not [missing_token]. *)
Lemma no_header_is_not_missing_token :
  ~ respondsAsTabled Reference.config.
Proof.
  intro H. specialize (H (mkRequest None UserUndefined None) 0).
  cbn in H. destruct H as (msg & c & Heq & Hc).
  injection Heq as _ <-. vm_compute in Hc. discriminate Hc.
Qed.

(** An error code outside the table is answered with 401 even when the
    error itself carries another status code: here a correctly signed
    token whose email has no ['@'] fails verification with status 400. *)
Example unknown_code_is_answered_401 :
  let tok :=
    signedAt (mkClaims (Some "1") (Some "nodomain") None None None
                       (Some "warehouse-api") (Some "warehouse-frontend") None None None)
             1000 in
  (exists e, JWTService.verifyToken Reference.config tok 1000 = Throw e
             /\ code e = Some "TOKEN_VERIFICATION_ERROR" /\ statusCode e = Some 400)
  /\ AuthMiddleware.authenticateJWT Reference.config (bearer tok) 1000
     = Respond 401 (mkErrorBody "Invalid email format" "AUTH_FAILED").
Proof.
  split; [eexists; split; [vm_compute; reflexivity | split; reflexivity]|].
  vm_compute. reflexivity.
Qed.

(** C9.  For every incoming request, [optionalAuthentication] never
    rejects: it always lets the request proceed; when no token can be
    extracted or [verifyToken] fails, for whatever reason, the user of
    the request is [null]; when [verifyToken] succeeds the authenticated
    identity is attached. *)
Theorem optionalAuthentication_never_rejects :
  forall {P : JwtPrimitives} (config : Config) (req : Request) (now : Z),
    exists req',
      AuthMiddleware.optionalAuthentication config req now = Next req'
      /\ authorization req' = authorization req
      /\ match AuthMiddleware.extractTokenFromHeader req with
         | None => user req' = UserNull
         | Some tok =>
             match JWTService.verifyToken config tok now with
             | Throw _ => user req' = UserNull
             | Ok d =>
                 user req' = UserObject (mkIdentity (id d) (email d) (name d) (picture d)
                                                    (domain d) true)
                 /\ tokenInfo req' = Some (mkTokenInfo tok (iat d) (exp d))
             end
         end.
Proof.
  intros P config req now. unfold AuthMiddleware.optionalAuthentication.
  destruct (AuthMiddleware.extractTokenFromHeader req) as [tok|].
  - destruct tok as [|a tok]; cbn [isEmpty].
    + eexists. split; [reflexivity|]. simpl. auto.
    + destruct (JWTService.verifyToken config (String a tok) now) as [d|e];
        eexists; (split; [reflexivity|]); simpl; auto.
  - eexists. split; [reflexivity|]. simpl. auto.
Qed.

(** ** The identity-provider gateway: the domain check of [getUserProfile] *)

Section Gateway.
Context {G : Provider} (config : Config).

Lemma validateDomain_true_iff (e : string) :
  GoogleOAuthService.validateDomain config (Some e) = true <->
  exists d, GoogleOAuthService.extractDomain (Some e) = Ok d
            /\ toLowerCase d = toLowerCase (allowedDomain config).
Proof.
  unfold GoogleOAuthService.validateDomain. simpl truthy.
  destruct (isEmpty e) eqn:He; cbn [negb].
  - apply isEmpty_true in He. subst e. simpl. split; [discriminate|].
    intros (d & Hd & _). discriminate Hd.
  - destruct (GoogleOAuthService.extractDomain (Some e)) as [d|err]; simpl.
    + rewrite String.eqb_eq. split.
      * intro H. now exists d.
      * intros (d' & [= <-] & H). exact H.
    + split; [discriminate|]. intros (d & Hd & _). discriminate Hd.
Qed.

(** A profile is handed to the caller only when its email carries the
    allowed domain. *)
Lemma getUserProfile_returns_only_allowed (accessToken : string) (p : Profile) :
  GoogleOAuthService.getUserProfile config accessToken = Ok p ->
  GoogleOAuthService.validateDomain config (Some (user_email p)) = true.
Proof.
  unfold GoogleOAuthService.getUserProfile.
  destruct (isEmpty accessToken); [discriminate|].
  destruct (fetchUserInfo accessToken) as [m|r]; [discriminate|].
  destruct (ok r); cbn [negb].
  2:{ destruct (errorDataOf _ _); [|discriminate].
      destruct (status r =? 401), (status r =? 403), (500 <=? status r); discriminate. }
  destruct (json r) as [| |pd]; try discriminate.
  destruct (truthy (profile_id pd)); [|discriminate].
  destruct (truthy (profile_email pd)) eqn:Hemail; [|discriminate].
  cbn [negb orb].
  destruct (GoogleOAuthService.validateDomain config (profile_email pd)) eqn:Hv; cbn [negb].
  - intros [= <-]. simpl. destruct (profile_email pd) as [e|]; [|discriminate].
    simpl in Hemail. simpl. destruct e; [discriminate | exact Hv].
  - destruct (GoogleOAuthService.extractDomain (profile_email pd)); discriminate.
Qed.

(** A fetched profile with a well-formed email of another domain ends
    with [DOMAIN_RESTRICTED], carrying the observed and the allowed
    domain. *)
Lemma getUserProfile_domain_restricted
  (accessToken : string) (r : Response ProfileBody) (pd : ProfileBody) (e d : string) :
  accessToken <> "" ->
  fetchUserInfo accessToken = Fetched r -> ok r = true -> json r = JsonValue pd ->
  truthy (profile_id pd) = true -> profile_email pd = Some e ->
  GoogleOAuthService.extractDomain (Some e) = Ok d ->
  toLowerCase d <> toLowerCase (allowedDomain config) ->
  GoogleOAuthService.getUserProfile config accessToken
  = Throw (mkError "Error"
                   ("Access restricted to @" ++ allowedDomain config
                    ++ " accounts. Found: @" ++ d)
                   (Some "DOMAIN_RESTRICTED") (Some 403) None
                   (Some d) (Some (allowedDomain config))).
Proof.
  intros Hat Hfetch Hok Hjson Hid Hemail Hd Hneq.
  unfold GoogleOAuthService.getUserProfile.
  apply isEmpty_false in Hat. rewrite Hat, Hfetch, Hok, Hjson, Hid, Hemail.
  assert (He : truthy (Some e) = true).
  { simpl. destruct e; [discriminate Hd | reflexivity]. }
  rewrite He. cbn [negb orb].
  assert (Hv : GoogleOAuthService.validateDomain config (Some e) = false).
  { apply not_true_is_false. rewrite validateDomain_true_iff.
    intros (d' & Hd' & Heq). rewrite Hd in Hd'. injection Hd' as <-. now apply Hneq. }
  rewrite Hv, Hd. reflexivity.
Qed.

(** A fetched profile whose email carries the allowed domain is handed
    to the caller. *)
Lemma getUserProfile_returns_allowed
  (accessToken : string) (r : Response ProfileBody) (pd : ProfileBody) (i e : string) :
  accessToken <> "" ->
  fetchUserInfo accessToken = Fetched r -> ok r = true -> json r = JsonValue pd ->
  profile_id pd = Some i -> i <> "" -> profile_email pd = Some e ->
  GoogleOAuthService.validateDomain config (Some e) = true ->
  exists p,
    GoogleOAuthService.getUserProfile config accessToken = Ok p
    /\ user_id p = i /\ user_email p = e.
Proof.
  intros Hat Hfetch Hok Hjson Hid Hi Hemail Hv.
  assert (He : isEmpty e = false).
  { destruct e; [|reflexivity]. discriminate Hv. }
  apply isEmpty_false in Hat, Hi.
  unfold GoogleOAuthService.getUserProfile.
  rewrite Hat, Hfetch, Hok, Hjson, Hid, Hemail. cbn [truthy negb orb].
  rewrite Hi, He. cbn [negb orb]. rewrite Hv. cbn [negb orElse].
  rewrite Hi, He. eexists. split; [reflexivity|]. auto.
Qed.

End Gateway.

(** C6, the defect.  The provider returns the profile
    [{ id: "2", email: "a@" }]: the email's domain is the empty string,
    which is not the allowed domain, so [validateDomain] answers [false];
    the branch that builds [DOMAIN_RESTRICTED] then calls [extractDomain]
    once more, outside the [catch] of [validateDomain], and the call ends
    with [PROFILE_RETRIEVAL_ERROR] (status 500) carrying no domain. *)
Theorem getUserProfile_blank_domain_is_not_DOMAIN_RESTRICTED :
  GoogleOAuthService.validateDomain Reference.config (Some "a@") = false
  /\ GoogleOAuthService.getUserProfile (G := providerWithProfile "2" "a@")
       Reference.config "ya29.access"
     = Throw (mkError "Error" "Invalid email format: malformed domain"
                      (Some "PROFILE_RETRIEVAL_ERROR") (Some 500) None None None).
Proof. split; reflexivity. Qed.

(** The scenario of the specification: [a@other.com] is refused with
    [userDomain = "other.com"]. *)
Example getUserProfile_other_com :
  GoogleOAuthService.getUserProfile (G := providerWithProfile "2" "a@other.com")
    Reference.config "ya29.access"
  = Throw (mkError "Error" "Access restricted to @wareongo.com accounts. Found: @other.com"
                   (Some "DOMAIN_RESTRICTED") (Some 403) None
                   (Some "other.com") (Some "wareongo.com")).
Proof. reflexivity. Qed.

(** ** The OAuth callback *)

Section Callback.
Context {P : JwtPrimitives} {G : Provider} {U : UrlCodec} (config : Config).

Lemma generateToken_extractDomain (p : Claims) (expiresIn : option string) (now : Z)
  (tok : string) :
  JWTService.generateToken config (Some p) expiresIn now = Ok tok ->
  exists e d,
    email p = Some e /\ truthy (id p) = true
    /\ JWTService.extractDomain (Some e) = Ok (Some d)
    /\ toLowerCase d = toLowerCase (allowedDomain config)
    /\ Jsonwebtoken.sign (JWTService.tokenPayload p (Some d)) (jwtSecret config)
                         (orElse expiresIn (jwtExpiresIn config)) now = Ok tok.
Proof.
  unfold JWTService.generateToken, JWTService.validateEmailDomain.
  destruct (truthy (id p)); [|discriminate].
  destruct (email p) as [e|]; [|discriminate].
  destruct (truthy (Some e)); [|discriminate]. cbn [negb orb].
  destruct (JWTService.extractDomain (Some e)) as [[d|]|err] eqn:Hd;
    cbn [bind try_catch]; try discriminate.
  destruct (toLowerCase d =? toLowerCase (allowedDomain config))%string eqn:Heq;
    cbn [negb bind try_catch]; [|discriminate].
  destruct (Jsonwebtoken.sign _ _ _ _) as [t|err] eqn:Hs; cbn [try_catch]; [|discriminate].
  intros [= <-]. exists e, d. apply String.eqb_eq in Heq. auto.
Qed.

Lemma generateToken_message_wellFormed (payload : option Claims)
      (expiresIn : option string) (now : Z) (error : JsError) :
  JWTService.generateToken config payload expiresIn now = Throw error ->
  isWellFormed (message error) = true /\ isEmpty (message error) = false.
Proof.
  unfold JWTService.generateToken.
  destruct payload as [p|]; [|intros [= <-]; split; reflexivity].
  destruct (negb (truthy (id p)) || negb (truthy (email p)));
    [intros [= <-]; split; reflexivity|].
  unfold JWTService.validateEmailDomain.
  destruct (negb (truthy (email p))); cbn [bind negb try_catch handleError];
    [intros [= <-]; split; reflexivity|].
  unfold JWTService.extractDomain.
  destruct (email p) as [e|]; [|intros [= <-]; split; reflexivity].
  destruct (isEmpty e || negb (includes "@" e)); cbn [bind try_catch handleError];
    [intros [= <-]; split; reflexivity|].
  destruct (nth_error (split "@" e) 1) as [dom|]; cbn [try_catch handleError];
    [|intros [= <-]; split; reflexivity].
  destruct (toLowerCase dom =? toLowerCase (allowedDomain config))%string;
    cbn [negb bind try_catch handleError]; [|intros [= <-]; split; reflexivity].
  destruct (Jsonwebtoken.sign _ _ _ _); cbn [try_catch handleError];
    [discriminate | intros [= <-]; split; reflexivity].
Qed.

(** What the [catch] block of the callback makes of an error *)
Lemma callback_catch (msg : string) :
  match AuthController.redirectWithError config msg with
  | Ok reply => reply
  | Throw uriError => Rejects uriError
  end
  = if isWellFormed msg
    then Redirect (frontendUrl config ++ "/?error=" ++ encodeURIComponent msg)
    else Rejects uriError.
Proof.
  unfold AuthController.redirectWithError, encodeComponent.
  now destruct (isWellFormed msg).
Qed.

(** An attempt that ends in a redirect with an error message, directly
    or through the [catch] block *)
Lemma callback_try (msg : string) :
  match AuthController.redirectWithError config msg with
  | Ok reply => reply
  | Throw error =>
      match AuthController.redirectWithError config
              (if isEmpty (message error) then "Authentication failed"
               else message error) with
      | Ok reply => reply
      | Throw uriError => Rejects uriError
      end
  end
  = Redirect (frontendUrl config ++ "/?error="
              ++ encodeURIComponent (if isWellFormed msg then msg else "URI malformed")).
Proof.
  unfold AuthController.redirectWithError, encodeComponent.
  now destruct (isWellFormed msg).
Qed.

End Callback.

(** C7, as amended.  For every callback request and every behaviour of
    the provider, [handleOAuthCallback] either answers with a redirect to
    the configured front-end URL or, in one case, rejects: on success it
    redirects to [/auth/callback] with the signed token and the identity;
    otherwise to [/?error=] with a message.  The message is the one
    [getOAuthErrorMessage] gives for the provider's [error] parameter
    ("URI malformed" when that text is not well formed);
    "Authorization code is required" when there is no code; and, when
    the code exchange, the profile fetch or the token issuance fails, the
    message of that internal error itself ("Authentication failed" when
    it is empty).  When the message of a failed code exchange or profile
    fetch is not well formed, [encodeURIComponent] throws inside the
    [catch] block and the method rejects with that [URIError]; it rejects
    in no other case. *)
Theorem handleOAuthCallback_redirects_or_rejects :
  forall {P : JwtPrimitives} {G : Provider} {U : UrlCodec}
         (config : Config) (query : Query) (now : Z),
    ((exists rest,
         AuthController.handleOAuthCallback config query now
         = Redirect (frontendUrl config ++ rest))
     \/ (AuthController.handleOAuthCallback config query now = Rejects uriError
         /\ exists error,
              truthy (query_error query) = false /\ truthy (query_code query) = true
              /\ GoogleOAuthService.completeOAuthFlow config (query_code query)
                 = Throw error
              /\ isWellFormed (message error) = false))
    /\ (forall err,
          query_error query = Some err -> err <> "" ->
          AuthController.handleOAuthCallback config query now
          = Redirect (frontendUrl config ++ "/?error="
                      ++ encodeURIComponent
                           (if isWellFormed
                                 (AuthController.getOAuthErrorMessage
                                    err (query_error_description query))
                            then AuthController.getOAuthErrorMessage
                                   err (query_error_description query)
                            else "URI malformed")))
    /\ (truthy (query_error query) = false -> truthy (query_code query) = false ->
        AuthController.handleOAuthCallback config query now
        = Redirect (frontendUrl config ++ "/?error="
                    ++ encodeURIComponent "Authorization code is required"))
    /\ (forall error,
          truthy (query_error query) = false -> truthy (query_code query) = true ->
          GoogleOAuthService.completeOAuthFlow config (query_code query) = Throw error ->
          AuthController.handleOAuthCallback config query now
          = if isWellFormed (message error)
            then Redirect (frontendUrl config ++ "/?error="
                           ++ encodeURIComponent
                                (if isEmpty (message error) then "Authentication failed"
                                 else message error))
            else Rejects uriError)
    /\ (forall r error,
          truthy (query_error query) = false -> truthy (query_code query) = true ->
          GoogleOAuthService.completeOAuthFlow config (query_code query) = Ok r ->
          JWTService.generateToken
            config (Some (AuthController.payloadOfProfile (oauth_user r))) None now
          = Throw error ->
          AuthController.handleOAuthCallback config query now
          = Redirect (frontendUrl config ++ "/?error="
                      ++ encodeURIComponent
                           (if isEmpty (message error) then "Authentication failed"
                            else message error)))
    /\ (forall r tok,
          truthy (query_error query) = false -> truthy (query_code query) = true ->
          GoogleOAuthService.completeOAuthFlow config (query_code query) = Ok r ->
          JWTService.generateToken
            config (Some (AuthController.payloadOfProfile (oauth_user r))) None now
          = Ok tok ->
          isWellFormed tok = true ->
          exists d,
            JWTService.extractDomain (Some (user_email (oauth_user r))) = Ok (Some d)
            /\ AuthController.handleOAuthCallback config query now
               = Redirect (frontendUrl config ++ "/auth/callback?token="
                           ++ encodeURIComponent tok ++ "&user="
                           ++ encodeURIComponent
                                (stringifyUserData
                                   (mkUserData (user_id (oauth_user r))
                                               (user_email (oauth_user r))
                                               (user_name (oauth_user r))
                                               (user_picture (oauth_user r))
                                               (Some d))))).
Proof.
  intros P G U config query now.
  assert (Hflow : forall error,
             truthy (query_error query) = false -> truthy (query_code query) = true ->
             GoogleOAuthService.completeOAuthFlow config (query_code query) = Throw error ->
             AuthController.handleOAuthCallback config query now
             = if isWellFormed (message error)
               then Redirect (frontendUrl config ++ "/?error="
                              ++ encodeURIComponent
                                   (if isEmpty (message error) then "Authentication failed"
                                    else message error))
               else Rejects uriError).
  { intros error He Hc Hf. unfold AuthController.handleOAuthCallback.
    rewrite He, Hc, Hf. cbn [negb bind]. rewrite callback_catch.
    destruct (message error) as [|a m] eqn:Hm; [reflexivity|]. reflexivity. }
  assert (Hgen : forall r error,
             truthy (query_error query) = false -> truthy (query_code query) = true ->
             GoogleOAuthService.completeOAuthFlow config (query_code query) = Ok r ->
             JWTService.generateToken
               config (Some (AuthController.payloadOfProfile (oauth_user r))) None now
             = Throw error ->
             AuthController.handleOAuthCallback config query now
             = Redirect (frontendUrl config ++ "/?error="
                         ++ encodeURIComponent
                              (if isEmpty (message error) then "Authentication failed"
                               else message error))).
  { intros r error He Hc Hf Hg. unfold AuthController.handleOAuthCallback.
    rewrite He, Hc, Hf. cbn [negb bind]. rewrite Hg. cbn [bind].
    rewrite callback_catch.
    destruct (generateToken_message_wellFormed config _ _ _ _ Hg) as [Hw Hne].
    now rewrite Hne, Hw. }
  assert (Hok : forall r tok,
             truthy (query_error query) = false -> truthy (query_code query) = true ->
             GoogleOAuthService.completeOAuthFlow config (query_code query) = Ok r ->
             JWTService.generateToken
               config (Some (AuthController.payloadOfProfile (oauth_user r))) None now
             = Ok tok ->
             exists d,
               JWTService.extractDomain (Some (user_email (oauth_user r))) = Ok (Some d)
               /\ AuthController.handleOAuthCallback config query now
                  = if isWellFormed tok
                    then Redirect (frontendUrl config ++ "/auth/callback?token="
                                   ++ encodeURIComponent tok ++ "&user="
                                   ++ encodeURIComponent
                                        (stringifyUserData
                                           (mkUserData (user_id (oauth_user r))
                                                       (user_email (oauth_user r))
                                                       (user_name (oauth_user r))
                                                       (user_picture (oauth_user r))
                                                       (Some d))))
                    else Redirect (frontendUrl config ++ "/?error="
                                   ++ encodeURIComponent "URI malformed")).
  { intros r tok He Hc Hf Hg.
    destruct (generateToken_extractDomain config _ _ _ _ Hg)
      as (e & d & [= <-] & _ & Hd & _).
    exists d. split; [exact Hd|]. unfold AuthController.handleOAuthCallback.
    rewrite He, Hc, Hf. cbn [negb bind]. rewrite Hg. cbn [bind]. rewrite Hd. cbn [bind].
    unfold encodeComponent at 1. destruct (isWellFormed tok); cbn [bind].
    - unfold encodeComponent. rewrite stringify_wellFormed. reflexivity.
    - rewrite callback_catch. reflexivity. }
  split; [|split; [|split; [|split; [|split]]]].
  - destruct (truthy (query_error query)) eqn:He.
    { left. unfold AuthController.handleOAuthCallback. rewrite He, callback_try.
      eexists; reflexivity. }
    destruct (truthy (query_code query)) eqn:Hc.
    2:{ left. unfold AuthController.handleOAuthCallback. rewrite He, Hc. cbn [negb].
        rewrite callback_try. eexists; reflexivity. }
    destruct (GoogleOAuthService.completeOAuthFlow config (query_code query))
      as [r|error] eqn:Hf.
    + destruct (JWTService.generateToken
                  config (Some (AuthController.payloadOfProfile (oauth_user r))) None now)
        as [tok|error] eqn:Hg.
      * left. destruct (Hok r tok eq_refl eq_refl eq_refl Hg) as (d & _ & ->).
        destruct (isWellFormed tok); eexists; reflexivity.
      * left. rewrite (Hgen r error eq_refl eq_refl eq_refl Hg). eexists; reflexivity.
    + rewrite (Hflow error eq_refl eq_refl eq_refl).
      destruct (isWellFormed (message error)) eqn:Hw.
      * left. eexists; reflexivity.
      * right. split; [reflexivity|]. now exists error.
  - intros err Herr Hne. unfold AuthController.handleOAuthCallback.
    rewrite Herr. apply isEmpty_false in Hne. cbn [truthy orElse]. rewrite Hne.
    cbn [negb]. apply callback_try.
  - intros He Hc. unfold AuthController.handleOAuthCallback. rewrite He, Hc.
    cbn [negb]. now rewrite callback_try.
  - exact Hflow.
  - exact Hgen.
  - intros r tok He Hc Hf Hg Hw.
    destruct (Hok r tok He Hc Hf Hg) as (d & Hd & Hh). rewrite Hw in Hh.
    now exists d.
Qed.

(** The scenario of the specification: [access_denied] maps to the fixed
    cancellation message, whatever description the provider sends. *)
Example getOAuthErrorMessage_access_denied :
  forall {U : UrlCodec} (description : option string),
    AuthController.getOAuthErrorMessage "access_denied" description
    = "You cancelled the sign-in process. Please try again to access the application.".
Proof. reflexivity. Qed.

Lemma handleOAuthCallback_redirects_or_rejects_witness :
  AuthController.handleOAuthCallback (G := providerRejecting "invalid_grant" "Bad Request")
    Reference.config (mkQuery (Some "4/0AX4") None None None) 1000
  = (if isWellFormed
          (message (codedError "Authorization code is invalid or expired"
                               "INVALID_AUTH_CODE" 400))
     then Redirect (frontendUrl Reference.config ++ "/?error="
                    ++ encodeURIComponent
                         (if isEmpty
                               (message (codedError "Authorization code is invalid or expired"
                                                    "INVALID_AUTH_CODE" 400))
                          then "Authentication failed"
                          else message (codedError "Authorization code is invalid or expired"
                                                   "INVALID_AUTH_CODE" 400)))
     else Rejects uriError)
  /\ AuthController.handleOAuthCallback (G := providerRejecting "invalid_grant" "Bad Request")
       Reference.config (mkQuery None (Some "access_denied") (Some "raw") None) 1000
     = Redirect (frontendUrl Reference.config ++ "/?error="
                 ++ encodeURIComponent
                      (if isWellFormed
                            (AuthController.getOAuthErrorMessage
                               "access_denied" (Some "raw"))
                       then AuthController.getOAuthErrorMessage
                              "access_denied" (Some "raw")
                       else "URI malformed")).
Proof.
  split.
  - exact (proj1 (proj2 (proj2 (proj2
             (handleOAuthCallback_redirects_or_rejects
                (G := providerRejecting "invalid_grant" "Bad Request")
                Reference.config (mkQuery (Some "4/0AX4") None None None) 1000))))
             (codedError "Authorization code is invalid or expired"
                         "INVALID_AUTH_CODE" 400)
             eq_refl eq_refl eq_refl).
  - refine (proj1 (proj2
             (handleOAuthCallback_redirects_or_rejects
                (G := providerRejecting "invalid_grant" "Bad Request")
                Reference.config
                (mkQuery None (Some "access_denied") (Some "raw") None) 1000))
             "access_denied" eq_refl _).
    discriminate.
Defined.

(** C7, counterexample.  First, the message carried is the internal one:
    the provider rejects the code exchange with a 400 and its own
    description; the gateway wraps that description into the message of
    its error, and the callback redirects with exactly that message.
    Second, the callback does not always redirect: when that description
    holds an unpaired surrogate, [encodeURIComponent] throws inside the
    [catch] block and the method rejects with the [URIError]. *)
Lemma callback_forwards_message_and_can_reject :
  ~ callbackHidesInternalErrors
      (G := providerRejecting "redirect_uri_mismatch"
                              "The redirect URI did not match a registered one")
      Reference.config
  /\ ~ callbackAlwaysRedirects
        (G := providerRejecting "redirect_uri_mismatch" loneSurrogate)
        Reference.config.
Proof.
  split.
  - intro H.
    apply (H (mkQuery (Some "4/0AX4") None None None) 1000
             (codedError
                "Google OAuth token exchange failed: The redirect URI did not match a registered one"
                "OAUTH_REQUEST_ERROR" 400));
      reflexivity.
  - intro H. destruct (H (mkQuery (Some "4/0AX4") None None None) 1000) as [url Hurl].
    assert (Hrej : AuthController.handleOAuthCallback
                     (G := providerRejecting "redirect_uri_mismatch" loneSurrogate)
                     Reference.config (mkQuery (Some "4/0AX4") None None None) 1000
                   = Rejects uriError) by reflexivity.
    rewrite Hrej in Hurl. discriminate Hurl.
Qed.

(** ** The reference implementation satisfies the laws *)

Module ReferenceFacts.
Import Reference.

Lemma hexPair (a : ascii) :
  hexValue (ascii_of_nat (97 + nat_of_ascii a / 16)) = Some (nat_of_ascii a / 16)%nat
  /\ hexValue (ascii_of_nat (97 + nat_of_ascii a mod 16)) = Some (nat_of_ascii a mod 16)%nat
  /\ ascii_of_nat (16 * (nat_of_ascii a / 16) + nat_of_ascii a mod 16) = a.
Proof.
  destruct a as [[|] [|] [|] [|] [|] [|] [|] [|]]; repeat split; reflexivity.
Qed.

Lemma hexLetters (a : ascii) :
  let hi := ascii_of_nat (97 + nat_of_ascii a / 16) in
  let lo := ascii_of_nat (97 + nat_of_ascii a mod 16) in
  Ascii.eqb hi "_" = false /\ Ascii.eqb lo "_" = false
  /\ Jsonwebtoken.isBase64url hi = true /\ Jsonwebtoken.isBase64url lo = true.
Proof.
  destruct a as [[|] [|] [|] [|] [|] [|] [|] [|]]; repeat split; reflexivity.
Qed.

Lemma hexDecode_hexEncode (s : string) : hexDecode (hexEncode s) = Some s.
Proof.
  induction s as [|a s IH]; [reflexivity|].
  cbn [hexEncode hexDecode].
  destruct (hexPair a) as (-> & -> & Ha). now rewrite IH, Ha.
Qed.

Lemma hexEncode_injective (s t : string) : hexEncode s = hexEncode t -> s = t.
Proof.
  intro H. apply (f_equal hexDecode) in H.
  rewrite !hexDecode_hexEncode in H. now injection H.
Qed.

Lemma hexEncode_no_underscore (s : string) : includes "_" (hexEncode s) = false.
Proof.
  induction s as [|a s IH]; [reflexivity|].
  cbn [hexEncode includes].
  destruct (hexLetters a) as (-> & -> & _). exact IH.
Qed.

Lemma hexEncode_base64url (s : string) : Jsonwebtoken.allBase64url (hexEncode s) = true.
Proof.
  induction s as [|a s IH]; [reflexivity|].
  cbn [hexEncode Jsonwebtoken.allBase64url].
  destruct (hexLetters a) as (_ & _ & -> & ->). exact IH.
Qed.

Lemma bitsDecode_bitsEncode (p : positive) : bitsDecode (bitsEncode p) = Some p.
Proof. induction p as [p IH|p IH|]; simpl; [now rewrite IH..|reflexivity]. Qed.

Lemma bitsEncode_no_underscore (p : positive) : includes "_" (bitsEncode p) = false.
Proof. induction p as [p IH|p IH|]; simpl; auto. Qed.

Lemma bitsEncode_base64url (p : positive) : Jsonwebtoken.allBase64url (bitsEncode p) = true.
Proof. induction p as [p IH|p IH|]; simpl; auto. Qed.

Lemma takeField_append (f rest : string) :
  includes "_" f = false -> takeField (f ++ String "_" rest) = Some (f, rest).
Proof.
  induction f as [|a f IH]; [reflexivity|].
  cbn [includes append takeField]. intro H.
  apply orb_false_iff in H as [-> Hf]. now rewrite (IH Hf).
Qed.

Lemma allBase64url_append (a b : string) :
  Jsonwebtoken.allBase64url (a ++ b)
  = Jsonwebtoken.allBase64url a && Jsonwebtoken.allBase64url b.
Proof.
  induction a as [|x a IH]; [reflexivity|].
  cbn [append Jsonwebtoken.allBase64url]. now rewrite IH, andb_assoc.
Qed.

Lemma getString_putString (v : option string) (rest : string) :
  getString (putString v rest) = Some (v, rest).
Proof.
  destruct v as [s|]; [|reflexivity].
  unfold putString, getString.
  rewrite (takeField_append _ _ (hexEncode_no_underscore s)).
  cbn. now rewrite hexDecode_hexEncode.
Qed.

Lemma getZ_putZ (v : option Z) (rest : string) : getZ (putZ v rest) = Some (v, rest).
Proof.
  destruct v as [[|p|p]|]; try reflexivity; unfold putZ, getZ;
    rewrite (takeField_append _ _ (bitsEncode_no_underscore p));
    cbn; now rewrite bitsDecode_bitsEncode.
Qed.

Lemma putString_base64url (v : option string) (rest : string) :
  Jsonwebtoken.allBase64url (putString v rest) = Jsonwebtoken.allBase64url rest.
Proof.
  destruct v as [s|]; [|reflexivity].
  unfold putString. cbn [Jsonwebtoken.allBase64url].
  rewrite allBase64url_append, hexEncode_base64url. reflexivity.
Qed.

Lemma putZ_base64url (v : option Z) (rest : string) :
  Jsonwebtoken.allBase64url (putZ v rest) = Jsonwebtoken.allBase64url rest.
Proof.
  destruct v as [[|p|p]|]; try reflexivity; unfold putZ;
    cbn [Jsonwebtoken.allBase64url];
    rewrite allBase64url_append, bitsEncode_base64url; reflexivity.
Qed.

Lemma decodeClaims_encodeClaims (c : Claims) : decodeClaims (encodeClaims c) = Some c.
Proof.
  destruct c. unfold encodeClaims, decodeClaims. cbn [id email name picture domain iss aud iat exp nbf].
  rewrite !getString_putString, !getZ_putZ. reflexivity.
Qed.

Lemma encodeClaims_base64url (c : Claims) :
  Jsonwebtoken.allBase64url (encodeClaims c) = true.
Proof.
  unfold encodeClaims. rewrite !putString_base64url, !putZ_base64url. reflexivity.
Qed.

Lemma encodeClaims_nonempty (c : Claims) : encodeClaims c <> "".
Proof. unfold encodeClaims. destruct (id c); discriminate. Qed.

Lemma soundCodec : SoundCodec Reference.primitives.
Proof.
  constructor; cbn.
  - intro c. now rewrite decodeClaims_encodeClaims.
  - exact encodeClaims_base64url.
  - exact encodeClaims_nonempty.
  - reflexivity.
  - intros k m. rewrite allBase64url_append, hexEncode_base64url.
    cbn. apply hexEncode_base64url.
  - discriminate.
Qed.

Lemma collisionFree : CollisionFree Reference.primitives.
Proof.
  constructor. cbn. intros k m1 m2 H. injection H as H.
  apply append_inv_head in H. injection H as H. now apply hexEncode_injective.
Qed.

End ReferenceFacts.

(** ** Signing and reading back *)

Lemma split_append (c : ascii) (a b : string) :
  includes c a = false -> split c (a ++ String c b) = a :: split c b.
Proof.
  induction a as [|x a IH]; cbn [includes append split].
  - intros _. now rewrite Ascii.eqb_refl.
  - intro H. apply orb_false_iff in H as [-> Ha]. now rewrite (IH Ha).
Qed.

Lemma base64url_no_dot (s : string) :
  Jsonwebtoken.allBase64url s = true -> includes "." s = false.
Proof.
  induction s as [|a s IH]; [reflexivity|].
  cbn [Jsonwebtoken.allBase64url includes]. intro H.
  apply andb_true_iff in H as [Ha Hs]. rewrite (IH Hs), orb_false_r.
  destruct (Ascii.eqb_spec a "."); [subst a; discriminate Ha | reflexivity].
Qed.

Lemma trim_keeps_head (a : ascii) (r : string) :
  isWhitespace a = false -> exists r', trim (String a r) = String a r'.
Proof.
  intro Ha. unfold trim. cbn [trimEnd].
  destruct (trimEnd r) as [|b r'']; rewrite ?Ha; cbn [trimStart]; rewrite Ha;
    eexists; reflexivity.
Qed.

Section SignAndVerify.
Context {P : JwtPrimitives} {C : SoundCodec P}.

Lemma sign_inv (payload : Claims) (secret expiresIn : string) (now : Z) (tok : string) :
  Jsonwebtoken.sign payload secret expiresIn now = Ok tok ->
  exists span,
    timespan expiresIn = Some span /\ secret <> ""
    /\ tok = compact (signedBody payload now span) secret.
Proof.
  unfold Jsonwebtoken.sign. destruct (isEmpty secret) eqn:Hs; [discriminate|].
  destruct (timespan expiresIn) as [span|]; [|discriminate].
  intros [= <-]. exists span. apply isEmpty_false in Hs. auto.
Qed.

Lemma sign_ok (payload : Claims) (secret expiresIn : string) (now span : Z) :
  secret <> "" -> timespan expiresIn = Some span ->
  Jsonwebtoken.sign payload secret expiresIn now
  = Ok (compact (signedBody payload now span) secret).
Proof.
  intros Hs Ht. apply isEmpty_false in Hs.
  unfold Jsonwebtoken.sign. now rewrite Hs, Ht.
Qed.

Lemma split_compact (body : Claims) (secret : string) :
  split "." (compact body secret)
  = [Jsonwebtoken.joseHeader; encodePayload body;
     hmacSha256 secret (Jsonwebtoken.joseHeader ++ "." ++ encodePayload body)].
Proof.
  unfold compact. rewrite !append_assoc.
  change ("." ++ ?x) with (String "." x).
  rewrite split_append by reflexivity.
  change (String "." ?x ++ ?y) with (String "." (x ++ y)).
  cbn [append].
  rewrite split_append by (apply base64url_no_dot, encode_base64url).
  rewrite split_without_separator by (apply base64url_no_dot, hmac_base64url).
  reflexivity.
Qed.

Lemma decodeComplete_compact (body : Claims) (secret : string) :
  Jsonwebtoken.decodeComplete (compact body secret)
  = Ok (Some (Jsonwebtoken.hs256Header, Some body)).
Proof.
  unfold Jsonwebtoken.decodeComplete. rewrite split_compact.
  rewrite encode_base64url, hmac_base64url, header_parses, decode_encode.
  destruct (encodePayload body) eqn:He; [now apply encode_nonempty in He|].
  reflexivity.
Qed.

Lemma decode_compact (body : Claims) (secret : string) :
  Jsonwebtoken.decode (compact body secret) = Ok (Some body).
Proof.
  unfold Jsonwebtoken.decode. now rewrite decodeComplete_compact.
Qed.

Lemma decodeToken_compact (body : Claims) (secret : string) :
  JWTService.decodeToken (compact body secret) = Ok (Some body).
Proof.
  unfold JWTService.decodeToken.
  change (JWTService.cleanToken (compact body secret)) with (compact body secret).
  now rewrite decode_compact.
Qed.

Lemma compact_head (body : Claims) (secret : string) :
  exists r, compact body secret = String "e" r.
Proof. unfold compact. eexists. reflexivity. Qed.

Lemma cleanToken_compact (body : Claims) (secret : string) :
  JWTService.cleanToken (compact body secret) = compact body secret.
Proof. reflexivity. Qed.

Lemma trim_compact (body : Claims) (secret : string) :
  isEmpty (trim (compact body secret)) = false.
Proof.
  destruct (compact_head body secret) as [r ->].
  destruct (trim_keeps_head "e" r eq_refl) as [r' ->]. reflexivity.
Qed.

Lemma verify_compact (body : Claims) (secret audience issuer : string) (now : Z) :
  secret <> "" ->
  Jsonwebtoken.checkNotBefore body now = Ok tt ->
  Jsonwebtoken.checkExpiry body now = Ok tt ->
  aud body = Some audience -> iss body = Some issuer ->
  Jsonwebtoken.verify (compact body secret) secret audience issuer now = Ok body.
Proof.
  intros Hs Hnbf Hexp Haud Hiss. unfold Jsonwebtoken.verify.
  destruct (compact_head body secret) as [r Hr]. rewrite Hr at 1. cbn [isEmpty].
  rewrite split_compact, decodeComplete_compact. cbn [bind]. cbv zeta.
  rewrite (proj2 (isEmpty_false _) (hmac_nonempty secret _)).
  apply isEmpty_false in Hs. rewrite Hs.
  rewrite !String.eqb_refl. cbn [negb andb orb].
  rewrite Hnbf, Hexp. cbn [bind].
  unfold Jsonwebtoken.checkAudience, Jsonwebtoken.checkIssuer.
  rewrite Haud, Hiss. cbn [strictEquals]. rewrite !String.eqb_refl. reflexivity.
Qed.

Lemma verify_compact_checks (body : Claims) (secret audience issuer : string) (now : Z) :
  secret <> "" ->
  Jsonwebtoken.verify (compact body secret) secret audience issuer now
  = (_ <- Jsonwebtoken.checkNotBefore body now ;;
     _ <- Jsonwebtoken.checkExpiry body now ;;
     _ <- Jsonwebtoken.checkAudience body audience ;;
     _ <- Jsonwebtoken.checkIssuer body issuer ;;
     Ok body).
Proof.
  intro Hs. unfold Jsonwebtoken.verify.
  destruct (compact_head body secret) as [r Hr]. rewrite Hr at 1. cbn [isEmpty].
  rewrite split_compact, decodeComplete_compact. cbn [bind]. cbv zeta.
  rewrite (proj2 (isEmpty_false _) (hmac_nonempty secret _)).
  apply isEmpty_false in Hs. rewrite Hs.
  rewrite !String.eqb_refl. reflexivity.
Qed.

End SignAndVerify.

(** ** Issuing and verifying *)

Section IssueAndVerify.
Context {P : JwtPrimitives} {C : SoundCodec P} (config : Config).

Lemma generateToken_ok (p : Claims) (e d : string) (expiresIn : option string)
  (now span : Z) :
  truthy (id p) = true -> email p = Some e ->
  JWTService.extractDomain (Some e) = Ok (Some d) ->
  toLowerCase d = toLowerCase (allowedDomain config) ->
  jwtSecret config <> "" ->
  timespan (orElse expiresIn (jwtExpiresIn config)) = Some span ->
  JWTService.generateToken config (Some p) expiresIn now
  = Ok (compact (signedBody (JWTService.tokenPayload p (Some d)) now span)
                (jwtSecret config)).
Proof.
  intros Hid Hemail Hd Heq Hs Ht.
  destruct (extractDomain_defined _ _ Hd) as [Hne _].
  unfold JWTService.generateToken.
  rewrite Hid, Hemail. simpl truthy. rewrite Hne. cbn [negb orb].
  rewrite (validateEmailDomain_spec config e d Hd).
  apply String.eqb_eq in Heq. rewrite Heq. cbn [bind negb].
  rewrite Hd. cbn [bind].
  rewrite (sign_ok _ _ _ now span Hs Ht). reflexivity.
Qed.

Lemma generateToken_inv (p : Claims) (expiresIn : option string) (now : Z) (tok : string) :
  JWTService.generateToken config (Some p) expiresIn now = Ok tok ->
  exists e d span,
    email p = Some e /\ truthy (id p) = true
    /\ JWTService.extractDomain (Some e) = Ok (Some d)
    /\ toLowerCase d = toLowerCase (allowedDomain config)
    /\ jwtSecret config <> ""
    /\ timespan (orElse expiresIn (jwtExpiresIn config)) = Some span
    /\ tok = compact (signedBody (JWTService.tokenPayload p (Some d)) now span)
                     (jwtSecret config).
Proof.
  intro H. destruct (generateToken_extractDomain config _ _ _ _ H)
    as (e & d & He & Hid & Hd & Heq & Hsign).
  destruct (sign_inv _ _ _ _ _ Hsign) as (span & Ht & Hs & Htok).
  exists e, d, span. auto 10.
Qed.

Lemma verifyToken_compact (body : Claims) (e d : string) (now : Z) :
  jwtSecret config <> "" ->
  Jsonwebtoken.checkNotBefore body now = Ok tt ->
  Jsonwebtoken.checkExpiry body now = Ok tt ->
  aud body = Some "warehouse-frontend" -> iss body = Some "warehouse-api" ->
  truthy (id body) = true -> email body = Some e ->
  JWTService.extractDomain (Some e) = Ok (Some d) ->
  toLowerCase d = toLowerCase (allowedDomain config) ->
  JWTService.verifyToken config (compact body (jwtSecret config)) now = Ok body.
Proof.
  intros Hs Hnbf Hexp Haud Hiss Hid Hemail Hd Heq.
  destruct (extractDomain_defined _ _ Hd) as [Hne _].
  unfold JWTService.verifyToken.
  destruct (compact_head body (jwtSecret config)) as [r Hr]. rewrite Hr at 1.
  cbn [isEmpty]. rewrite cleanToken_compact, trim_compact.
  rewrite (verify_compact body _ _ _ now Hs Hnbf Hexp Haud Hiss).
  cbn [try_catch bind]. rewrite Hid, Hemail. simpl truthy. rewrite Hne. cbn [negb orb].
  rewrite (validateEmailDomain_spec config e d Hd).
  apply String.eqb_eq in Heq. rewrite Heq. reflexivity.
Qed.

End IssueAndVerify.

(** C1.  For every identity payload (with [id] present) whose email's
    domain case-insensitively equals the configured allowed domain,
    [generateToken] issues a token (the signing key being set and the
    time-to-live well formed), and [verifyToken] on that token, at any
    instant before its expiry, succeeds and returns claims whose [id],
    [email], [name] and [picture] are those of the payload and whose
    [domain] is the domain embedded from the email. *)
Theorem verifyToken_generateToken_roundtrip :
  forall {P : JwtPrimitives} {C : SoundCodec P} (config : Config)
         (p : Claims) (e d : string) (expiresIn : option string) (span now now' : Z),
    truthy (id p) = true ->
    email p = Some e ->
    JWTService.extractDomain (Some e) = Ok (Some d) ->
    toLowerCase d = toLowerCase (allowedDomain config) ->
    jwtSecret config <> "" ->
    timespan (orElse expiresIn (jwtExpiresIn config)) = Some span ->
    now' < now + span ->
    exists tok decoded,
      JWTService.generateToken config (Some p) expiresIn now = Ok tok
      /\ JWTService.verifyToken config tok now' = Ok decoded
      /\ id decoded = id p /\ email decoded = email p /\ name decoded = name p
      /\ picture decoded = picture p /\ domain decoded = Some d.
Proof.
  intros P C config p e d expiresIn span now now' Hid Hemail Hd Heq Hs Ht Hlt.
  eexists. eexists. split; [|split].
  - exact (generateToken_ok config p e d expiresIn now span Hid Hemail Hd Heq Hs Ht).
  - apply (verifyToken_compact config _ e d now' Hs); try reflexivity; try assumption.
    unfold Jsonwebtoken.checkExpiry. cbn [exp signedBody].
    destruct (now + span <=? now') eqn:Hle; [apply Z.leb_le in Hle; lia | reflexivity].
  - cbn. auto.
Qed.

Lemma verifyToken_generateToken_roundtrip_witness :
  exists tok decoded,
    JWTService.generateToken Reference.config (Some alicePayload) None 1000 = Ok tok
    /\ JWTService.verifyToken Reference.config tok 5000 = Ok decoded
    /\ id decoded = Some "1" /\ email decoded = Some "a@wareongo.com"
    /\ name decoded = Some "Alice" /\ picture decoded = None
    /\ domain decoded = Some "wareongo.com".
Proof.
  refine (verifyToken_generateToken_roundtrip (C := ReferenceFacts.soundCodec)
            Reference.config alicePayload "a@wareongo.com" "wareongo.com" None
            86400 1000 5000 eq_refl eq_refl eq_refl eq_refl _ eq_refl eq_refl).
  discriminate.
Defined.

(** The domain [extractDomain] reads off an email with a single ['@'] is
    the text after that ['@']. *)
Lemma extractDomain_after_at (l dom : string) :
  includes "@" l = false -> includes "@" dom = false ->
  JWTService.extractDomain (Some (l ++ "@" ++ dom)) = Ok (Some dom).
Proof.
  intros Hl Hdom. unfold JWTService.extractDomain.
  change ("@" ++ dom) with (String "@" dom).
  assert (Hinc : includes "@" (l ++ String "@" dom) = true).
  { clear Hl. induction l as [|a l IH]; cbn; [reflexivity|].
    rewrite IH. apply orb_true_r. }
  assert (Hne : isEmpty (l ++ String "@" dom) = false) by now destruct l.
  rewrite Hinc, Hne. cbn [negb orb].
  rewrite (split_append "@" l dom Hl), (split_without_separator "@" dom Hdom).
  reflexivity.
Qed.

(** The first occurrence of a character in a string that has one *)
Lemma first_separator (c : ascii) (s : string) :
  includes c s = true -> exists l r, s = l ++ String c r /\ includes c l = false.
Proof.
  induction s as [|a s IH]; cbn [includes]; [discriminate|].
  destruct (Ascii.eqb_spec a c) as [->|Hac]; cbn [orb].
  - intros _. now exists "", s.
  - intro H. destruct (IH H) as (l & r & -> & Hl).
    exists (String a l), r. split; [reflexivity|].
    cbn [includes]. apply Ascii.eqb_neq in Hac. now rewrite Hac.
Qed.

Lemma extractDomain_between (l dom rest : string) :
  includes "@" l = false -> includes "@" dom = false ->
  JWTService.extractDomain (Some (l ++ "@" ++ dom ++ "@" ++ rest)) = Ok (Some dom).
Proof.
  intros Hl Hdom. unfold JWTService.extractDomain.
  change (l ++ "@" ++ dom ++ "@" ++ rest) with (l ++ String "@" (dom ++ String "@" rest)).
  assert (Hinc : includes "@" (l ++ String "@" (dom ++ String "@" rest)) = true).
  { clear Hl. induction l as [|a l IH]; cbn; [reflexivity|].
    rewrite IH. apply orb_true_r. }
  assert (Hne : isEmpty (l ++ String "@" (dom ++ String "@" rest)) = false)
    by now destruct l.
  rewrite Hinc, Hne. cbn [negb orb].
  rewrite (split_append "@" l _ Hl), (split_append "@" dom _ Hdom).
  reflexivity.
Qed.

(** What [extractDomain] answers is the text between the first ['@'] and
    the next *)
Lemma extractDomain_afterFirstAt (e d : string) :
  JWTService.extractDomain (Some e) = Ok (Some d) -> afterFirstAt e d.
Proof.
  intro H. assert (Hinc : includes "@" e = true).
  { unfold JWTService.extractDomain in H.
    destruct (isEmpty e); [discriminate|].
    destruct (includes "@" e); [reflexivity | discriminate]. }
  destruct (first_separator "@" e Hinc) as (l & r & -> & Hl).
  exists l. destruct (includes "@" r) eqn:Hr.
  - destruct (first_separator "@" r Hr) as (dom & rest & -> & Hdom).
    change (l ++ String "@" (dom ++ String "@" rest))
      with (l ++ "@" ++ dom ++ "@" ++ rest) in *.
    rewrite (extractDomain_between l dom rest Hl Hdom) in H. injection H as <-.
    split; [exact Hl|]. split; [exact Hdom|]. right. now exists rest.
  - change (l ++ String "@" r) with (l ++ "@" ++ r) in *.
    rewrite (extractDomain_after_at l r Hl Hr) in H. injection H as <-.
    split; [exact Hl|]. split; [exact Hr|]. now left.
Qed.

(** C10, as amended.  Every token produced by [generateToken] embeds a
    [domain] claim computed from the payload's email by [extractDomain]:
    the text between the first ['@'] of the email and the next ['@'], or
    the end of the email when there is no other (so, for an email with a
    single ['@'], the text after it); a [domain] property supplied by
    the caller is ignored; the embedded domain case-insensitively equals
    the configured allowed domain, and the issuer and audience claims
    are ["warehouse-api"] and ["warehouse-frontend"]. *)
Theorem generateToken_embedded_claims :
  forall {P : JwtPrimitives} {C : SoundCodec P} (config : Config)
         (p : Claims) (expiresIn : option string) (now : Z) (tok : string),
    JWTService.generateToken config (Some p) expiresIn now = Ok tok ->
    exists e d c,
      email p = Some e
      /\ JWTService.extractDomain (Some e) = Ok (Some d)
      /\ afterFirstAt e d
      /\ (forall l dom, includes "@" l = false -> includes "@" dom = false ->
                        e = l ++ "@" ++ dom -> d = dom)
      /\ JWTService.decodeToken tok = Ok (Some c)
      /\ domain c = Some d
      /\ toLowerCase d = toLowerCase (allowedDomain config)
      /\ iss c = Some "warehouse-api" /\ aud c = Some "warehouse-frontend"
      /\ (forall dom',
             JWTService.generateToken config (Some (withDomain p dom')) expiresIn now
             = Ok tok).
Proof.
  intros P C config p expiresIn now tok H.
  destruct (generateToken_inv config _ _ _ _ H)
    as (e & d & span & He & Hid & Hd & Heq & Hs & Ht & ->).
  exists e, d, (signedBody (JWTService.tokenPayload p (Some d)) now span).
  split; [exact He|]. split; [exact Hd|].
  split; [exact (extractDomain_afterFirstAt e d Hd)|].
  repeat split; try assumption; try reflexivity.
  - intros l dom Hl Hdom ->. rewrite (extractDomain_after_at l dom Hl Hdom) in Hd.
    now injection Hd.
  - apply decodeToken_compact.
  - intro dom'.
    exact (generateToken_ok config (withDomain p dom') e d expiresIn now span
             Hid He Hd Heq Hs Ht).
Qed.

Lemma generateToken_embedded_claims_witness :
  exists e d c,
    email (withDomain alicePayload (Some "evil.example")) = Some e
    /\ JWTService.extractDomain (Some e) = Ok (Some d)
    /\ afterFirstAt e d
    /\ (forall l dom, includes "@" l = false -> includes "@" dom = false ->
                      e = l ++ "@" ++ dom -> d = dom)
    /\ JWTService.decodeToken aliceToken = Ok (Some c)
    /\ domain c = Some d
    /\ toLowerCase d = toLowerCase (allowedDomain Reference.config)
    /\ iss c = Some "warehouse-api" /\ aud c = Some "warehouse-frontend"
    /\ (forall dom',
           JWTService.generateToken Reference.config
             (Some (withDomain (withDomain alicePayload (Some "evil.example")) dom'))
             None 1000
           = Ok aliceToken).
Proof.
  apply (generateToken_embedded_claims (C := ReferenceFacts.soundCodec)
           Reference.config (withDomain alicePayload (Some "evil.example")) None 1000
           aliceToken).
  vm_compute. reflexivity.
Defined.

(** C10, counterexample: the token issued for the email
    [a@wareongo.com@evil.example] embeds the domain [wareongo.com], which
    is neither the text after the first ['@'] of the email nor the text
    after its last. *)
Lemma two_at_email_embeds_the_middle :
  ~ embedsTextAfterFirstAt Reference.config /\ ~ embedsTextAfterLastAt Reference.config.
Proof.
  assert (Hg : JWTService.generateToken Reference.config (Some twoAtPayload) None 1000
               = Ok twoAtToken) by (vm_compute; reflexivity).
  assert (Hd : JWTService.decodeToken twoAtToken
               = Ok (Some (signedBody
                             (JWTService.tokenPayload twoAtPayload (Some "wareongo.com"))
                             1000 86400)))
    by (vm_compute; reflexivity).
  split; intro H.
  - specialize (H twoAtPayload None 1000 twoAtToken _ "a" "wareongo.com@evil.example"
                  Hg Hd eq_refl eq_refl).
    discriminate H.
  - specialize (H twoAtPayload None 1000 twoAtToken _ "a@wareongo.com" "evil.example"
                  Hg Hd eq_refl eq_refl).
    discriminate H.
Qed.

(** ** Refreshing *)

Section Refresh.
Context {P : JwtPrimitives} (config : Config).

Lemma ensureStructure_structured (c : string) (st : Z) (e : JsError) :
  c <> "" -> st <> 0 ->
  truthy (code (ensureStructure c st e)) = true
  /\ nonzero (statusCode (ensureStructure c st e)) = true.
Proof.
  intros Hc Hst. unfold ensureStructure. cbn [code statusCode]. split.
  - destruct (truthy (code e)) eqn:H; [exact H|].
    cbn. now apply isEmpty_false in Hc as ->.
  - destruct (nonzero (statusCode e)) eqn:H; [exact H|].
    cbn. apply Z.eqb_neq in Hst. now rewrite Hst.
Qed.

Lemma verifyToken_error_structured (tok : string) (now : Z) (error : JsError) :
  JWTService.verifyToken config tok now = Throw error ->
  truthy (code error) = true /\ nonzero (statusCode error) = true.
Proof.
  unfold JWTService.verifyToken, try_catch, handleError.
  match goal with |- match ?X with _ => _ end = _ -> _ => destruct X as [d|e0] end;
    [discriminate|].
  intros [= <-]. apply ensureStructure_structured; discriminate.
Qed.

(** [jwt.decode] throws nothing but the [SyntaxError] of the payload *)
Lemma decodeComplete_throws (tok : string) (e : JsError) :
  Jsonwebtoken.decodeComplete tok = Throw e ->
  exists msg h p s,
    e = Jsonwebtoken.SyntaxError msg
    /\ split "." tok = [h; p; s] /\ decodePayload p = PayloadSyntaxError msg.
Proof.
  unfold Jsonwebtoken.decodeComplete.
  destruct (split "." tok) as [|h [|p [|s [|x l]]]]; try discriminate.
  match goal with |- (if ?b then _ else _) = _ -> _ => destruct b end;
    [|discriminate].
  destruct (parseHeader h) as [header|]; [|discriminate].
  destruct (strictEquals (header_typ header) "JWT");
    destruct (decodePayload p) as [c| |msg] eqn:Hp; try discriminate.
  intros [= <-]. now exists msg, h, p, s.
Qed.

(** What [jwt.verify] has checked when it returns a payload *)
Lemma verify_ok_inv (tok secret audience issuer : string) (now : Z) (d : Claims) :
  Jsonwebtoken.verify tok secret audience issuer now = Ok d ->
  exists h p s header,
    split "." tok = [h; p; s]
    /\ Jsonwebtoken.decodeComplete tok = Ok (Some (header, Some d))
    /\ header_alg header = Some "HS256"
    /\ isEmpty s = false /\ s = hmacSha256 secret (h ++ "." ++ p)
    /\ Jsonwebtoken.checkNotBefore d now = Ok tt
    /\ Jsonwebtoken.checkExpiry d now = Ok tt
    /\ aud d = Some audience /\ iss d = Some issuer.
Proof.
  unfold Jsonwebtoken.verify.
  destruct (isEmpty tok); [discriminate|].
  destruct (split "." tok) as [|h [|p [|s [|x l]]]]; try discriminate.
  destruct (Jsonwebtoken.decodeComplete tok) as [[[header [payload|]]|]|e];
    cbn [bind]; try discriminate.
  - cbv zeta.
    destruct (isEmpty s) eqn:Hs, (isEmpty secret); cbn [negb andb orb];
      try discriminate.
    { destruct (negb (strictEquals (header_alg header) "HS256")); discriminate. }
    destruct (header_alg header) as [alg|] eqn:Halg; cbn [strictEquals];
      [|discriminate].
    destruct (String.eqb_spec alg "HS256") as [->|]; cbn [negb]; [|discriminate].
    destruct (String.eqb_spec s (hmacSha256 secret (h ++ "." ++ p))) as [Hsig|];
      cbn [negb]; [|discriminate].
    destruct (Jsonwebtoken.checkNotBefore payload now) as [[]|] eqn:Hn; [|discriminate].
    destruct (Jsonwebtoken.checkExpiry payload now) as [[]|] eqn:He; [|discriminate].
    cbn [bind]. unfold Jsonwebtoken.checkAudience, Jsonwebtoken.checkIssuer.
    destruct (aud payload) as [a|] eqn:Ha; cbn [strictEquals]; [|discriminate].
    destruct (String.eqb_spec a audience) as [->|]; [|discriminate].
    destruct (iss payload) as [i|] eqn:Hi; cbn [strictEquals bind]; [|discriminate].
    destruct (String.eqb_spec i issuer) as [->|]; [|discriminate].
    intros [= <-]. exists h, p, s, header. repeat split; auto.
  - cbv zeta.
    destruct (isEmpty s), (isEmpty secret); cbn [negb andb orb]; try discriminate;
      destruct (negb (strictEquals (header_alg header) "HS256")); try discriminate.
    destruct (negb (s =? hmacSha256 secret (h ++ "." ++ p))%string); discriminate.
Qed.

(** What a successful [jwt.verify] guarantees about format and signature *)
Lemma verify_cases (tok secret audience issuer : string) (now : Z) :
  (exists msg,
      Jsonwebtoken.verify tok secret audience issuer now
      = Throw (Jsonwebtoken.JsonWebTokenError msg))
  \/ (exists msg h p s,
         Jsonwebtoken.verify tok secret audience issuer now
         = Throw (Jsonwebtoken.SyntaxError msg)
         /\ split "." tok = [h; p; s]
         /\ decodePayload p = PayloadSyntaxError msg)
  \/ (exists h p s,
         split "." tok = [h; p; s]
         /\ s = hmacSha256 secret (h ++ "." ++ p) /\ secret <> "").
Proof.
  unfold Jsonwebtoken.verify.
  destruct (isEmpty tok); [left; eexists; reflexivity|].
  destruct (split "." tok) as [|h [|p [|s [|x l]]]] eqn:Hsplit;
    try (left; eexists; reflexivity).
  destruct (Jsonwebtoken.decodeComplete tok) as [[[header payload]|]|e] eqn:Hd;
    cbn [bind]; [|left; eexists; reflexivity|].
  - cbv zeta.
    destruct (isEmpty s), (isEmpty secret) eqn:Hs; cbn [negb andb orb];
      try (left; eexists; reflexivity).
    { destruct (strictEquals (header_alg header) "HS256"); cbn [negb];
        left; eexists; reflexivity. }
    destruct (strictEquals (header_alg header) "HS256"); cbn [negb];
      [|left; eexists; reflexivity].
    destruct (s =? hmacSha256 secret (h ++ "." ++ p))%string eqn:Hsig; cbn [negb];
      [|left; eexists; reflexivity].
    right. right. exists h, p, s. apply String.eqb_eq in Hsig.
    apply isEmpty_false in Hs. auto.
  - destruct (decodeComplete_throws _ _ Hd) as (msg & h' & p' & s' & -> & Hj & Hp).
    rewrite Hsplit in Hj. injection Hj as <- <- <-.
    right. left. exists msg, h, p, s. auto.
Qed.

Lemma verifyToken_inv (tok : string) (now : Z) (d : Claims) :
  JWTService.verifyToken config tok now = Ok d ->
  jwtSecret config <> "" /\ truthy (id d) = true
  /\ exists e dom,
       email d = Some e /\ JWTService.extractDomain (Some e) = Ok (Some dom)
       /\ toLowerCase dom = toLowerCase (allowedDomain config).
Proof.
  unfold JWTService.verifyToken.
  destruct (isEmpty tok); [discriminate|].
  destruct (isEmpty (trim (JWTService.cleanToken tok))); [discriminate|].
  destruct (verify_cases (JWTService.cleanToken tok) (jwtSecret config)
              "warehouse-frontend" "warehouse-api" now)
    as [(msg & ->)|[(msg & h & p & s & -> & _)|(h & p & s & _ & _ & Hs)]];
    [discriminate|discriminate|].
  destruct (Jsonwebtoken.verify _ _ _ _ _) as [decoded|e0]; [|discriminate].
  cbn [try_catch bind].
  destruct (truthy (id decoded)) eqn:Hid; [|discriminate].
  destruct (truthy (email decoded)) eqn:Hemail; [|discriminate].
  cbn [negb orb]. unfold JWTService.validateEmailDomain. rewrite Hemail. cbn [negb].
  destruct (email decoded) as [e|] eqn:He; [|discriminate].
  destruct (JWTService.extractDomain (Some e)) as [[dom|]|err] eqn:Hd;
    cbn [bind]; try discriminate.
  destruct (toLowerCase dom =? toLowerCase (allowedDomain config))%string eqn:Heq;
    cbn [negb]; [|discriminate].
  intros [= <-]. apply String.eqb_eq in Heq.
  split; [exact Hs|]. split; [exact Hid|]. exists e, dom. auto.
Qed.

Lemma verifyToken_ok_verify (t : string) (now : Z) (d : Claims) :
  JWTService.verifyToken config t now = Ok d ->
  Jsonwebtoken.verify (JWTService.cleanToken t) (jwtSecret config)
                      "warehouse-frontend" "warehouse-api" now = Ok d.
Proof.
  unfold JWTService.verifyToken.
  destruct (isEmpty t); [discriminate|].
  destruct (isEmpty (trim (JWTService.cleanToken t))); [discriminate|].
  destruct (Jsonwebtoken.verify _ _ _ _ _) as [decoded|e0]; [|discriminate].
  cbn [try_catch bind].
  destruct (negb (truthy (id decoded)) || negb (truthy (email decoded))); [discriminate|].
  destruct (JWTService.validateEmailDomain config (email decoded)) as [[|]|];
    cbn [bind negb try_catch handleError]; try discriminate.
  now intros [= <-].
Qed.

End Refresh.

Section RefreshIssued.
Context {P : JwtPrimitives} {C : SoundCodec P} (config : Config).

(** What [verifyToken] returns for a token of the form [sign] writes is
    the payload that was signed *)
Lemma verifyToken_compact_inv (body d : Claims) (now : Z) :
  jwtSecret config <> "" ->
  JWTService.verifyToken config (compact body (jwtSecret config)) now = Ok d ->
  d = body.
Proof.
  intros Hs H. assert (Hv := verifyToken_ok_verify config _ _ _ H).
  rewrite cleanToken_compact, (verify_compact_checks _ _ _ _ _ Hs) in Hv.
  destruct (Jsonwebtoken.checkNotBefore body now) as [[]|]; [|discriminate].
  destruct (Jsonwebtoken.checkExpiry body now) as [[]|]; [|discriminate].
  destruct (Jsonwebtoken.checkAudience body "warehouse-frontend") as [[]|];
    [|discriminate].
  destruct (Jsonwebtoken.checkIssuer body "warehouse-api") as [[]|];
    [|discriminate].
  cbn [bind] in Hv. now injection Hv.
Qed.

End RefreshIssued.

(** C4, as amended.  For every input token string, [refreshToken] fails
    with exactly the error of [verifyToken] whenever [verifyToken] fails
    on that token.  For every token that verifies, [refreshToken]
    produces a new token whose [id], [email], [name] and [picture] are
    those of the input token, whose [domain] is derived again from the
    email, and whose expiry is the refresh instant plus the configured
    time-to-live: strictly later than the input token's expiry exactly
    when that expiry lies before this sum.  When the input token is one
    that [generateToken] issued, the new [domain] is the input token's
    own, the input token expires at its instant of issuance plus its
    time-to-live, and, if it was issued with the configured time-to-live,
    the new expiry is strictly later exactly when the token was issued
    at an earlier second than the refresh. *)
Theorem refreshToken_propagates_and_renews :
  forall {P : JwtPrimitives} {C : SoundCodec P} (config : Config)
         (tok : string) (now : Z),
    (forall error,
        JWTService.verifyToken config tok now = Throw error ->
        JWTService.refreshToken config tok now = Throw error)
    /\ (forall d span,
          JWTService.verifyToken config tok now = Ok d ->
          timespan (jwtExpiresIn config) = Some span ->
          exists tok' d' dom,
            JWTService.refreshToken config tok now = Ok tok'
            /\ JWTService.decodeToken tok' = Ok (Some d')
            /\ id d' = id d /\ email d' = email d /\ name d' = name d
            /\ picture d' = picture d
            /\ JWTService.extractDomain (email d) = Ok (Some dom)
            /\ domain d' = Some dom
            /\ exp d' = Some (now + span)
            /\ (expiresLater d d' <-> exists e, exp d = Some e /\ e < now + span)
            /\ (forall p expiresIn now0 span0,
                  JWTService.generateToken config (Some p) expiresIn now0 = Ok tok ->
                  timespan (orElse expiresIn (jwtExpiresIn config)) = Some span0 ->
                  domain d' = domain d
                  /\ exp d = Some (now0 + span0)
                  /\ (expiresIn = None -> (expiresLater d d' <-> now0 < now)))).
Proof.
  intros P C config tok now. split.
  - intros error H. unfold JWTService.refreshToken. rewrite H. cbn [bind try_catch].
    destruct (verifyToken_error_structured config _ _ _ H) as [-> ->]. reflexivity.
  - intros d span H Ht.
    destruct (verifyToken_inv config _ _ _ H) as (Hs & Hid & e & dom & He & Hd & Heq).
    assert (Hgen := generateToken_ok config (JWTService.userPayload d) e dom None now span
                      Hid He Hd Heq Hs Ht).
    eexists. eexists. exists dom. split; [|split].
    + unfold JWTService.refreshToken. rewrite H. cbn [bind]. rewrite Hgen. reflexivity.
    + apply decodeToken_compact.
    + unfold expiresLater.
      cbn [id email name picture domain exp signedBody JWTService.tokenPayload
           JWTService.userPayload].
      rewrite He.
      do 7 (split; [assumption || reflexivity|]).
      split.
      { split.
        - destruct (exp d) as [x|]; [|contradiction]. intro Hlt. now exists x.
        - intros (x & -> & Hlt). exact Hlt. }
      intros p expiresIn now0 span0 Hissued Ht0.
      destruct (generateToken_inv config _ _ _ _ Hissued)
        as (e0 & d0 & span' & He0 & _ & Hd0 & _ & _ & Ht' & ->).
      apply (verifyToken_compact_inv config _ _ _ Hs) in H. subst d.
      cbn [email domain exp signedBody JWTService.tokenPayload] in *.
      assert (span' = span0) by congruence. subst span'.
      split; [congruence|]. split; [reflexivity|].
      intros ->. cbn [orElse] in Ht0.
      assert (span0 = span) by congruence. lia.
Qed.

Lemma refreshToken_propagates_and_renews_witness :
  JWTService.refreshToken Reference.config "not.a.token" 2000
  = Throw (withOriginal
             (codedError "Invalid authentication token. Please sign in again."
                         "INVALID_TOKEN" 400) "invalid token")
  /\ exists tok' d' dom,
       JWTService.refreshToken Reference.config aliceToken 2000 = Ok tok'
       /\ JWTService.decodeToken tok' = Ok (Some d')
       /\ id d' = id aliceClaims /\ email d' = email aliceClaims
       /\ name d' = name aliceClaims /\ picture d' = picture aliceClaims
       /\ JWTService.extractDomain (email aliceClaims) = Ok (Some dom)
       /\ domain d' = Some dom
       /\ exp d' = Some (2000 + 86400)
       /\ (expiresLater aliceClaims d'
           <-> exists e, exp aliceClaims = Some e /\ e < 2000 + 86400)
       /\ domain d' = domain aliceClaims
       /\ exp aliceClaims = Some (1000 + 86400)
       /\ (expiresLater aliceClaims d' <-> 1000 < 2000).
Proof.
  split.
  - apply (proj1 (refreshToken_propagates_and_renews (C := ReferenceFacts.soundCodec)
                    Reference.config "not.a.token" 2000)).
    vm_compute. reflexivity.
  - assert (Hv : JWTService.verifyToken Reference.config aliceToken 2000 = Ok aliceClaims)
      by (vm_compute; reflexivity).
    destruct (proj2 (refreshToken_propagates_and_renews (C := ReferenceFacts.soundCodec)
                       Reference.config aliceToken 2000) aliceClaims 86400 Hv eq_refl)
      as (tok' & d' & dom & Hr & Hdec & H1 & H2 & H3 & H4 & H5 & H6 & H7 & H8 & Hissued).
    assert (Hgen : JWTService.generateToken Reference.config (Some alicePayload) None 1000
                   = Ok aliceToken) by (vm_compute; reflexivity).
    destruct (Hissued alicePayload None 1000 86400 Hgen eq_refl) as (H9 & H10 & H11).
    exists tok', d', dom.
    repeat (split; [assumption|]). exact (H11 eq_refl).
Defined.

(** C4, counterexamples.  Alice's token, issued at second 1000, is
    refreshed within that same second: the new token expires at the very
    second the old one does.  And a token that carries Alice's claims
    under the domain claim [example.org] verifies; its refresh carries
    the domain of her email instead. *)
Lemma refresh_can_keep_expiry_and_change_domain :
  ~ refreshStrictlyExtends Reference.config /\ ~ refreshKeepsDomain Reference.config.
Proof.
  assert (Hd : JWTService.decodeToken aliceToken = Ok (Some aliceClaims))
    by (vm_compute; reflexivity).
  split; intro H.
  - assert (Hv : JWTService.verifyToken Reference.config aliceToken 1000 = Ok aliceClaims)
      by (vm_compute; reflexivity).
    assert (Hr : JWTService.refreshToken Reference.config aliceToken 1000 = Ok aliceToken)
      by (vm_compute; reflexivity).
    specialize (H aliceToken 1000 aliceClaims aliceToken aliceClaims Hv Hr Hd).
    unfold expiresLater in H. cbn in H. lia.
  - assert (Hv : JWTService.verifyToken Reference.config mislabelledToken 1000
                 = Ok mislabelledClaims) by (vm_compute; reflexivity).
    assert (Hr : JWTService.refreshToken Reference.config mislabelledToken 1000
                 = Ok aliceToken) by (vm_compute; reflexivity).
    specialize (H mislabelledToken 1000 mislabelledClaims aliceToken aliceClaims Hv Hr Hd).
    discriminate H.
Qed.

(** ** Tampering *)

Lemma tampered_sym (t t' : string) : tampered t t' -> tampered t' t.
Proof.
  induction 1 as [a b r Hab|a r r' _ IH].
  - apply tampered_here. congruence.
  - now apply tampered_later.
Qed.

Lemma tampered_neq (t t' : string) : tampered t t' -> t <> t'.
Proof.
  induction 1 as [a b r Hab|a r r' _ IH]; intro H; injection H; auto.
Qed.

Lemma tampered_nonempty (t t' : string) : tampered t t' -> t' <> "".
Proof. destruct 1; discriminate. Qed.

Lemma tampered_append_head (p a b : string) : tampered (p ++ a) (p ++ b) -> tampered a b.
Proof.
  induction p as [|x p IH]; cbn [append]; [auto|].
  intro H. inversion H; subst; [congruence | auto].
Qed.

Lemma append_inv_tail (a b c : string) : a ++ c = b ++ c -> a = b.
Proof.
  revert b. induction a as [|x a IH]; intros [|y b] H; cbn [append] in H.
  - reflexivity.
  - apply (f_equal String.length) in H. cbn [String.length] in H.
    rewrite length_append in H. lia.
  - apply (f_equal String.length) in H. cbn [String.length] in H.
    rewrite length_append in H. lia.
  - injection H as -> H. f_equal. now apply IH.
Qed.

Lemma split_length (c : ascii) (s : string) : List.length (split c s) = S (count c s).
Proof.
  induction s as [|a s IH]; [reflexivity|]. cbn [split count].
  destruct (Ascii.eqb a c); cbn [List.length]; [now rewrite IH|].
  destruct (split_cons c s) as (x & xs & Hs). rewrite Hs in *. exact IH.
Qed.

Lemma count_append (c : ascii) (a b : string) :
  count c (a ++ b) = (count c a + count c b)%nat.
Proof.
  induction a as [|x a IH]; [reflexivity|]. cbn [append count].
  destruct (Ascii.eqb x c); rewrite IH; reflexivity.
Qed.

Lemma count_zero (c : ascii) (s : string) : count c s = O <-> includes c s = false.
Proof.
  induction s as [|a s IH]; cbn [count includes]; [tauto|].
  destruct (Ascii.eqb a c); cbn [orb]; [split; discriminate | exact IH].
Qed.

Lemma tampered_count (c : ascii) (t t' : string) :
  tampered t t' -> (count c t <= S (count c t'))%nat.
Proof.
  induction 1 as [a b r Hab|a r r' _ IH]; cbn [count].
  - destruct (Ascii.eqb a c), (Ascii.eqb b c); lia.
  - destruct (Ascii.eqb a c); lia.
Qed.

Lemma split_prefix (c : ascii) (x j y : string) (ys : list string) :
  includes c x = false -> split c j = y :: ys -> split c (x ++ j) = (x ++ y) :: ys.
Proof.
  intros Hx Hj. induction x as [|a x IH]; cbn [append]; [exact Hj|].
  cbn [includes] in Hx. apply orb_false_iff in Hx as [Ha Hx].
  cbn [split]. now rewrite Ha, (IH Hx).
Qed.

Lemma tampered_split (c : ascii) (t t' : string) :
  tampered t t' ->
  List.length (split c t) = List.length (split c t') ->
  tamperedOne (split c t) (split c t').
Proof.
  induction 1 as [a b r Hab|a r r' Hrr IH]; cbn [split].
  - destruct (split_cons c r) as (x & xs & Hr). rewrite Hr.
    destruct (Ascii.eqb_spec a c) as [->|Ha], (Ascii.eqb_spec b c) as [->|Hb];
      cbn [List.length]; intro Hlen.
    + congruence.
    + lia.
    + lia.
    + apply one_here. now apply tampered_here.
  - destruct (split_cons c r) as (x & xs & Hr), (split_cons c r') as (x' & xs' & Hr').
    rewrite Hr, Hr' in *.
    destruct (Ascii.eqb a c); cbn [List.length]; intro Hlen.
    + apply one_later. apply IH. cbn [List.length]. lia.
    + assert (Hone : tamperedOne (x :: xs) (x' :: xs')) by auto.
      inversion Hone; subst.
      * apply one_here. now apply tampered_later.
      * now apply one_later.
Qed.

Lemma tamperedOne_three (h p s h' p' s' : string) :
  tamperedOne [h; p; s] [h'; p'; s'] ->
  (tampered h h' /\ p = p' /\ s = s')
  \/ (h = h' /\ tampered p p' /\ s = s')
  \/ (h = h' /\ p = p' /\ tampered s s').
Proof.
  intro H. inversion H as [? ? ? Hh|? ? ? H1]; subst; [auto|].
  inversion H1 as [? ? ? Hp|? ? ? H2]; subst; [auto|].
  inversion H2 as [? ? ? Hs|? ? ? H3]; subst; [auto 6|].
  inversion H3.
Qed.

Lemma trimEnd_blank (s : string) (c : ascii) :
  trimEnd s = "" -> includes c s = true -> isWhitespace c = true.
Proof.
  induction s as [|a s IH]; cbn [trimEnd includes]; [discriminate|].
  destruct (trimEnd s) as [|b r]; [|discriminate].
  destruct (isWhitespace a) eqn:Ha; [|discriminate].
  intros _ H. apply orb_true_iff in H as [H|H]; [|now apply IH].
  apply Ascii.eqb_eq in H. now subst c.
Qed.

Lemma trim_blank (s : string) (c : ascii) :
  isEmpty (trim s) = true -> includes c s = true -> isWhitespace c = true.
Proof.
  unfold trim. induction s as [|a s IH]; cbn [trimEnd includes]; [discriminate|].
  destruct (trimEnd s) as [|b r] eqn:Hs.
  - destruct (isWhitespace a) eqn:Ha.
    + intros _ H. apply orb_true_iff in H as [H|H].
      * apply Ascii.eqb_eq in H. now subst c.
      * now apply (trimEnd_blank s c Hs).
    + cbn [trimStart]. rewrite Ha. discriminate.
  - cbn [trimStart]. destruct (isWhitespace a) eqn:Ha; [|discriminate].
    intros Hblank H. apply orb_true_iff in H as [H|H].
    + apply Ascii.eqb_eq in H. now subst c.
    + now apply IH.
Qed.

Lemma tampered_prefix_lost (p t t' : string) :
  tampered t t' -> startsWith t p = true -> startsWith t' p = false ->
  exists x, tampered p x /\ t' = x ++ slice (String.length p) t.
Proof.
  unfold startsWith. revert t t'. induction p as [|a p IH]; intros t t' Ht Hp Hp'.
  - now rewrite prefix_nil in Hp'.
  - destruct Ht as [b b' r Hbb|b r r' Hrr]; cbn [String.prefix] in Hp, Hp'.
    + destruct (ascii_dec a b) as [->|]; [|discriminate].
      exists (String b' p). split; [now apply tampered_here|].
      cbn [String.length slice append]. f_equal.
      now apply (startsWith_split r p).
    + destruct (ascii_dec a b) as [->|]; [|discriminate].
      destruct (IH r r' Hrr Hp Hp') as (x & Hx & ->).
      exists (String b x). split; [now apply tampered_later | reflexivity].
Qed.

Section Signatures.
Context {P : JwtPrimitives}.

Lemma tampered_append_tail (a b c : string) :
  tampered a b -> tampered (a ++ c) (b ++ c).
Proof.
  induction 1 as [x y r Hxy|x r r' _ IH]; cbn [append].
  - now apply tampered_here.
  - now apply tampered_later.
Qed.

Lemma tampered_prepend (c a b : string) :
  tampered a b -> tampered (c ++ a) (c ++ b).
Proof.
  intro H. induction c as [|x c IH]; cbn [append]; [exact H|].
  now apply tampered_later.
Qed.

Lemma signingInput_split (j h p s : string) :
  split "." j = [h; p; s] -> signingInput j = h ++ "." ++ p.
Proof. unfold signingInput. now intros ->. Qed.

Lemma signature_tampered (secret j j' : string) :
  signatureVerifies secret j -> signatureUnshared secret (signingInput j) ->
  signatureVerifies secret j' -> tampered j j' -> False.
Proof.
  intros (h & p & s & Hj & Hs) Hu (h' & p' & s' & Hj' & Hs') Ht.
  rewrite (signingInput_split _ _ _ _ Hj) in Hu.
  assert (Hone := tampered_split "." j j' Ht). rewrite Hj, Hj' in Hone.
  destruct (tamperedOne_three _ _ _ _ _ _ (Hone eq_refl))
    as [(Hh & <- & <-)|[(<- & Hp & <-)|(<- & <- & Hsig)]].
  - apply (Hu (h' ++ "." ++ p)); [|congruence].
    apply input_replaced. now apply tampered_append_tail.
  - apply (Hu (h ++ "." ++ p')); [|congruence].
    apply input_replaced. apply tampered_prepend. now apply tampered_later.
  - apply tampered_neq in Hsig. congruence.
Qed.

Lemma signature_two_dots (secret j : string) :
  signatureVerifies secret j -> count "." j = 2%nat.
Proof.
  intros (h & p & s & Hj & _).
  assert (H := split_length "." j). rewrite Hj in H. cbn in H. lia.
Qed.

(** Two accepted tokens of which one is the other behind a prefix: the
    signed parts differ by that prefix and share their signature *)
Lemma signature_prefix (secret x j : string) :
  signatureVerifies secret j -> signatureVerifies secret (x ++ j) ->
  signingInput (x ++ j) = x ++ signingInput j
  /\ hmacSha256 secret (x ++ signingInput j) = hmacSha256 secret (signingInput j).
Proof.
  intros Hj Hxj.
  assert (Hc := signature_two_dots _ _ Hj).
  assert (Hc' := signature_two_dots _ _ Hxj).
  rewrite count_append in Hc'.
  assert (Hx : includes "." x = false) by (apply count_zero; lia).
  destruct Hj as (h & p & s & Hj & Hs), Hxj as (h' & p' & s' & Hj' & Hs').
  assert (Hsplit := split_prefix "." x j h [p; s] Hx Hj).
  rewrite Hsplit in Hj'. injection Hj' as <- <- <-.
  rewrite (signingInput_split _ _ _ _ Hsplit), (signingInput_split _ _ _ _ Hj).
  rewrite append_assoc in Hs'. rewrite append_assoc. split; congruence.
Qed.

End Signatures.

Section Tampering.
Context {P : JwtPrimitives} (config : Config).

Lemma verifyToken_valid (t : string) (now : Z) (d : Claims) :
  JWTService.verifyToken config t now = Ok d ->
  isEmpty t = false
  /\ signatureVerifies (jwtSecret config) (JWTService.cleanToken t).
Proof.
  unfold JWTService.verifyToken.
  destruct (isEmpty t); [discriminate|].
  destruct (isEmpty (trim (JWTService.cleanToken t))); [discriminate|].
  destruct (verify_cases (JWTService.cleanToken t) (jwtSecret config)
              "warehouse-frontend" "warehouse-api" now)
    as [(msg & ->)|[(msg & h & p & s & -> & _)|(h & p & s & Hj & Hs & _)]];
    [discriminate|discriminate|].
  intros _. split; [reflexivity|]. now exists h, p, s.
Qed.

(** A token with a dot in it whose signature does not verify: the answer
    is [INVALID_TOKEN], unless the payload segment does not parse, which
    is answered [TOKEN_VERIFICATION_ERROR] *)
Lemma verifyToken_invalid (t : string) (now : Z) :
  isEmpty t = false ->
  includes "." (JWTService.cleanToken t) = true ->
  ~ signatureVerifies (jwtSecret config) (JWTService.cleanToken t) ->
  exists msg,
    JWTService.verifyToken config t now
    = Throw (withOriginal
               (codedError "Invalid authentication token. Please sign in again."
                           "INVALID_TOKEN" 400) msg)
    \/ (JWTService.verifyToken config t now
        = Throw (withOriginal
                   (codedError "Authentication token verification failed."
                               "TOKEN_VERIFICATION_ERROR" 400) msg)
        /\ exists h p s,
             split "." (JWTService.cleanToken t) = [h; p; s]
             /\ decodePayload p = PayloadSyntaxError msg).
Proof.
  intros Ht Hdot Hsig. unfold JWTService.verifyToken. rewrite Ht.
  destruct (isEmpty (trim (JWTService.cleanToken t))) eqn:Hblank.
  { now apply (trim_blank _ "." Hblank) in Hdot. }
  destruct (verify_cases (JWTService.cleanToken t) (jwtSecret config)
              "warehouse-frontend" "warehouse-api" now)
    as [(msg & ->)|[(msg & h & p & s & -> & Hj & Hp)|(h & p & s & Hj & Hs & _)]].
  - exists msg. left. reflexivity.
  - exists msg. right. split; [reflexivity|]. now exists h, p, s.
  - contradiction Hsig. now exists h, p, s.
Qed.

Lemma count_includes (c : ascii) (s : string) :
  (0 < count c s)%nat -> includes c s = true.
Proof.
  intro H. destruct (includes c s) eqn:Hi; [reflexivity|].
  apply count_zero in Hi. lia.
Qed.

End Tampering.

(** An injective keyed hash shares no signature at all *)
Lemma collisionFree_unshared {P : JwtPrimitives} {F : CollisionFree P}
      (secret j h p s : string) :
  split "." j = [h; p; s] -> signatureUnshared secret (signingInput j).
Proof.
  intros Hj m' Hm' Heq. apply hmac_injective in Heq. subst m'.
  rewrite (signingInput_split _ _ _ _ Hj) in Hm'.
  inversion Hm' as [m' Ht|x Hx Hm|x m' Hx Hm]; subst.
  - now apply tampered_neq in Ht.
  - apply (append_inv_tail x "") in Hm. subst x. inversion Hx.
  - symmetry in Hm. apply (append_inv_tail x "") in Hm. subst x. inversion Hx.
Qed.

(** C5, as amended.  A token that [verifyToken] accepts carries a
    signature that verifies under the configured key.  For every such
    token whose signature is not also the signature of a signed part one
    character of tampering away, and for every replacement of a single
    character of the token as presented, [verifyToken] on the modified
    token fails, at whatever instant it is presented, with status 400:
    with [INVALID_TOKEN], or, when the payload segment of the modified
    token no longer parses, with [TOKEN_VERIFICATION_ERROR]. *)
Theorem verifyToken_rejects_tampered :
  forall {P : JwtPrimitives} (config : Config) (t : string) (now : Z) (d : Claims),
    JWTService.verifyToken config t now = Ok d ->
    signatureVerifies (jwtSecret config) (JWTService.cleanToken t)
    /\ (signatureUnshared (jwtSecret config) (signingInput (JWTService.cleanToken t)) ->
        forall t' now',
          tampered t t' ->
          exists msg,
            JWTService.verifyToken config t' now'
            = Throw (withOriginal
                       (codedError "Invalid authentication token. Please sign in again."
                                   "INVALID_TOKEN" 400) msg)
            \/ (JWTService.verifyToken config t' now'
                = Throw (withOriginal
                           (codedError "Authentication token verification failed."
                                       "TOKEN_VERIFICATION_ERROR" 400) msg)
                /\ exists h p s,
                     split "." (JWTService.cleanToken t') = [h; p; s]
                     /\ decodePayload p = PayloadSyntaxError msg)).
Proof.
  intros P config t now d Hok.
  destruct (verifyToken_valid config t now d Hok) as [Hne Hsig].
  split; [exact Hsig|]. intros Hu t' now' Ht.
  assert (Hdots := signature_two_dots _ _ Hsig).
  apply verifyToken_invalid.
  - apply isEmpty_false. now apply (tampered_nonempty t t').
  - apply count_includes. revert Hsig Hdots. clear Hu. unfold JWTService.cleanToken.
    destruct (startsWith t "Bearer ") eqn:Hp, (startsWith t' "Bearer ") eqn:Hp';
      intros Hsig Hdots.
    + rewrite (startsWith_split _ _ Hp), (startsWith_split _ _ Hp') in Ht.
      apply tampered_append_head in Ht.
      assert (H := tampered_count "." _ _ Ht). cbn [String.length] in *. lia.
    + destruct (tampered_prefix_lost _ _ _ Ht Hp Hp') as (x & _ & ->).
      rewrite count_append. cbn [String.length] in *. lia.
    + destruct (tampered_prefix_lost _ _ _ (tampered_sym _ _ Ht) Hp' Hp) as (x & Hx & Heq).
      rewrite Heq, count_append in Hdots.
      assert (H := tampered_count "." _ _ (tampered_sym _ _ Hx)).
      cbn in H. cbn [String.length] in *. lia.
    + assert (H := tampered_count "." _ _ Ht). lia.
  - revert Hsig Hu. unfold JWTService.cleanToken.
    destruct (startsWith t "Bearer ") eqn:Hp, (startsWith t' "Bearer ") eqn:Hp';
      intros Hsig Hu Hsig'.
    + rewrite (startsWith_split _ _ Hp), (startsWith_split _ _ Hp') in Ht.
      apply tampered_append_head in Ht.
      exact (signature_tampered _ _ _ Hsig Hu Hsig' Ht).
    + destruct (tampered_prefix_lost _ _ _ Ht Hp Hp') as (x & Hx & Heq).
      rewrite Heq in Hsig'.
      destruct (signature_prefix _ _ _ Hsig Hsig') as [_ Hsame].
      exact (Hu _ (input_prefixed _ x Hx) Hsame).
    + destruct (tampered_prefix_lost _ _ _ (tampered_sym _ _ Ht) Hp' Hp) as (x & Hx & Heq).
      cbn [String.length] in Heq. rewrite Heq in Hsig, Hu.
      destruct (signature_prefix _ _ _ Hsig' Hsig) as [Hin Hsame].
      rewrite Hin in Hu.
      exact (Hu _ (input_unprefixed _ x _ Hx eq_refl) (eq_sym Hsame)).
    + exact (signature_tampered _ _ _ Hsig Hu Hsig' Ht).
Qed.

Lemma verifyToken_rejects_tampered_witness :
  signatureVerifies (jwtSecret Reference.config) (JWTService.cleanToken aliceToken)
  /\ exists msg,
       JWTService.verifyToken Reference.config forgedToken 1000
       = Throw (withOriginal
                  (codedError "Invalid authentication token. Please sign in again."
                              "INVALID_TOKEN" 400) msg)
       \/ (JWTService.verifyToken Reference.config forgedToken 1000
           = Throw (withOriginal
                      (codedError "Authentication token verification failed."
                                  "TOKEN_VERIFICATION_ERROR" 400) msg)
           /\ exists h p s,
                split "." (JWTService.cleanToken forgedToken) = [h; p; s]
                /\ decodePayload p = PayloadSyntaxError msg).
Proof.
  assert (Hok : JWTService.verifyToken Reference.config aliceToken 1000 = Ok aliceClaims)
    by (vm_compute; reflexivity).
  destruct (verifyToken_rejects_tampered Reference.config aliceToken 1000 aliceClaims Hok)
    as [Hsig Htamper].
  split; [exact Hsig|].
  apply Htamper.
  - destruct Hsig as (h & p & s & Hj & _).
    exact (collisionFree_unshared (F := ReferenceFacts.collisionFree) _ _ _ _ _ Hj).
  - unfold forgedToken, aliceToken. cbn [slice].
    apply tampered_here. discriminate.
Defined.

(** The strict form fails on the reference implementation, whose keyed
    hash is injective: with the first character of its payload segment
    replaced, Alice's token is answered [TOKEN_VERIFICATION_ERROR]. *)
Lemma tampered_payload_is_verification_error :
  ~ tamperingIsInvalidToken Reference.config.
Proof.
  intro H.
  assert (Hok : JWTService.verifyToken Reference.config aliceToken 1000 = Ok aliceClaims)
    by (vm_compute; reflexivity).
  assert (Ht : tampered aliceToken garbledToken).
  { unfold aliceToken, garbledToken. do 37 apply tampered_later.
    apply tampered_here. discriminate. }
  specialize (H aliceToken 1000 aliceClaims garbledToken 1000 Hok Ht).
  vm_compute in H. discriminate.
Qed.

(* ================================================================== *)
(** * Part III: further properties of the same components              *)
(* ================================================================== *)

(** ** The token service: what verification reports and guarantees *)

Section VerificationOutcomes.
Context {P : JwtPrimitives} (config : Config).

(** [jwt.verify] only fails with one of its three error classes, with the
    [SyntaxError] of a payload that does not parse, or with the
    [TypeError] of a payload that is [null] *)
Lemma verify_error_classes (tok secret audience issuer : string) (now : Z) (e : JsError) :
  Jsonwebtoken.verify tok secret audience issuer now = Throw e ->
  exists msg,
    e = Jsonwebtoken.JsonWebTokenError msg \/ e = Jsonwebtoken.TokenExpiredError msg
    \/ e = Jsonwebtoken.NotBeforeError msg \/ e = Jsonwebtoken.SyntaxError msg
    \/ e = typeErrorOfNull msg.
Proof.
  unfold Jsonwebtoken.verify.
  destruct (isEmpty tok); [intros [= <-]; eexists; eauto|].
  destruct (split "." tok) as [|h [|p [|s [|x l]]]]; try (intros [= <-]; eexists; eauto).
  destruct (Jsonwebtoken.decodeComplete tok) as [[[header payload]|]|e0] eqn:Hd;
    cbn [bind]; [|intros [= <-]; eexists; eauto|].
  - cbv zeta.
    destruct (isEmpty s), (isEmpty secret); cbn [negb andb orb];
      try (intros [= <-]; eexists; eauto; fail).
    { destruct (negb (strictEquals (header_alg header) "HS256"));
        intros [= <-]; eexists; eauto. }
    destruct (negb (strictEquals (header_alg header) "HS256"));
      [intros [= <-]; eexists; eauto|].
    destruct (negb (s =? hmacSha256 secret (h ++ "." ++ p))%string);
      [intros [= <-]; eexists; eauto|].
    destruct payload as [payload|]; [|intros [= <-]; eexists; eauto 6].
    unfold Jsonwebtoken.checkNotBefore, Jsonwebtoken.checkExpiry,
      Jsonwebtoken.checkAudience, Jsonwebtoken.checkIssuer.
    destruct (nbf payload) as [n|]; [destruct (now <? n)|]; cbn [bind];
      try (intros [= <-]; eexists; eauto);
      (destruct (exp payload) as [x|]; [destruct (x <=? now)|]; cbn [bind];
       try (intros [= <-]; eexists; eauto);
       (destruct (strictEquals (aud payload) audience); cbn [bind];
        [|intros [= <-]; eexists; eauto];
        destruct (strictEquals (iss payload) issuer); cbn [bind];
        [discriminate | intros [= <-]; eexists; eauto])).
  - intros [= <-].
    destruct (decodeComplete_throws _ _ Hd) as (msg & _ & _ & _ & -> & _).
    exists msg. auto 6.
Qed.

(** What a successful [jwt.verify] guarantees about the payload *)
Lemma verify_ok_checks (tok secret audience issuer : string) (now : Z) (d : Claims) :
  Jsonwebtoken.verify tok secret audience issuer now = Ok d ->
  Jsonwebtoken.checkNotBefore d now = Ok tt /\ Jsonwebtoken.checkExpiry d now = Ok tt
  /\ aud d = Some audience /\ iss d = Some issuer.
Proof.
  intro H.
  destruct (verify_ok_inv _ _ _ _ _ _ H)
    as (h & p & s & header & _ & _ & _ & _ & _ & Hn & He & Ha & Hi).
  auto.
Qed.

(** A verified token is live: its expiry instant, if any, is still ahead
    and its activation instant, if any, is not *)
Lemma verifyToken_ok_live (t : string) (now : Z) (d : Claims) :
  JWTService.verifyToken config t now = Ok d ->
  (forall e, exp d = Some e -> now < e) /\ (forall n, nbf d = Some n -> n <= now).
Proof.
  intro H.
  destruct (verify_ok_checks _ _ _ _ _ _ (verifyToken_ok_verify config _ _ _ H))
    as (Hn & He & _ & _).
  split.
  - intros e Hexp. unfold Jsonwebtoken.checkExpiry in He. rewrite Hexp in He.
    destruct (e <=? now) eqn:Hle; [discriminate|]. apply Z.leb_gt in Hle. lia.
  - intros n Hnbf. unfold Jsonwebtoken.checkNotBefore in Hn. rewrite Hnbf in Hn.
    destruct (now <? n) eqn:Hlt; [discriminate|]. apply Z.ltb_ge in Hlt. lia.
Qed.

End VerificationOutcomes.

(** The codes and status codes [verifyToken] fails with *)
Lemma verifyToken_error_codes :
  forall {P : JwtPrimitives} (config : Config) (t : string) (now : Z) (error : JsError),
    JWTService.verifyToken config t now = Throw error ->
    In (code error, statusCode error)
       [(Some "INVALID_TOKEN_FORMAT", Some 400); (Some "EMPTY_TOKEN", Some 400);
        (Some "TOKEN_EXPIRED", Some 401); (Some "INVALID_TOKEN", Some 400);
        (Some "TOKEN_NOT_ACTIVE", Some 400); (Some "INVALID_TOKEN_PAYLOAD", Some 400);
        (Some "INVALID_DOMAIN", Some 403); (Some "TOKEN_VERIFICATION_ERROR", Some 400)].
Proof.
  intros P config t now error. unfold JWTService.verifyToken.
  destruct (isEmpty t); [intros [= <-]; cbn; tauto|].
  destruct (isEmpty (trim (JWTService.cleanToken t))); [intros [= <-]; cbn; tauto|].
  destruct (Jsonwebtoken.verify _ _ _ _ _) as [decoded|e0] eqn:Hv.
  - cbn [try_catch bind].
    destruct (negb (truthy (id decoded)) || negb (truthy (email decoded)));
      [intros [= <-]; cbn; tauto|].
    unfold JWTService.validateEmailDomain.
    destruct (negb (truthy (email decoded))); cbn [bind negb try_catch handleError];
      [intros [= <-]; cbn; tauto|].
    unfold JWTService.extractDomain.
    destruct (email decoded) as [e|]; [|intros [= <-]; cbn; tauto].
    destruct (isEmpty e || negb (includes "@" e)); cbn [bind try_catch handleError];
      [intros [= <-]; cbn; tauto|].
    destruct (nth_error (split "@" e) 1) as [dom|]; cbn [try_catch handleError];
      [|intros [= <-]; cbn; tauto].
    destruct (toLowerCase dom =? toLowerCase (allowedDomain config))%string;
      cbn [negb try_catch handleError]; [discriminate|intros [= <-]; cbn; tauto].
  - destruct (verify_error_classes _ _ _ _ _ _ Hv) as [msg [Hm|[Hm|[Hm|[Hm|Hm]]]]];
      subst e0; intros [= <-]; cbn; tauto.
Qed.


(** X2.  Every failure of [verifyToken] carries one of eight error codes,
    each with its status code: 401 only for [TOKEN_EXPIRED], 403 only
    for [INVALID_DOMAIN], 400 for the rest. *)
Theorem verifyToken_error_table :
  forall {P : JwtPrimitives} (config : Config) (t : string) (now : Z) (error : JsError),
    JWTService.verifyToken config t now = Throw error ->
    In (code error, statusCode error)
       [(Some "INVALID_TOKEN_FORMAT", Some 400); (Some "EMPTY_TOKEN", Some 400);
        (Some "TOKEN_EXPIRED", Some 401); (Some "INVALID_TOKEN", Some 400);
        (Some "TOKEN_NOT_ACTIVE", Some 400); (Some "INVALID_TOKEN_PAYLOAD", Some 400);
        (Some "INVALID_DOMAIN", Some 403); (Some "TOKEN_VERIFICATION_ERROR", Some 400)].
Proof.
  intros P config t now error H.
  exact (verifyToken_error_codes config t now error H).
Qed.

Lemma verifyToken_error_table_witness :
  In (code (codedError "Token cannot be empty" "EMPTY_TOKEN" 400),
      statusCode (codedError "Token cannot be empty" "EMPTY_TOKEN" 400))
     [(Some "INVALID_TOKEN_FORMAT", Some 400); (Some "EMPTY_TOKEN", Some 400);
      (Some "TOKEN_EXPIRED", Some 401); (Some "INVALID_TOKEN", Some 400);
      (Some "TOKEN_NOT_ACTIVE", Some 400); (Some "INVALID_TOKEN_PAYLOAD", Some 400);
      (Some "INVALID_DOMAIN", Some 403); (Some "TOKEN_VERIFICATION_ERROR", Some 400)].
Proof.
  exact (verifyToken_error_table Reference.config "   " 0
           (codedError "Token cannot be empty" "EMPTY_TOKEN" 400) eq_refl).
Defined.

(** The codes and status codes [generateToken] fails with *)
Lemma generateToken_error_codes :
  forall {P : JwtPrimitives} (config : Config) (payload : option Claims)
         (expiresIn : option string) (now : Z) (error : JsError),
    JWTService.generateToken config payload expiresIn now = Throw error ->
    In (code error, statusCode error)
       [(Some "INVALID_PAYLOAD", Some 400); (Some "MISSING_REQUIRED_FIELDS", Some 400);
        (Some "INVALID_DOMAIN", Some 403); (Some "TOKEN_SIGNING_ERROR", Some 500);
        (Some "TOKEN_GENERATION_ERROR", Some 500)].
Proof.
  intros P config payload expiresIn now error. unfold JWTService.generateToken.
  destruct payload as [p|]; [|intros [= <-]; cbn; tauto].
  destruct (negb (truthy (id p)) || negb (truthy (email p)));
    [intros [= <-]; cbn; tauto|].
  unfold JWTService.validateEmailDomain.
  destruct (negb (truthy (email p))); cbn [bind negb try_catch handleError];
    [intros [= <-]; cbn; tauto|].
  unfold JWTService.extractDomain.
  destruct (email p) as [e|]; [|intros [= <-]; cbn; tauto].
  destruct (isEmpty e || negb (includes "@" e)); cbn [bind try_catch handleError];
    [intros [= <-]; cbn; tauto|].
  destruct (nth_error (split "@" e) 1) as [dom|]; cbn [try_catch handleError];
    [|intros [= <-]; cbn; tauto].
  destruct (toLowerCase dom =? toLowerCase (allowedDomain config))%string;
    cbn [negb bind try_catch handleError]; [|intros [= <-]; cbn; tauto].
  destruct (Jsonwebtoken.sign _ _ _ _); cbn [try_catch handleError];
    [discriminate | intros [= <-]; cbn; tauto].
Qed.


(** X3.  Every failure of [generateToken] carries one of five error
    codes, each with its status code. *)
Theorem generateToken_error_table :
  forall {P : JwtPrimitives} (config : Config) (payload : option Claims)
         (expiresIn : option string) (now : Z) (error : JsError),
    JWTService.generateToken config payload expiresIn now = Throw error ->
    In (code error, statusCode error)
       [(Some "INVALID_PAYLOAD", Some 400); (Some "MISSING_REQUIRED_FIELDS", Some 400);
        (Some "INVALID_DOMAIN", Some 403); (Some "TOKEN_SIGNING_ERROR", Some 500);
        (Some "TOKEN_GENERATION_ERROR", Some 500)].
Proof.
  intros P config payload expiresIn now error H.
  exact (generateToken_error_codes config payload expiresIn now error H).
Qed.

Lemma generateToken_error_table_witness :
  In (Some "INVALID_PAYLOAD", Some 400)
     [(Some "INVALID_PAYLOAD", Some 400); (Some "MISSING_REQUIRED_FIELDS", Some 400);
      (Some "INVALID_DOMAIN", Some 403); (Some "TOKEN_SIGNING_ERROR", Some 500);
      (Some "TOKEN_GENERATION_ERROR", Some 500)].
Proof.
  exact (generateToken_error_table Reference.config None None 0
           (codedError "Token payload must be a valid object" "INVALID_PAYLOAD" 400)
           eq_refl).
Defined.

(** X4.  What a successful [verifyToken] guarantees to its callers: [id]
    and [email] are present, the email's domain is the allowed one up to
    case, issuer and audience are the fixed pair, an [exp] claim lies
    strictly in the future and an [nbf] claim not in the future. *)
Theorem verifyToken_guarantees :
  forall {P : JwtPrimitives} (config : Config) (t : string) (now : Z) (d : Claims),
    JWTService.verifyToken config t now = Ok d ->
    truthy (id d) = true
    /\ (exists e dom,
           email d = Some e /\ JWTService.extractDomain (Some e) = Ok (Some dom)
           /\ toLowerCase dom = toLowerCase (allowedDomain config))
    /\ iss d = Some "warehouse-api" /\ aud d = Some "warehouse-frontend"
    /\ (forall e, exp d = Some e -> now < e)
    /\ (forall n, nbf d = Some n -> n <= now).
Proof.
  intros P config t now d H.
  destruct (verifyToken_inv config _ _ _ H) as (_ & Hid & Hdom).
  destruct (verify_ok_checks _ _ _ _ _ _ (verifyToken_ok_verify config _ _ _ H))
    as (Hn & He & Ha & Hi).
  repeat split; try assumption.
  - intros e Hexp. unfold Jsonwebtoken.checkExpiry in He. rewrite Hexp in He.
    destruct (e <=? now) eqn:Hle; [discriminate|]. apply Z.leb_gt in Hle. lia.
  - intros n Hnbf. unfold Jsonwebtoken.checkNotBefore in Hn. rewrite Hnbf in Hn.
    destruct (now <? n) eqn:Hlt; [discriminate|]. apply Z.ltb_ge in Hlt. lia.
Qed.

Lemma verifyToken_guarantees_witness :
  truthy (id aliceClaims) = true
  /\ (exists e dom,
         email aliceClaims = Some e /\ JWTService.extractDomain (Some e) = Ok (Some dom)
         /\ toLowerCase dom = toLowerCase (allowedDomain Reference.config))
  /\ iss aliceClaims = Some "warehouse-api" /\ aud aliceClaims = Some "warehouse-frontend"
  /\ (forall e, exp aliceClaims = Some e -> 1000 < e)
  /\ (forall n, nbf aliceClaims = Some n -> n <= 1000).
Proof.
  apply (verifyToken_guarantees Reference.config aliceToken 1000 aliceClaims).
  vm_compute. reflexivity.
Defined.

(** ** The token service: expiry *)

Section Expiry.
Context {P : JwtPrimitives} {C : SoundCodec P} (config : Config).

Lemma verifyToken_issued_expired (p : Claims) (d : string) (now span now' : Z) :
  jwtSecret config <> "" -> now + span <= now' ->
  JWTService.verifyToken config
    (compact (signedBody (JWTService.tokenPayload p (Some d)) now span) (jwtSecret config))
    now'
  = Throw (withOriginal
             (codedError "Your session has expired. Please sign in again."
                         "TOKEN_EXPIRED" 401) "jwt expired").
Proof.
  intros Hs Hle. unfold JWTService.verifyToken.
  destruct (compact_head (signedBody (JWTService.tokenPayload p (Some d)) now span)
              (jwtSecret config)) as [r Hr].
  rewrite Hr at 1. cbn [isEmpty]. rewrite cleanToken_compact, trim_compact.
  rewrite (verify_compact_checks _ _ _ _ now' Hs).
  unfold Jsonwebtoken.checkExpiry. cbn [exp signedBody nbf JWTService.tokenPayload
    Jsonwebtoken.checkNotBefore bind].
  apply Z.leb_le in Hle. rewrite Hle. reflexivity.
Qed.

Lemma generateToken_expired (p : Claims) (expiresIn : option string)
      (span now now' : Z) (tok : string) :
  JWTService.generateToken config (Some p) expiresIn now = Ok tok ->
  timespan (orElse expiresIn (jwtExpiresIn config)) = Some span ->
  now + span <= now' ->
  JWTService.verifyToken config tok now'
  = Throw (withOriginal
             (codedError "Your session has expired. Please sign in again."
                         "TOKEN_EXPIRED" 401) "jwt expired").
Proof.
  intros Hgen Ht Hle.
  destruct (generateToken_inv config _ _ _ _ Hgen)
    as (e & d & span' & _ & _ & _ & _ & Hs & Ht' & ->).
  rewrite Ht in Ht'. injection Ht' as <-.
  now apply verifyToken_issued_expired.
Qed.

End Expiry.

(** X1.  A token issued by [generateToken] fails [verifyToken] with
    [TOKEN_EXPIRED] (status 401) at its expiry instant and at every later
    one. *)
Theorem verifyToken_after_expiry :
  forall {P : JwtPrimitives} {C : SoundCodec P} (config : Config)
         (p : Claims) (expiresIn : option string) (span now now' : Z) (tok : string),
    JWTService.generateToken config (Some p) expiresIn now = Ok tok ->
    timespan (orElse expiresIn (jwtExpiresIn config)) = Some span ->
    now + span <= now' ->
    JWTService.verifyToken config tok now'
    = Throw (withOriginal
               (codedError "Your session has expired. Please sign in again."
                           "TOKEN_EXPIRED" 401) "jwt expired").
Proof.
  intros P C config p expiresIn span now now' tok Hgen Ht Hle.
  exact (generateToken_expired config p expiresIn span now now' tok Hgen Ht Hle).
Qed.

Lemma verifyToken_after_expiry_witness :
  JWTService.verifyToken Reference.config aliceToken (1000 + 86400)
  = Throw (withOriginal
             (codedError "Your session has expired. Please sign in again."
                         "TOKEN_EXPIRED" 401) "jwt expired").
Proof.
  apply (verifyToken_after_expiry (C := ReferenceFacts.soundCodec) Reference.config
           alicePayload None 86400 1000 (1000 + 86400) aliceToken).
  - vm_compute. reflexivity.
  - reflexivity.
  - vm_compute. discriminate.
Defined.

(** X5.  For a token issued by [generateToken] (with a non-zero expiry
    instant), [isTokenExpired] answers [true] exactly after the expiry
    instant, and whenever it answers [true] [verifyToken] fails with
    [TOKEN_EXPIRED]; at the expiry instant itself the two disagree:
    [isTokenExpired] still answers [false] while [verifyToken] already
    fails. *)
Theorem isTokenExpired_against_verifyToken :
  forall {P : JwtPrimitives} {C : SoundCodec P} (config : Config)
         (p : Claims) (expiresIn : option string) (span now : Z) (tok : string),
    JWTService.generateToken config (Some p) expiresIn now = Ok tok ->
    timespan (orElse expiresIn (jwtExpiresIn config)) = Some span ->
    now + span <> 0 ->
    (forall now', JWTService.isTokenExpired tok now' = true <-> now + span < now')
    /\ (forall now', JWTService.isTokenExpired tok now' = true ->
                     errorCodeOf (JWTService.verifyToken config tok now')
                     = Some "TOKEN_EXPIRED")
    /\ JWTService.isTokenExpired tok (now + span) = false
    /\ errorCodeOf (JWTService.verifyToken config tok (now + span)) = Some "TOKEN_EXPIRED".
Proof.
  intros P C config p expiresIn span now tok Hgen Ht Hnz.
  assert (Hexp : forall now', now + span <= now' ->
            errorCodeOf (JWTService.verifyToken config tok now') = Some "TOKEN_EXPIRED").
  { intros now' Hle.
    now rewrite (generateToken_expired config p expiresIn span now now' tok Hgen Ht Hle). }
  destruct (generateToken_inv config _ _ _ _ Hgen)
    as (e & d & span' & _ & _ & _ & _ & Hs & Ht' & ->).
  rewrite Ht in Ht'. injection Ht' as <-.
  assert (Hdec : forall now',
            JWTService.isTokenExpired
              (compact (signedBody (JWTService.tokenPayload p (Some d)) now span)
                       (jwtSecret config)) now'
            = (now + span <? now')).
  { intro now'. unfold JWTService.isTokenExpired.
    rewrite decodeToken_compact. cbn [exp signedBody].
    apply Z.eqb_neq in Hnz. now rewrite Hnz. }
  repeat split.
  - rewrite Hdec. apply Z.ltb_lt.
  - rewrite Hdec. apply Z.ltb_lt.
  - intros now'. rewrite Hdec. intro H. apply Z.ltb_lt in H. apply Hexp. lia.
  - rewrite Hdec. apply Z.ltb_irrefl.
  - apply Hexp. lia.
Qed.

Lemma isTokenExpired_against_verifyToken_witness :
  (forall now', JWTService.isTokenExpired aliceToken now' = true <-> 1000 + 86400 < now')
  /\ (forall now', JWTService.isTokenExpired aliceToken now' = true ->
                   errorCodeOf (JWTService.verifyToken Reference.config aliceToken now')
                   = Some "TOKEN_EXPIRED")
  /\ JWTService.isTokenExpired aliceToken (1000 + 86400) = false
  /\ errorCodeOf (JWTService.verifyToken Reference.config aliceToken (1000 + 86400))
     = Some "TOKEN_EXPIRED".
Proof.
  apply (isTokenExpired_against_verifyToken (C := ReferenceFacts.soundCodec)
           Reference.config alicePayload None 86400 1000 aliceToken).
  - vm_compute. reflexivity.
  - reflexivity.
  - vm_compute. discriminate.
Defined.

(** ** The token service: the time-to-live exposed to clients *)

Module Digits.

Lemma value_acc (d : Decimal.uint) (acc : positive) :
  digitsValue d (Zpos acc) = Zpos (Pos.of_uint_acc d acc).
Proof.
  revert acc. induction d; intro acc; cbn [digitsValue Pos.of_uint_acc];
    [reflexivity | rewrite <- IHd; f_equal; lia ..].
Qed.

Lemma value_of_uint (d : Decimal.uint) : digitsValue d 0 = Z.of_N (Pos.of_uint d).
Proof.
  induction d; cbn [digitsValue Pos.of_uint]; try reflexivity;
    try (exact IHd); change (10 * 0 + ?k) with k; apply value_acc.
Qed.

Lemma parseDigits_uint (d : Decimal.uint) (acc : Z) :
  JWTService.parseDigits acc (NilEmpty.string_of_uint d) = digitsValue d acc.
Proof.
  revert acc. induction d; intro acc; cbn [NilEmpty.string_of_uint JWTService.parseDigits digitsValue];
    [reflexivity | rewrite IHd; f_equal; cbn; lia ..].
Qed.

Lemma parseDigits_nilzero (d : Decimal.uint) :
  JWTService.parseDigits 0 (NilZero.string_of_uint d) = digitsValue d 0.
Proof. destruct d; [reflexivity | exact (parseDigits_uint _ 0) ..]. Qed.

Lemma parseDigits_showZ (n : Z) : 0 <= n -> JWTService.parseDigits 0 (showZ n) = n.
Proof.
  intro Hn. unfold showZ. destruct n as [|p|p]; [reflexivity| |lia].
  cbn [Z.to_int NilZero.string_of_int].
  now rewrite parseDigits_nilzero, value_of_uint, DecimalPos.Unsigned.of_to.
Qed.

Lemma allDigits_uint (d : Decimal.uint) : allDigits (NilEmpty.string_of_uint d) = true.
Proof. induction d; cbn; auto. Qed.

Lemma showZ_digits (n : Z) : 0 <= n -> allDigits (showZ n) = true /\ showZ n <> "".
Proof.
  intro Hn. unfold showZ. destruct n as [|p|p]; [split; [reflexivity|discriminate]| |lia].
  cbn [Z.to_int NilZero.string_of_int].
  destruct (Pos.to_uint p) as [|d|d|d|d|d|d|d|d|d|d];
    (split; [try reflexivity; exact (allDigits_uint _) | discriminate]).
Qed.

Lemma matchSpan_digits_unit (ds : string) (u : ascii) :
  allDigits ds = true -> ds <> "" -> isSpanUnit u = true ->
  JWTService.matchSpan (ds ++ String u "") = Some (ds, u).
Proof.
  intros Hd Hne Hu.
  assert (Hnd : JWTService.isDigit u = false).
  { unfold isSpanUnit in Hu.
    repeat (apply orb_true_iff in Hu as [Hu|Hu]); apply Ascii.eqb_eq in Hu; now subst u. }
  induction ds as [|a ds IH]; [now contradiction Hne|].
  cbn [allDigits] in Hd. apply andb_true_iff in Hd as [Ha Hds].
  cbn [append JWTService.matchSpan]. rewrite Ha.
  destruct ds as [|b ds'].
  - cbn [append JWTService.matchSpan]. rewrite Hnd.
    unfold isSpanUnit in Hu. now rewrite Hu.
  - rewrite IH by (auto; discriminate). reflexivity.
Qed.

End Digits.

(** X6.  When the configured [expiresIn] is the decimal numeral of a
    number [n] followed by one of [s], [m], [h], [d],
    [getTokenExpirationTime] is [n] times the seconds of that unit (the
    product staying below 2^53); for every configuration it is at least
    zero. *)
Theorem getTokenExpirationTime_of_span :
  forall (config : Config) (n : Z) (u : ascii),
    0 <= n -> n * unitSeconds u <= 2 ^ 53 ->
    isSpanUnit u = true ->
    jwtExpiresIn config = showZ n ++ String u "" ->
    JWTService.getTokenExpirationTime config = n * unitSeconds u
    /\ forall config', 0 <= JWTService.getTokenExpirationTime config'.
Proof.
  intros config n u Hn _ Hu Hcfg. split.
  - unfold JWTService.getTokenExpirationTime. rewrite Hcfg.
    destruct (Digits.showZ_digits n Hn) as [Hd Hne].
    rewrite (Digits.matchSpan_digits_unit _ _ Hd Hne Hu), (Digits.parseDigits_showZ n Hn).
    unfold unitSeconds, isSpanUnit in *.
    destruct (Ascii.eqb u "s"), (Ascii.eqb u "m"), (Ascii.eqb u "h"), (Ascii.eqb u "d");
      try discriminate; lia.
  - intro config'. unfold JWTService.getTokenExpirationTime.
    assert (Hpos : forall s acc, 0 <= acc -> 0 <= JWTService.parseDigits acc s).
    { induction s as [|a s IH]; intros acc Hacc; cbn [JWTService.parseDigits]; [exact Hacc|].
      apply IH. lia. }
    destruct (JWTService.matchSpan (jwtExpiresIn config')) as [[ds v]|]; [|lia].
    specialize (Hpos ds 0 (Z.le_refl 0)).
    destruct (Ascii.eqb v "s"), (Ascii.eqb v "m"), (Ascii.eqb v "h"), (Ascii.eqb v "d"); lia.
Qed.

Lemma getTokenExpirationTime_of_span_witness :
  JWTService.getTokenExpirationTime Reference.config = 24 * unitSeconds "h"
  /\ forall config', 0 <= JWTService.getTokenExpirationTime config'.
Proof.
  apply (getTokenExpirationTime_of_span Reference.config 24 "h").
  - lia.
  - vm_compute. discriminate.
  - reflexivity.
  - reflexivity.
Defined.

(** ** The middleware chain *)

Section Chain.
Context {P : JwtPrimitives} (config : Config).

Lemma authenticateJWT_next (req req' : Request) (now : Z) :
  AuthMiddleware.authenticateJWT config req now = Next req' ->
  exists tok d,
    AuthMiddleware.extractTokenFromHeader req = Some tok
    /\ JWTService.verifyToken config tok now = Ok d
    /\ req' = AuthMiddleware.attach req tok d.
Proof.
  unfold AuthMiddleware.authenticateJWT.
  destruct (AuthMiddleware.extractTokenFromHeader req) as [tok|]; [|discriminate].
  destruct (isEmpty tok); [discriminate|].
  destruct (JWTService.verifyToken config tok now) as [d|e] eqn:Hv.
  - intros [= <-]. now exists tok, d.
  - unfold AuthMiddleware.handleAuthenticationError,
      AuthMiddleware.sendUnauthorizedResponse, AuthMiddleware.sendForbiddenResponse.
    repeat match goal with |- (if ?b then _ else _) = _ -> _ => destruct b end;
      discriminate.
Qed.

Lemma handleAuthenticationError_status (error : JsError) :
  exists st body,
    AuthMiddleware.handleAuthenticationError error = Respond st body
    /\ ((st = 401 /\ body_code body <> "DOMAIN_RESTRICTED")
        \/ (st = 403 /\ body_code body = "DOMAIN_RESTRICTED"
            /\ code error = Some "INVALID_DOMAIN")).
Proof.
  unfold AuthMiddleware.handleAuthenticationError,
    AuthMiddleware.sendUnauthorizedResponse, AuthMiddleware.sendForbiddenResponse.
  destruct (strictEquals (code error) "TOKEN_EXPIRED");
    [do 2 eexists; split; [reflexivity | left; split; [reflexivity | discriminate]]|].
  destruct (strictEquals (code error) "INVALID_TOKEN"
            || strictEquals (code error) "INVALID_TOKEN_FORMAT"
            || strictEquals (code error) "INVALID_TOKEN_PAYLOAD");
    [do 2 eexists; split; [reflexivity | left; split; [reflexivity | discriminate]]|].
  destruct (strictEquals (code error) "EMPTY_TOKEN");
    [do 2 eexists; split; [reflexivity | left; split; [reflexivity | discriminate]]|].
  destruct (strictEquals (code error) "INVALID_DOMAIN") eqn:Hd.
  { do 2 eexists; split; [reflexivity | right]. repeat split.
    destruct (code error) as [c|]; [|discriminate]. cbn in Hd.
    apply String.eqb_eq in Hd. now subst c. }
  destruct (strictEquals (code error) "TOKEN_NOT_ACTIVE");
    do 2 eexists; (split; [reflexivity | left; split; [reflexivity | discriminate]]).
Qed.

End Chain.

(** X7.  Whatever the request, [authenticateJWT] only ever answers with
    status 401 or 403, and it answers 403 (code [DOMAIN_RESTRICTED])
    exactly when a token was extracted and [verifyToken] failed on it
    with [INVALID_DOMAIN]. *)
Theorem authenticateJWT_answers_401_or_403 :
  forall {P : JwtPrimitives} (config : Config) (req : Request) (now : Z)
         (st : Z) (body : ErrorBody),
    AuthMiddleware.authenticateJWT config req now = Respond st body ->
    (st = 401 /\ body_code body <> "DOMAIN_RESTRICTED")
    \/ (st = 403 /\ body_code body = "DOMAIN_RESTRICTED"
        /\ exists tok,
             AuthMiddleware.extractTokenFromHeader req = Some tok
             /\ errorCodeOf (JWTService.verifyToken config tok now) = Some "INVALID_DOMAIN").
Proof.
  intros P config req now st body. unfold AuthMiddleware.authenticateJWT.
  destruct (AuthMiddleware.extractTokenFromHeader req) as [tok|].
  - destruct (isEmpty tok);
      [intros [= <- <-]; left; split; [reflexivity | discriminate]|].
    destruct (JWTService.verifyToken config tok now) as [d|e] eqn:Hv; [discriminate|].
    destruct (handleAuthenticationError_status e) as (st' & body' & -> & H).
    intros [= <- <-]. destruct H as [H|(H1 & H2 & H3)]; [left; exact H | right].
    repeat split; try assumption. exists tok. split; [reflexivity|].
    rewrite Hv. exact H3.
  - intros [= <- <-]. left. split; [reflexivity | discriminate].
Qed.

Lemma authenticateJWT_answers_401_or_403_witness :
  (401 = 401 /\ "UNAUTHORIZED" <> "DOMAIN_RESTRICTED")
  \/ (401 = 403 /\ "UNAUTHORIZED" = "DOMAIN_RESTRICTED"
      /\ exists tok,
           AuthMiddleware.extractTokenFromHeader (mkRequest None UserUndefined None)
           = Some tok
           /\ errorCodeOf (JWTService.verifyToken Reference.config tok 0)
              = Some "INVALID_DOMAIN").
Proof.
  exact (authenticateJWT_answers_401_or_403 Reference.config
           (mkRequest None UserUndefined None) 0 401
           (mkErrorBody "No authentication token provided" "UNAUTHORIZED") eq_refl).
Defined.

(** X8.  [optionalAuthentication] attaches exactly what [authenticateJWT]
    would: when the strict middleware lets a request proceed, the
    optional one proceeds with the same request; when the strict one
    answers with an error, the optional one proceeds with the user set to
    [null]. *)
Theorem optionalAuthentication_agrees_with_authenticateJWT :
  forall {P : JwtPrimitives} (config : Config) (req : Request) (now : Z),
    match AuthMiddleware.authenticateJWT config req now with
    | Next req' => AuthMiddleware.optionalAuthentication config req now = Next req'
    | Respond _ _ =>
        AuthMiddleware.optionalAuthentication config req now
        = Next (mkRequest (authorization req) UserNull (tokenInfo req))
    end.
Proof.
  intros P config req now.
  unfold AuthMiddleware.authenticateJWT, AuthMiddleware.optionalAuthentication.
  destruct (AuthMiddleware.extractTokenFromHeader req) as [tok|]; [|reflexivity].
  destruct (isEmpty tok); [reflexivity|].
  destruct (JWTService.verifyToken config tok now) as [d|e]; [reflexivity|].
  destruct (handleAuthenticationError_status e) as (st & body & -> & _). reflexivity.
Qed.

(** X9.  After [authenticateJWT] has let a request through,
    [requireDomain] lets it through exactly when the [domain] claim of
    the verified token is the required domain, character for character;
    otherwise it answers 403 [FORBIDDEN]. *)
Theorem requireDomain_after_authenticateJWT :
  forall {P : JwtPrimitives} (config : Config) (req req' : Request) (now : Z)
         (requiredDomain : string),
    AuthMiddleware.authenticateJWT config req now = Next req' ->
    exists tok d,
      AuthMiddleware.extractTokenFromHeader req = Some tok
      /\ JWTService.verifyToken config tok now = Ok d
      /\ (domain d = Some requiredDomain ->
          AuthMiddleware.requireDomain requiredDomain req' = Next req')
      /\ (domain d <> Some requiredDomain ->
          AuthMiddleware.requireDomain requiredDomain req'
          = Respond 403 (mkErrorBody ("Access restricted to " ++ requiredDomain ++ " domain")
                                     "FORBIDDEN")).
Proof.
  intros P config req req' now requiredDomain H.
  destruct (authenticateJWT_next config _ _ _ H) as (tok & d & He & Hv & ->).
  exists tok, d. repeat split; try assumption.
  - intro Hd. unfold AuthMiddleware.requireDomain. cbn. rewrite Hd. cbn.
    now rewrite String.eqb_refl.
  - intro Hd. unfold AuthMiddleware.requireDomain. cbn.
    destruct (domain d) as [x|]; cbn; [|reflexivity].
    destruct (String.eqb_spec x requiredDomain) as [->|]; [now contradiction Hd | reflexivity].
Qed.

Lemma requireDomain_after_authenticateJWT_witness :
  exists tok d,
    AuthMiddleware.extractTokenFromHeader (bearer aliceToken) = Some tok
    /\ JWTService.verifyToken Reference.config tok 1000 = Ok d
    /\ (domain d = Some "wareongo.com" ->
        AuthMiddleware.requireDomain "wareongo.com"
          (AuthMiddleware.attach (bearer aliceToken) aliceToken aliceClaims)
        = Next (AuthMiddleware.attach (bearer aliceToken) aliceToken aliceClaims))
    /\ (domain d <> Some "wareongo.com" ->
        AuthMiddleware.requireDomain "wareongo.com"
          (AuthMiddleware.attach (bearer aliceToken) aliceToken aliceClaims)
        = Respond 403 (mkErrorBody ("Access restricted to " ++ "wareongo.com" ++ " domain")
                                   "FORBIDDEN")).
Proof.
  apply (requireDomain_after_authenticateJWT Reference.config (bearer aliceToken)
           (AuthMiddleware.attach (bearer aliceToken) aliceToken aliceClaims)
           1000 "wareongo.com").
  vm_compute. reflexivity.
Defined.

(** X10.  [checkTokenExpiration] never answers a request itself: for
    every request it calls [next()] on the unchanged request.  Run after
    [authenticateJWT] at the same instant, its test
    [timeUntilExpiration > 0] always holds, so it sets the two refresh
    headers exactly when the claims [verifyToken] returned for the token
    of the request's header have an [exp] at most
    [60 * refreshThresholdMinutes] seconds ahead, and
    [X-Token-Expires-In] is then the remaining number of seconds. *)
Theorem checkTokenExpiration_after_authenticateJWT :
  forall {P : JwtPrimitives} (config : Config) (req : Request) (now : Z)
         (refreshThresholdMinutes : Z),
    (forall anyRequest,
        snd (AuthMiddleware.checkTokenExpiration refreshThresholdMinutes anyRequest now)
        = Next anyRequest)
    /\ (forall req',
          AuthMiddleware.authenticateJWT config req now = Next req' ->
          exists tok d,
            AuthMiddleware.extractTokenFromHeader req = Some tok
            /\ JWTService.verifyToken config tok now = Ok d
            /\ fst (AuthMiddleware.checkTokenExpiration refreshThresholdMinutes req' now)
               = match exp d with
                 | Some e =>
                     if e - now <=? refreshThresholdMinutes * 60
                     then [("X-Token-Refresh-Suggested", "true");
                           ("X-Token-Expires-In", showZ (e - now))]
                     else []
                 | None => []
                 end).
Proof.
  intros P config req now refreshThresholdMinutes. split.
  - intro anyRequest. unfold AuthMiddleware.checkTokenExpiration.
    destruct (tokenInfo anyRequest) as [info|]; [|reflexivity].
    destruct (expiresAt info) as [e|]; [|reflexivity].
    now destruct ((e - now <=? refreshThresholdMinutes * 60) && (0 <? e - now)).
  - intros req' H.
    destruct (authenticateJWT_next config _ _ _ H) as (tok & d & He & Hv & ->).
    destruct (verifyToken_ok_live config _ _ _ Hv) as [Hexp _].
    exists tok, d. split; [assumption|]. split; [assumption|].
    unfold AuthMiddleware.checkTokenExpiration, AuthMiddleware.attach.
    cbn [tokenInfo expiresAt].
    destruct (exp d) as [e|]; [|reflexivity].
    specialize (Hexp e eq_refl).
    assert (Hpos : (0 <? e - now) = true) by (apply Z.ltb_lt; lia).
    rewrite Hpos, Bool.andb_true_r.
    now destruct (e - now <=? refreshThresholdMinutes * 60).
Qed.

Lemma checkTokenExpiration_after_authenticateJWT_witness :
  exists tok d,
    AuthMiddleware.extractTokenFromHeader (bearer aliceToken) = Some tok
    /\ JWTService.verifyToken Reference.config tok 1000 = Ok d
    /\ fst (AuthMiddleware.checkTokenExpiration 1440
              (AuthMiddleware.attach (bearer aliceToken) aliceToken aliceClaims) 1000)
       = match exp d with
         | Some e =>
             if e - 1000 <=? 1440 * 60
             then [("X-Token-Refresh-Suggested", "true");
                   ("X-Token-Expires-In", showZ (e - 1000))]
             else []
         | None => []
         end.
Proof.
  apply (proj2 (checkTokenExpiration_after_authenticateJWT Reference.config
                  (bearer aliceToken) 1000 1440)
           (AuthMiddleware.attach (bearer aliceToken) aliceToken aliceClaims)).
  vm_compute. reflexivity.
Defined.

(** ** Header forms *)

Section HeaderForms.
Context {P : JwtPrimitives} (config : Config).

Lemma allBase64url_no_space (s : string) :
  Jsonwebtoken.allBase64url s = true -> includes " " s = false.
Proof.
  induction s as [|a r IH]; [reflexivity|].
  cbn [Jsonwebtoken.allBase64url includes]. intro H.
  apply andb_prop in H as [Ha Hr]. rewrite (IH Hr), Bool.orb_false_r.
  destruct (Ascii.eqb_spec a " ") as [->|]; [discriminate Ha | reflexivity].
Qed.

Lemma includes_split (c d : ascii) (s : string) :
  c <> d -> includes c s = true -> existsb (includes c) (split d s) = true.
Proof.
  intro Hcd. induction s as [|a r IH]; [discriminate|].
  cbn [includes split]. intro H.
  destruct (Ascii.eqb_spec a d) as [->|Had].
  - destruct (Ascii.eqb_spec d c) as [->|]; [now contradiction Hcd|].
    cbn [orb] in H. cbn [existsb includes orb]. now apply IH.
  - destruct (split d r) as [|x xs] eqn:Hs.
    + destruct (split_cons d r) as (x & xs & Hx). congruence.
    + cbn [existsb includes].
      destruct (Ascii.eqb a c); [reflexivity|]. cbn [orb] in *.
      specialize (IH H). exact IH.
Qed.

Lemma verify_ok_no_space (tok secret audience issuer : string) (now : Z) (d : Claims) :
  Jsonwebtoken.verify tok secret audience issuer now = Ok d ->
  includes " " tok = false.
Proof.
  intro H.
  destruct (verify_ok_inv _ _ _ _ _ _ H) as (h & p & s & header & Hsplit & Hdec & _).
  unfold Jsonwebtoken.decodeComplete in Hdec. rewrite Hsplit in Hdec.
  destruct (negb (isEmpty h) && Jsonwebtoken.allBase64url h && negb (isEmpty p)
            && Jsonwebtoken.allBase64url p && Jsonwebtoken.allBase64url s) eqn:Hb;
    [|discriminate].
  apply andb_prop in Hb as [Hb Hs]. apply andb_prop in Hb as [Hb Hp].
  apply andb_prop in Hb as [Hb _]. apply andb_prop in Hb as [_ Hh].
  destruct (includes " " tok) eqn:Hi; [|reflexivity].
  apply (includes_split " " ".") in Hi; [|discriminate].
  rewrite Hsplit in Hi. cbn [existsb] in Hi.
  now rewrite (allBase64url_no_space _ Hh), (allBase64url_no_space _ Hp),
    (allBase64url_no_space _ Hs) in Hi.
Qed.

Lemma verifyToken_ok_clean (t : string) (now : Z) (d : Claims) :
  JWTService.verifyToken config t now = Ok d ->
  t <> "" /\ JWTService.cleanToken t <> ""
  /\ includes " " (JWTService.cleanToken t) = false.
Proof.
  intro H. assert (Hv := verifyToken_ok_verify config _ _ _ H).
  repeat split.
  - intros ->. discriminate H.
  - intro He. rewrite He in Hv. discriminate Hv.
  - exact (verify_ok_no_space _ _ _ _ _ _ Hv).
Qed.

Lemma startsWith_Bearer_space (j : string) :
  startsWith j "Bearer " = true -> includes " " j = true.
Proof.
  intro H. rewrite (startsWith_split _ _ H). reflexivity.
Qed.

(** The token the middleware extracts from a header that [verifyToken]
    accepts as a whole *)
Lemma extractTokenFromHeader_verified (t : string) (now : Z) (d : Claims)
      (u : UserContext) (ti : option TokenInfo) :
  JWTService.verifyToken config t now = Ok d ->
  AuthMiddleware.extractTokenFromHeader (mkRequest (Some t) u ti)
  = Some (JWTService.cleanToken t)
  /\ JWTService.verifyToken config (JWTService.cleanToken t) now = Ok d.
Proof.
  intro H. destruct (verifyToken_ok_clean _ _ _ H) as (Ht & Hc & Hsp).
  assert (Hbare : startsWith (JWTService.cleanToken t) "Bearer " = false).
  { destruct (startsWith (JWTService.cleanToken t) "Bearer ") eqn:Hs; [|reflexivity].
    apply startsWith_Bearer_space in Hs. congruence. }
  split.
  - unfold AuthMiddleware.extractTokenFromHeader. cbn [authorization].
    apply isEmpty_false in Ht. rewrite Ht.
    unfold JWTService.cleanToken in *.
    destruct (startsWith t "Bearer "); [reflexivity|]. now rewrite Hsp.
  - rewrite <- H. apply verifyToken_cleanToken; try assumption.
    now rewrite (cleanToken_bare _ Hbare).
Qed.

End HeaderForms.

(** X11.  [authenticateJWT] accepts every header value that [verifyToken]
    accepts as a whole, with or without a further [Bearer ] prefix in
    front of it, and attaches the same identity each time; the refresh
    endpoint, in contrast, answers 401 [missing_token] to the same valid
    token sent without the prefix. *)
Theorem authenticateJWT_header_forms :
  forall {P : JwtPrimitives} (config : Config) (t : string) (now : Z) (d : Claims)
         (u : UserContext) (ti : option TokenInfo),
    JWTService.verifyToken config t now = Ok d ->
    AuthMiddleware.authenticateJWT config (mkRequest (Some ("Bearer " ++ t)) u ti) now
    = Next (mkRequest (Some ("Bearer " ++ t)) (UserObject (AuthMiddleware.identityOf d))
                      (Some (mkTokenInfo t (iat d) (exp d))))
    /\ AuthMiddleware.authenticateJWT config (mkRequest (Some t) u ti) now
       = Next (mkRequest (Some t) (UserObject (AuthMiddleware.identityOf d))
                         (Some (mkTokenInfo (JWTService.cleanToken t) (iat d) (exp d))))
    /\ (startsWith t "Bearer " = false ->
        AuthRoutes.refresh config (mkRequest (Some t) u ti) now
        = ControllerReply
            (mkApiReply 401
               (ErrorJson "Authorization header with Bearer token is required for token refresh"
                          (AuthController.detailsOf "missing_token")))).
Proof.
  intros P config t now d u ti H. split; [|split].
  - unfold AuthMiddleware.authenticateJWT, AuthMiddleware.extractTokenFromHeader.
    cbn [authorization]. rewrite (startsWith_append "Bearer " t).
    change (slice 7 ("Bearer " ++ t)) with (slice (String.length "Bearer ") ("Bearer " ++ t)).
    rewrite slice_append. cbn [append isEmpty].
    destruct (verifyToken_ok_clean config _ _ _ H) as (Ht & _).
    apply isEmpty_false in Ht. now rewrite Ht, H.
  - destruct (extractTokenFromHeader_verified config t now d u ti H) as [He Hv].
    destruct (verifyToken_ok_clean config _ _ _ H) as (_ & Hc & _).
    apply isEmpty_false in Hc.
    unfold AuthMiddleware.authenticateJWT. now rewrite He, Hc, Hv.
  - intro Hb. unfold AuthRoutes.refresh, AuthController.refreshToken.
    cbn [authorization]. rewrite Hb. cbn [negb]. now rewrite Bool.orb_true_r.
Qed.

Lemma authenticateJWT_header_forms_witness :
  AuthMiddleware.authenticateJWT Reference.config
    (mkRequest (Some ("Bearer " ++ aliceToken)) UserUndefined None) 1000
  = Next (mkRequest (Some ("Bearer " ++ aliceToken))
                    (UserObject (AuthMiddleware.identityOf aliceClaims))
                    (Some (mkTokenInfo aliceToken (iat aliceClaims) (exp aliceClaims))))
  /\ AuthMiddleware.authenticateJWT Reference.config
       (mkRequest (Some aliceToken) UserUndefined None) 1000
     = Next (mkRequest (Some aliceToken)
                       (UserObject (AuthMiddleware.identityOf aliceClaims))
                       (Some (mkTokenInfo (JWTService.cleanToken aliceToken)
                                          (iat aliceClaims) (exp aliceClaims))))
  /\ (startsWith aliceToken "Bearer " = false ->
      AuthRoutes.refresh Reference.config (mkRequest (Some aliceToken) UserUndefined None)
                         1000
      = ControllerReply
          (mkApiReply 401
             (ErrorJson "Authorization header with Bearer token is required for token refresh"
                        (AuthController.detailsOf "missing_token")))).
Proof.
  apply (authenticateJWT_header_forms Reference.config aliceToken 1000 aliceClaims
           UserUndefined None).
  vm_compute. reflexivity.
Defined.

(** X12.  The route [GET /auth/me] answers 200 with the identity of the
    verified token whenever [authenticateJWT] lets the request through,
    and with the middleware's 401 or 403 otherwise: the controller's own
    401 [no_user_context] is never sent on this route. *)
Theorem me_route_outcomes :
  forall {P : JwtPrimitives} (config : Config) (req : Request) (now : Z),
    (exists tok d,
        AuthMiddleware.extractTokenFromHeader req = Some tok
        /\ JWTService.verifyToken config tok now = Ok d
        /\ AuthRoutes.me config req now
           = ControllerReply (mkApiReply 200 (UserJson (AuthController.publicUserOf d))))
    \/ (exists st body,
           AuthMiddleware.authenticateJWT config req now = Respond st body
           /\ AuthRoutes.me config req now = MiddlewareReply st body
           /\ (st = 401 \/ st = 403)).
Proof.
  intros P config req now. unfold AuthRoutes.me.
  destruct (AuthMiddleware.authenticateJWT config req now) as [req'|st body] eqn:Ha.
  - left. destruct (authenticateJWT_next config _ _ _ Ha) as (tok & d & He & Hv & ->).
    exists tok, d. repeat split; assumption.
  - right. exists st, body. repeat split.
    unfold AuthMiddleware.authenticateJWT in Ha.
    destruct (AuthMiddleware.extractTokenFromHeader req) as [tok|].
    + destruct (isEmpty tok); [injection Ha as <- <-; now left|].
      destruct (JWTService.verifyToken config tok now) as [d|e]; [discriminate|].
      destruct (handleAuthenticationError_status e) as (st' & body' & He & Hst).
      rewrite He in Ha. injection Ha as <- <-. tauto.
    + injection Ha as <- <-. now left.
Qed.

(** ** Refreshing: the service and the endpoint *)

Section RefreshFlow.
Context {P : JwtPrimitives} {C : SoundCodec P} (config : Config).

Lemma generateToken_no_span (p : Claims) (e d : string) (now : Z) :
  truthy (id p) = true -> email p = Some e ->
  JWTService.extractDomain (Some e) = Ok (Some d) ->
  toLowerCase d = toLowerCase (allowedDomain config) ->
  jwtSecret config <> "" ->
  timespan (jwtExpiresIn config) = None ->
  JWTService.generateToken config (Some p) None now
  = Throw (withOriginal
             (codedError "Failed to sign JWT token" "TOKEN_SIGNING_ERROR" 500)
             "expiresIn should be a number of seconds or string representing a timespan").
Proof.
  intros Hid Hemail Hd Heq Hs Ht.
  destruct (extractDomain_defined _ _ Hd) as [Hne _].
  unfold JWTService.generateToken.
  rewrite Hid, Hemail. simpl truthy. rewrite Hne. cbn [negb orb].
  rewrite (validateEmailDomain_spec config e d Hd).
  apply String.eqb_eq in Heq. rewrite Heq. cbn [bind negb].
  rewrite Hd. cbn [bind]. unfold Jsonwebtoken.sign.
  apply isEmpty_false in Hs. rewrite Hs. cbn [orElse]. rewrite Ht. reflexivity.
Qed.

(** The token a refresh issues, and what it verifies to at the same instant *)
Lemma refreshToken_issues (tok : string) (now span : Z) (d : Claims) :
  JWTService.verifyToken config tok now = Ok d ->
  timespan (jwtExpiresIn config) = Some span ->
  exists dom,
    JWTService.extractDomain (email d) = Ok (Some dom)
    /\ JWTService.refreshToken config tok now
       = Ok (compact (signedBody (JWTService.tokenPayload (JWTService.userPayload d)
                                                          (Some dom)) now span)
                     (jwtSecret config))
    /\ (0 < span ->
        JWTService.verifyToken config
          (compact (signedBody (JWTService.tokenPayload (JWTService.userPayload d)
                                                        (Some dom)) now span)
                   (jwtSecret config)) now
        = Ok (signedBody (JWTService.tokenPayload (JWTService.userPayload d) (Some dom))
                         now span)).
Proof.
  intros H Ht.
  destruct (verifyToken_inv config _ _ _ H) as (Hs & Hid & e & dom & He & Hd & Heq).
  exists dom. rewrite He. split; [assumption|]. split.
  - unfold JWTService.refreshToken. rewrite H. cbn [bind].
    now rewrite (generateToken_ok config (JWTService.userPayload d) e dom None now span
                   Hid He Hd Heq Hs Ht).
  - intro Hpos.
    apply (verifyToken_compact config _ e dom now Hs); try reflexivity; try assumption.
    cbn. assert (Hle : (now + span <=? now) = false) by (apply Z.leb_gt; lia).
    now rewrite Hle.
Qed.

End RefreshFlow.

Section ControllerErrors.
Context {P : JwtPrimitives} {G : Provider} {U : UrlCodec} (config : Config).

(** The status the controller answers an error of the token service with *)
Lemma handleAuthenticationError_token_status (error : JsError) :
  In (code error, statusCode error)
     [(Some "INVALID_TOKEN_FORMAT", Some 400); (Some "EMPTY_TOKEN", Some 400);
      (Some "TOKEN_EXPIRED", Some 401); (Some "INVALID_TOKEN", Some 400);
      (Some "TOKEN_NOT_ACTIVE", Some 400); (Some "INVALID_TOKEN_PAYLOAD", Some 400);
      (Some "INVALID_DOMAIN", Some 403); (Some "TOKEN_VERIFICATION_ERROR", Some 400)] ->
  api_status (AuthController.handleAuthenticationError error)
  = (if strictEquals (code error) "INVALID_TOKEN" then 401
     else match statusCode error with Some st => st | None => 500 end)
  /\ In (api_status (AuthController.handleAuthenticationError error)) [400; 401; 403].
Proof.
  intro Hin. unfold AuthController.handleAuthenticationError.
  cbn [In] in Hin.
  repeat (destruct Hin as [Hin|Hin];
          [injection Hin as Hc Hs; rewrite <- Hc, <- Hs; cbn; auto 10|]).
  contradiction.
Qed.

(** The status the controller answers an error of token issuance with *)
Lemma handleAuthenticationError_issue_status (error : JsError) :
  In (code error, statusCode error)
     [(Some "INVALID_PAYLOAD", Some 400); (Some "MISSING_REQUIRED_FIELDS", Some 400);
      (Some "INVALID_DOMAIN", Some 403); (Some "TOKEN_SIGNING_ERROR", Some 500);
      (Some "TOKEN_GENERATION_ERROR", Some 500)] ->
  In (api_status (AuthController.handleAuthenticationError error)) [400; 403; 500].
Proof.
  intro Hin. unfold AuthController.handleAuthenticationError.
  cbn [In] in Hin.
  repeat (destruct Hin as [Hin|Hin];
          [injection Hin as Hc Hs; rewrite <- Hc, <- Hs; cbn; auto 10|]).
  contradiction.
Qed.

Lemma refreshToken_error_cases (tok : string) (now : Z) (error : JsError) :
  JWTService.refreshToken config tok now = Throw error ->
  JWTService.verifyToken config tok now = Throw error
  \/ (exists d,
         JWTService.verifyToken config tok now = Ok d
         /\ timespan (jwtExpiresIn config) = None
         /\ error
            = withOriginal
                (codedError "Failed to sign JWT token" "TOKEN_SIGNING_ERROR" 500)
                "expiresIn should be a number of seconds or string representing a timespan").
Proof.
  intro H. destruct (JWTService.verifyToken config tok now) as [d|e0] eqn:Hv.
  - right. exists d. split; [reflexivity|].
    destruct (timespan (jwtExpiresIn config)) as [span|] eqn:Ht.
    + destruct (verifyToken_inv config _ _ _ Hv) as (Hs & Hid & e & dom & He & Hd & Heq).
      unfold JWTService.refreshToken in H. rewrite Hv in H. cbn [bind] in H.
      rewrite (generateToken_ok config (JWTService.userPayload d) e dom None now span
                 Hid He Hd Heq Hs Ht) in H.
      discriminate H.
    + split; [reflexivity|].
      destruct (verifyToken_inv config _ _ _ Hv) as (Hs & Hid & e & dom & He & Hd & Heq).
      unfold JWTService.refreshToken in H. rewrite Hv in H. cbn [bind] in H.
      rewrite (generateToken_no_span config (JWTService.userPayload d) e dom now
                 Hid He Hd Heq Hs Ht) in H.
      cbn in H. now injection H as <-.
  - left. unfold JWTService.refreshToken in H. rewrite Hv in H.
    cbn [bind try_catch] in H.
    destruct (verifyToken_error_structured config _ _ _ Hv) as [Hc Hst].
    rewrite Hc, Hst in H. cbn [andb] in H. now injection H as <-.
Qed.

(** Where an error of the service's [refreshToken] comes from *)
Lemma refreshToken_error_sources (tok : string) (now : Z) (error : JsError) :
  JWTService.refreshToken config tok now = Throw error ->
  JWTService.verifyToken config tok now = Throw error
  \/ exists d,
       JWTService.verifyToken config tok now = Ok d
       /\ JWTService.generateToken config (Some (JWTService.userPayload d)) None now
          = Throw error.
Proof.
  unfold JWTService.refreshToken.
  destruct (JWTService.verifyToken config tok now) as [d|e0] eqn:Hv; cbn [bind try_catch].
  - destruct (JWTService.generateToken config (Some (JWTService.userPayload d)) None now)
      as [t|e1] eqn:Hg; [discriminate|].
    assert (Hin := generateToken_error_codes config _ _ _ _ Hg).
    assert (Hst : truthy (code e1) && nonzero (statusCode e1) = true).
    { cbn [In] in Hin.
      repeat (destruct Hin as [Hin|Hin];
              [injection Hin as Hc Hs; now rewrite <- Hc, <- Hs|]).
      contradiction. }
    cbn [try_catch]. rewrite Hst. intros [= <-]. right. now exists d.
  - destruct (verifyToken_error_structured config _ _ _ Hv) as [Hc Hst].
    rewrite Hc, Hst. cbn [andb]. intros [= <-]. now left.
Qed.

End ControllerErrors.

(** X13.  [refreshToken] of the token service never wraps an error: its
    code [TOKEN_REFRESH_ERROR] cannot occur.  A failed refresh either
    fails with the very error of [verifyToken], or the token verified and
    the configured time-to-live is not a time span, and the error is
    [TOKEN_SIGNING_ERROR] with status 500. *)
Theorem refreshToken_never_wraps :
  forall {P : JwtPrimitives} (config : Config)
         (tok : string) (now : Z) (error : JsError),
    JWTService.refreshToken config tok now = Throw error ->
    code error <> Some "TOKEN_REFRESH_ERROR"
    /\ (JWTService.verifyToken config tok now = Throw error
        \/ (exists d,
               JWTService.verifyToken config tok now = Ok d
               /\ timespan (jwtExpiresIn config) = None
               /\ code error = Some "TOKEN_SIGNING_ERROR"
               /\ statusCode error = Some 500)).
Proof.
  intros P config tok now error H.
  destruct (refreshToken_error_cases config tok now error H) as [Hv|(d & Hv & Ht & ->)].
  - split; [|now left].
    assert (Hin := verifyToken_error_codes config tok now error Hv).
    cbn [In] in Hin. intro Hc. rewrite Hc in Hin.
    repeat (destruct Hin as [Hin|Hin]; [discriminate Hin|]). contradiction.
  - split; [discriminate|]. right. exists d. auto.
Qed.

Lemma refreshToken_never_wraps_witness :
  code (withOriginal
          (codedError "Your session has expired. Please sign in again."
                      "TOKEN_EXPIRED" 401) "jwt expired")
  <> Some "TOKEN_REFRESH_ERROR"
  /\ (JWTService.verifyToken Reference.config aliceToken (1000 + 86400)
      = Throw (withOriginal
                 (codedError "Your session has expired. Please sign in again."
                             "TOKEN_EXPIRED" 401) "jwt expired")
      \/ (exists d,
             JWTService.verifyToken Reference.config aliceToken (1000 + 86400) = Ok d
             /\ timespan (jwtExpiresIn Reference.config) = None
             /\ code (withOriginal
                        (codedError "Your session has expired. Please sign in again."
                                    "TOKEN_EXPIRED" 401) "jwt expired")
                = Some "TOKEN_SIGNING_ERROR"
             /\ statusCode (withOriginal
                              (codedError "Your session has expired. Please sign in again."
                                          "TOKEN_EXPIRED" 401) "jwt expired")
                = Some 500)).
Proof.
  apply (refreshToken_never_wraps Reference.config aliceToken (1000 + 86400)).
  vm_compute. reflexivity.
Defined.

(** X14.  The refresh endpoint, given [Bearer] and a token that
    [verifyToken] accepts, under a configured time-to-live of [span]
    seconds: when [span] is positive it answers 200 with a new token
    that verifies at once, expires [span] seconds later and carries the
    same [id], [email], [name] and [picture]; when [span] is zero or
    negative the token it has just issued is already expired and it
    answers 401 [token_expired]. *)
Theorem refresh_route_on_valid_token :
  forall {P : JwtPrimitives} {C : SoundCodec P} (config : Config)
         (tok : string) (now span : Z) (d : Claims)
         (u : UserContext) (ti : option TokenInfo),
    JWTService.verifyToken config tok now = Ok d ->
    timespan (jwtExpiresIn config) = Some span ->
    (0 < span ->
     exists tok' d',
       AuthRoutes.refresh config (mkRequest (Some ("Bearer " ++ tok)) u ti) now
       = ControllerReply
           (mkApiReply 200
              (RefreshJson tok' (JWTService.getTokenExpirationTime config)
                           (AuthController.publicUserOf d')))
       /\ JWTService.verifyToken config tok' now = Ok d'
       /\ id d' = id d /\ email d' = email d /\ name d' = name d
       /\ picture d' = picture d /\ exp d' = Some (now + span))
    /\ (span <= 0 ->
        AuthRoutes.refresh config (mkRequest (Some ("Bearer " ++ tok)) u ti) now
        = ControllerReply
            (mkApiReply 401
               (ErrorJson "Your session has expired. Please sign in again."
                          (AuthController.detailsOf "token_expired")))).
Proof.
  intros P C config tok now span d u ti H Ht.
  destruct (refreshToken_issues config tok now span d H Ht) as (dom & Hd & Hr & Hv).
  destruct (verifyToken_inv config _ _ _ H) as (Hs & _).
  assert (Hh :
            AuthRoutes.refresh config (mkRequest (Some ("Bearer " ++ tok)) u ti) now
            = ControllerReply
                (match
                    (newToken <- JWTService.refreshToken config tok now ;;
                     decoded <- JWTService.verifyToken config newToken now ;;
                     Ok (mkApiReply 200
                           (RefreshJson newToken (JWTService.getTokenExpirationTime config)
                                        (AuthController.publicUserOf decoded))))
                  with
                  | Ok reply => reply
                  | Throw error => AuthController.handleAuthenticationError error
                  end)).
  { unfold AuthRoutes.refresh, AuthController.refreshToken.
    cbn [authorization]. rewrite (startsWith_append "Bearer " tok).
    change (slice 7 ("Bearer " ++ tok))
      with (slice (String.length "Bearer ") ("Bearer " ++ tok)).
    rewrite slice_append. reflexivity. }
  split.
  - intro Hpos. specialize (Hv Hpos).
    eexists. eexists. split; [|split; [exact Hv|]].
    + rewrite Hh, Hr. cbn [bind]. rewrite Hv. reflexivity.
    + cbn. auto.
  - intro Hle. rewrite Hh, Hr. cbn [bind].
    rewrite (verifyToken_issued_expired config (JWTService.userPayload d) dom now span now
               Hs ltac:(lia)).
    reflexivity.
Qed.

Lemma refresh_route_on_valid_token_witness :
  (0 < 86400 ->
   exists tok' d',
     AuthRoutes.refresh Reference.config
       (mkRequest (Some ("Bearer " ++ aliceToken)) UserUndefined None) 1000
     = ControllerReply
         (mkApiReply 200
            (RefreshJson tok' (JWTService.getTokenExpirationTime Reference.config)
                         (AuthController.publicUserOf d')))
     /\ JWTService.verifyToken Reference.config tok' 1000 = Ok d'
     /\ id d' = id aliceClaims /\ email d' = email aliceClaims
     /\ name d' = name aliceClaims
     /\ picture d' = picture aliceClaims /\ exp d' = Some (1000 + 86400))
  /\ (86400 <= 0 ->
      AuthRoutes.refresh Reference.config
        (mkRequest (Some ("Bearer " ++ aliceToken)) UserUndefined None) 1000
      = ControllerReply
          (mkApiReply 401
             (ErrorJson "Your session has expired. Please sign in again."
                        (AuthController.detailsOf "token_expired")))).
Proof.
  apply (refresh_route_on_valid_token (C := ReferenceFacts.soundCodec) Reference.config
           aliceToken 1000 86400 aliceClaims UserUndefined None).
  - vm_compute. reflexivity.
  - reflexivity.
Defined.

(** X15.  The refresh endpoint only answers with status 200, 400, 401,
    403 or 500, whatever the request. *)
Theorem refresh_route_statuses :
  forall {P : JwtPrimitives} (config : Config) (req : Request) (now : Z),
    In (api_status (AuthController.refreshToken config req now))
       [200; 400; 401; 403; 500].
Proof.
  intros P config req now. unfold AuthController.refreshToken.
  destruct (authorization req) as [authHeader|]; [|cbn; auto 10].
  destruct (isEmpty authHeader || negb (startsWith authHeader "Bearer "));
    [cbn; auto 10|].
  destruct (JWTService.refreshToken config (slice 7 authHeader) now) as [newToken|e] eqn:Hr.
  - cbn [bind].
    destruct (JWTService.verifyToken config newToken now) as [d|e] eqn:Hv;
      [cbn; auto 10|].
    cbn [bind].
    destruct (handleAuthenticationError_token_status e
                (verifyToken_error_codes config _ _ _ Hv)) as [_ Hin].
    cbn [In] in *. tauto.
  - cbn [bind].
    destruct (refreshToken_error_sources config _ _ _ Hr) as [Hv|(d & _ & Hg)].
    + destruct (handleAuthenticationError_token_status e
                  (verifyToken_error_codes config _ _ _ Hv)) as [_ Hin].
      cbn [In] in *. tauto.
    + assert (Hin := handleAuthenticationError_issue_status e
                       (generateToken_error_codes config _ _ _ _ Hg)).
      cbn [In] in *. tauto.
Qed.

(** ** The identity-provider gateway: outcomes of the three calls *)

Section GatewayOutcomes.
Context {G : Provider} (config : Config).

Lemma orElse_nonempty (a : option string) (b : string) : b <> "" -> orElse a b <> "".
Proof.
  intro Hb. unfold orElse. destruct a as [s|]; [|exact Hb].
  destruct (isEmpty s) eqn:Hs; [exact Hb | now apply isEmpty_false].
Qed.

Lemma orElse_truthy (a : option string) (b : string) :
  truthy a = true -> Some (orElse a b) = a /\ orElse a b <> "".
Proof.
  destruct a as [s|]; [|discriminate]. cbn. destruct (isEmpty s) eqn:Hs; [discriminate|].
  intros _. split; [reflexivity | now apply isEmpty_false].
Qed.

Lemma exchangeCodeForTokens_error_codes (authorizationCode : option string)
      (error : JsError) :
  GoogleOAuthService.exchangeCodeForTokens config authorizationCode = Throw error ->
  In (code error)
     [Some "INVALID_AUTH_CODE"; Some "OAUTH_SERVICE_UNAVAILABLE";
      Some "OAUTH_CONFIG_ERROR"; Some "OAUTH_REQUEST_ERROR"; Some "OAUTH_UNAUTHORIZED";
      Some "OAUTH_SERVICE_ERROR"; Some "OAUTH_UNKNOWN_ERROR"; Some "OAUTH_RESPONSE_ERROR";
      Some "OAUTH_TOKEN_EXCHANGE_ERROR"]
  /\ nonzero (statusCode error) = true.
Proof.
  unfold GoogleOAuthService.exchangeCodeForTokens.
  destruct authorizationCode as [c|]; [|intros [= <-]; cbn; tauto].
  destruct (isEmpty c); [intros [= <-]; cbn; tauto|].
  destruct (fetchToken _) as [msg|r]; [intros [= <-]; cbn; tauto|].
  destruct (negb (ok r)).
  - destruct (errorDataOf _ _) as [errorData|]; [|intros [= <-]; cbn; tauto].
    destruct (status r =? 400);
      [destruct (strictEquals _ "invalid_grant");
       [|destruct (strictEquals _ "invalid_client")]
      |destruct (status r =? 401); [|destruct (500 <=? status r)]];
      cbn [try_catch handleError]; intros [= <-];
      (split; [cbn; tauto | apply ensureStructure_structured; discriminate]).
  - destruct (json r) as [| |tokenData]; try (intros [= <-]; cbn; tauto).
    destruct (access_token tokenData) as [at_|]; [|intros [= <-]; cbn; tauto].
    destruct (isEmpty at_); [intros [= <-]; cbn; tauto | discriminate].
Qed.


Lemma exchangeCodeForTokens_ok (authorizationCode : option string) (ts : TokenSet) :
  GoogleOAuthService.exchangeCodeForTokens config authorizationCode = Ok ts ->
  accessToken ts <> "" /\ tokenType ts <> ""
  /\ exists c r body,
       authorizationCode = Some c /\ c <> ""
       /\ fetchToken (mkTokenRequest (clientId config) (clientSecret config) c
                                     "authorization_code" (redirectUri config))
          = Fetched r
       /\ ok r = true /\ json r = JsonValue body
       /\ access_token body = Some (accessToken ts).
Proof.
  unfold GoogleOAuthService.exchangeCodeForTokens.
  destruct authorizationCode as [c|]; [|discriminate].
  destruct (isEmpty c) eqn:Hc; [discriminate|].
  destruct (fetchToken _) as [msg|r] eqn:Hf; [discriminate|].
  destruct (ok r) eqn:Hok; cbn [negb].
  2:{ destruct (errorDataOf _ _) as [errorData|]; [|discriminate].
      destruct (status r =? 400);
        [destruct (strictEquals _ "invalid_grant");
         [|destruct (strictEquals _ "invalid_client")]
        |destruct (status r =? 401); [|destruct (500 <=? status r)]]; discriminate. }
  destruct (json r) as [| |tokenData] eqn:Hj; try discriminate.
  destruct (access_token tokenData) as [at_|] eqn:Ha; [|discriminate].
  destruct (isEmpty at_) eqn:He; [discriminate|].
  intros [= <-]. cbn [accessToken tokenType].
  split; [now apply isEmpty_false|]. split; [apply orElse_nonempty; discriminate|].
  exists c, r, tokenData. apply isEmpty_false in Hc. auto 10.
Qed.

Lemma getUserProfile_error_codes (accessToken : string) (error : JsError) :
  GoogleOAuthService.getUserProfile config accessToken = Throw error ->
  In (code error)
     [Some "INVALID_ACCESS_TOKEN"; Some "GOOGLE_API_UNAVAILABLE";
      Some "INSUFFICIENT_PERMISSIONS"; Some "GOOGLE_API_ERROR";
      Some "PROFILE_RETRIEVAL_ERROR"; Some "GOOGLE_API_RESPONSE_ERROR";
      Some "INCOMPLETE_PROFILE_DATA"; Some "DOMAIN_RESTRICTED"]
  /\ nonzero (statusCode error) = true.
Proof.
  unfold GoogleOAuthService.getUserProfile.
  destruct (isEmpty accessToken); [intros [= <-]; cbn; tauto|].
  destruct (fetchUserInfo _) as [msg|r]; [intros [= <-]; cbn; tauto|].
  destruct (negb (ok r)).
  - destruct (errorDataOf _ _) as [errorData|]; [|intros [= <-]; cbn; tauto].
    destruct (status r =? 401); [|destruct (status r =? 403); [|destruct (500 <=? status r)]];
      cbn [try_catch handleError]; intros [= <-];
      (split; [cbn; tauto | apply ensureStructure_structured; discriminate]).
  - destruct (json r) as [| |profileData]; try (intros [= <-]; cbn; tauto).
    destruct (negb (truthy (profile_id profileData))
              || negb (truthy (profile_email profileData)));
      [intros [= <-]; cbn; tauto|].
    destruct (negb (GoogleOAuthService.validateDomain config (profile_email profileData)));
      [|discriminate].
    destruct (GoogleOAuthService.extractDomain (profile_email profileData)) as [d|e0] eqn:Hd;
      cbn [bind try_catch handleError]; intros [= <-]; [cbn; tauto|].
    assert (He0 : code e0 = None /\ statusCode e0 = None).
    { unfold GoogleOAuthService.extractDomain in Hd.
      destruct (profile_email profileData) as [e|]; [|now injection Hd as <-].
      destruct (isEmpty e); [now injection Hd as <-|].
      destruct (negb (includes "@" e)); [now injection Hd as <-|].
      destruct (split "@" e) as [|x [|y [|z l]]]; try now injection Hd as <-.
      destruct (isEmpty y); [now injection Hd as <-|discriminate]. }
    destruct He0 as [Hc Hs]. unfold ensureStructure. rewrite Hc, Hs. cbn. tauto.
Qed.

Lemma getUserProfile_ok (accessToken : string) (p : Profile) :
  GoogleOAuthService.getUserProfile config accessToken = Ok p ->
  user_id p <> "" /\ user_email p <> ""
  /\ GoogleOAuthService.validateDomain config (Some (user_email p)) = true.
Proof.
  intro H. split; [|split; [|exact (getUserProfile_returns_only_allowed config _ _ H)]];
    revert H; unfold GoogleOAuthService.getUserProfile;
    (destruct (isEmpty accessToken); [discriminate|]);
    (destruct (fetchUserInfo _) as [msg|r]; [discriminate|]);
    (destruct (negb (ok r));
     [destruct (errorDataOf _ _); [|discriminate];
      destruct (status r =? 401), (status r =? 403), (500 <=? status r); discriminate|]);
    (destruct (json r) as [| |profileData]; try discriminate);
    (destruct (truthy (profile_id profileData)) eqn:Hid; [|discriminate]);
    (destruct (truthy (profile_email profileData)) eqn:Hem; [|discriminate]);
    cbn [negb orb];
    (destruct (negb (GoogleOAuthService.validateDomain config (profile_email profileData)));
     [destruct (GoogleOAuthService.extractDomain (profile_email profileData));
      discriminate|]);
    intros [= <-]; cbn [user_id user_email].
  - exact (proj2 (orElse_truthy _ "" Hid)).
  - exact (proj2 (orElse_truthy _ "" Hem)).
Qed.

Lemma completeOAuthFlow_cases (authorizationCode : option string) :
  match GoogleOAuthService.completeOAuthFlow config authorizationCode with
  | Ok r =>
      exists ts,
        GoogleOAuthService.exchangeCodeForTokens config authorizationCode = Ok ts
        /\ GoogleOAuthService.getUserProfile config (accessToken ts) = Ok (oauth_user r)
        /\ accessToken (oauth_tokens r) = accessToken ts
  | Throw error =>
      GoogleOAuthService.exchangeCodeForTokens config authorizationCode = Throw error
      \/ exists ts,
           GoogleOAuthService.exchangeCodeForTokens config authorizationCode = Ok ts
           /\ GoogleOAuthService.getUserProfile config (accessToken ts) = Throw error
  end.
Proof.
  unfold GoogleOAuthService.completeOAuthFlow.
  destruct (GoogleOAuthService.exchangeCodeForTokens config authorizationCode)
    as [ts|e] eqn:Hx; cbn [bind].
  - destruct (GoogleOAuthService.getUserProfile config (accessToken ts)) as [p|e] eqn:Hp;
      cbn [bind try_catch].
    + exists ts. auto.
    + destruct (getUserProfile_error_codes _ _ Hp) as [Hin Hst].
      assert (Hc : truthy (code e) = true).
      { cbn [In] in Hin.
        repeat (destruct Hin as [Hin|Hin]; [now rewrite <- Hin|]). contradiction. }
      rewrite Hc, Hst. cbn [andb]. right. exists ts. auto.
  - cbn [try_catch].
    destruct (exchangeCodeForTokens_error_codes _ _ Hx) as [Hin Hst].
    assert (Hc : truthy (code e) = true).
    { cbn [In] in Hin.
      repeat (destruct Hin as [Hin|Hin]; [now rewrite <- Hin|]). contradiction. }
    rewrite Hc, Hst. cbn [andb]. now left.
Qed.

End GatewayOutcomes.


(** X17.  [getUserProfile] hands out a profile only with a non-empty id
    and an email whose domain passes [validateDomain]; every failure
    carries one of eight codes and a non-zero status. *)
Theorem getUserProfile_outcomes :
  forall {G : Provider} (config : Config) (accessToken : string),
    match GoogleOAuthService.getUserProfile config accessToken with
    | Ok p =>
        user_id p <> "" /\ user_email p <> ""
        /\ GoogleOAuthService.validateDomain config (Some (user_email p)) = true
    | Throw error =>
        In (code error)
           [Some "INVALID_ACCESS_TOKEN"; Some "GOOGLE_API_UNAVAILABLE";
            Some "INSUFFICIENT_PERMISSIONS"; Some "GOOGLE_API_ERROR";
            Some "PROFILE_RETRIEVAL_ERROR"; Some "GOOGLE_API_RESPONSE_ERROR";
            Some "INCOMPLETE_PROFILE_DATA"; Some "DOMAIN_RESTRICTED"]
        /\ nonzero (statusCode error) = true
    end.
Proof.
  intros G config accessToken.
  destruct (GoogleOAuthService.getUserProfile config accessToken) as [p|e] eqn:H.
  - exact (getUserProfile_ok config _ _ H).
  - exact (getUserProfile_error_codes config _ _ H).
Qed.

(** X18.  [completeOAuthFlow] never wraps an error: a failure is the
    unchanged error of [exchangeCodeForTokens] or, after a successful
    exchange, of [getUserProfile] called with the access token obtained,
    so the code [OAUTH_FLOW_ERROR] cannot occur; a success carries the
    profile [getUserProfile] returned for that access token. *)
Theorem completeOAuthFlow_never_wraps :
  forall {G : Provider} (config : Config) (authorizationCode : option string),
    match GoogleOAuthService.completeOAuthFlow config authorizationCode with
    | Ok r =>
        exists ts,
          GoogleOAuthService.exchangeCodeForTokens config authorizationCode = Ok ts
          /\ GoogleOAuthService.getUserProfile config (accessToken ts) = Ok (oauth_user r)
          /\ accessToken (oauth_tokens r) = accessToken ts
    | Throw error =>
        code error <> Some "OAUTH_FLOW_ERROR"
        /\ (GoogleOAuthService.exchangeCodeForTokens config authorizationCode = Throw error
            \/ exists ts,
                 GoogleOAuthService.exchangeCodeForTokens config authorizationCode = Ok ts
                 /\ GoogleOAuthService.getUserProfile config (accessToken ts)
                    = Throw error)
    end.
Proof.
  intros G config authorizationCode.
  assert (H := completeOAuthFlow_cases config authorizationCode).
  destruct (GoogleOAuthService.completeOAuthFlow config authorizationCode) as [r|e];
    [exact H|].
  split; [|exact H].
  destruct H as [Hx|(ts & _ & Hp)].
  - destruct (exchangeCodeForTokens_error_codes config _ _ Hx) as [Hin _].
    cbn [In] in Hin. intro Hc. rewrite Hc in Hin.
    repeat (destruct Hin as [Hin|Hin]; [discriminate Hin|]). contradiction.
  - destruct (getUserProfile_error_codes config _ _ Hp) as [Hin _].
    cbn [In] in Hin. intro Hc. rewrite Hc in Hin.
    repeat (destruct Hin as [Hin|Hin]; [discriminate Hin|]). contradiction.
Qed.

(** ** The two domain rules *)

Section DomainRules.
Context {P : JwtPrimitives} (config : Config).

Lemma includes_append_sep (c : ascii) (l r : string) :
  includes c (l ++ String c r) = true.
Proof.
  induction l as [|a l IH]; cbn [append includes].
  - now rewrite Ascii.eqb_refl.
  - rewrite IH. apply orb_true_r.
Qed.

(** Where the gateway reads a domain, the token service reads the same *)
Lemma extractDomain_agree (e d : string) :
  GoogleOAuthService.extractDomain (Some e) = Ok d ->
  JWTService.extractDomain (Some e) = Ok (Some d).
Proof.
  unfold GoogleOAuthService.extractDomain, JWTService.extractDomain.
  destruct (isEmpty e); [discriminate|].
  destruct (includes "@" e); cbn [negb orb]; [|discriminate].
  destruct (split "@" e) as [|x [|y [|z l]]]; try discriminate.
  destruct (isEmpty y); [discriminate|]. now intros [= <-].
Qed.

Lemma validateDomain_validateEmailDomain (e : string) :
  GoogleOAuthService.validateDomain config (Some e) = true ->
  exists d,
    JWTService.extractDomain (Some e) = Ok (Some d)
    /\ toLowerCase d = toLowerCase (allowedDomain config)
    /\ JWTService.validateEmailDomain config (Some e) = Ok true.
Proof.
  intro H. apply validateDomain_true_iff in H as (d & Hd & Heq).
  apply extractDomain_agree in Hd. exists d. repeat split; try assumption.
  rewrite (validateEmailDomain_spec config e d Hd).
  apply String.eqb_eq in Heq. now rewrite Heq.
Qed.

Lemma split_two_separators (l d rest : string) :
  includes "@" l = false -> includes "@" d = false ->
  exists x xs, split "@" (l ++ "@" ++ d ++ "@" ++ rest) = l :: d :: x :: xs.
Proof.
  intros Hl Hd. destruct (split_cons "@" rest) as (x & xs & Hr).
  exists x, xs.
  change (l ++ "@" ++ d ++ "@" ++ rest) with (l ++ String "@" (d ++ String "@" rest)).
  now rewrite (split_append "@" l _ Hl), (split_append "@" d _ Hd), Hr.
Qed.

End DomainRules.

(** X19.  The gateway's domain rule implies the token service's: an
    email [validateDomain] accepts is accepted by [validateEmailDomain].
    The converse fails: the token service compares only the text
    between the first and the second ['@'], so an email with the allowed
    domain there and anything after a second ['@'] passes
    [validateEmailDomain] while [validateDomain] refuses it. *)
Theorem domain_rules_compared :
  forall {P : JwtPrimitives} (config : Config),
    (forall e,
        GoogleOAuthService.validateDomain config (Some e) = true ->
        JWTService.validateEmailDomain config (Some e) = Ok true)
    /\ (forall l d rest,
          includes "@" l = false -> includes "@" d = false ->
          toLowerCase d = toLowerCase (allowedDomain config) ->
          JWTService.validateEmailDomain config (Some (l ++ "@" ++ d ++ "@" ++ rest))
          = Ok true
          /\ GoogleOAuthService.validateDomain config (Some (l ++ "@" ++ d ++ "@" ++ rest))
             = false).
Proof.
  intros P config. split.
  - intros e H.
    now destruct (validateDomain_validateEmailDomain config e H) as (d & _ & _ & Hv).
  - intros l d rest Hl Hd Heq.
    destruct (split_two_separators l d rest Hl Hd) as (x & xs & Hs).
    assert (Hinc : includes "@" (l ++ "@" ++ d ++ "@" ++ rest) = true)
      by apply includes_append_sep.
    assert (Hne : isEmpty (l ++ "@" ++ d ++ "@" ++ rest) = false) by now destruct l.
    split.
    + rewrite (validateEmailDomain_spec config _ d).
      * apply String.eqb_eq in Heq. now rewrite Heq.
      * unfold JWTService.extractDomain. now rewrite Hne, Hinc, Hs.
    + unfold GoogleOAuthService.validateDomain, GoogleOAuthService.extractDomain.
      cbn [truthy]. now rewrite Hne, Hinc, Hs.
Qed.

Lemma domain_rules_compared_witness :
  JWTService.validateEmailDomain Reference.config (Some "a@wareongo.com") = Ok true
  /\ JWTService.validateEmailDomain Reference.config
       (Some ("a" ++ "@" ++ "WareOnGo.com" ++ "@" ++ "evil.example")) = Ok true
  /\ GoogleOAuthService.validateDomain Reference.config
       (Some ("a" ++ "@" ++ "WareOnGo.com" ++ "@" ++ "evil.example")) = false.
Proof.
  split.
  - apply (proj1 (domain_rules_compared Reference.config) "a@wareongo.com").
    reflexivity.
  - apply (proj2 (domain_rules_compared Reference.config) "a" "WareOnGo.com"
             "evil.example"); reflexivity.
Defined.

(** ** The callback, end to end *)

Section WellFormedTokens.
Context {P : JwtPrimitives} {C : SoundCodec P}.

Lemma plainBytes_wellFormed (s : string) : plainBytes s = true -> isWellFormed s = true.
Proof.
  induction s as [|a r IH]; [reflexivity|].
  cbn [plainBytes isWellFormed]. intro H. apply andb_prop in H as [Ha Hr].
  destruct r as [|b r']; [reflexivity|].
  apply negb_true_iff in Ha. rewrite Ha. cbn [andb]. now apply IH.
Qed.

Lemma plainBytes_append (a b : string) :
  plainBytes (a ++ b) = plainBytes a && plainBytes b.
Proof.
  induction a as [|x a IH]; [reflexivity|].
  cbn [append plainBytes]. now rewrite IH, andb_assoc.
Qed.

Lemma allBase64url_plainBytes (s : string) :
  Jsonwebtoken.allBase64url s = true -> plainBytes s = true.
Proof.
  induction s as [|a r IH]; [reflexivity|].
  cbn [Jsonwebtoken.allBase64url plainBytes]. intro H. apply andb_prop in H as [Ha Hr].
  rewrite (IH Hr), andb_true_r. apply negb_true_iff.
  destruct (Nat.eqb_spec (nat_of_ascii a) 237) as [He|]; [|reflexivity].
  unfold Jsonwebtoken.isBase64url in Ha. rewrite He in Ha. discriminate Ha.
Qed.

Lemma compact_wellFormed (body : Claims) (secret : string) :
  isWellFormed (compact body secret) = true.
Proof.
  apply plainBytes_wellFormed. unfold compact.
  rewrite !plainBytes_append.
  rewrite (allBase64url_plainBytes _ (encode_base64url body)),
    (allBase64url_plainBytes _ (hmac_base64url secret _)).
  reflexivity.
Qed.

End WellFormedTokens.

(** X20.  When the provider reports no error and [completeOAuthFlow]
    succeeds, token issuance cannot fail on the payload or the domain:
    with a non-empty signing key and a time-to-live that is a time span,
    [handleOAuthCallback] redirects to [/auth/callback] with a token
    whose claims are the id, email, name and picture of the provider's
    profile and the domain of its email, which is the allowed domain up
    to case; the token expires [span] seconds later and, for a positive
    [span], [verifyToken] accepts it at once. *)
Theorem handleOAuthCallback_success :
  forall {P : JwtPrimitives} {C : SoundCodec P} {G : Provider} {U : UrlCodec}
         (config : Config) (query : Query) (now span : Z) (r : OAuthResult),
    truthy (query_error query) = false ->
    GoogleOAuthService.completeOAuthFlow config (query_code query) = Ok r ->
    jwtSecret config <> "" ->
    timespan (jwtExpiresIn config) = Some span ->
    exists tok d dom,
      AuthController.handleOAuthCallback config query now
      = Redirect (frontendUrl config ++ "/auth/callback?token="
                  ++ encodeURIComponent tok ++ "&user="
                  ++ encodeURIComponent
                       (stringifyUserData
                          (mkUserData (user_id (oauth_user r)) (user_email (oauth_user r))
                                      (user_name (oauth_user r))
                                      (user_picture (oauth_user r)) (Some dom))))
      /\ toLowerCase dom = toLowerCase (allowedDomain config)
      /\ JWTService.decodeToken tok = Ok (Some d)
      /\ id d = Some (user_id (oauth_user r))
      /\ email d = Some (user_email (oauth_user r))
      /\ name d = Some (user_name (oauth_user r))
      /\ picture d = Some (user_picture (oauth_user r))
      /\ domain d = Some dom
      /\ exp d = Some (now + span)
      /\ (0 < span -> JWTService.verifyToken config tok now = Ok d).
Proof.
  intros P C G U config query now span r Herr Hflow Hs Ht.
  assert (Hc := completeOAuthFlow_cases config (query_code query)).
  rewrite Hflow in Hc. destruct Hc as (ts & Hx & Hp & _).
  destruct (exchangeCodeForTokens_ok config _ _ Hx) as (_ & _ & c & _ & _ & Hqc & Hcne & _).
  destruct (getUserProfile_ok config _ _ Hp) as (Hid & _ & Hdom).
  destruct (validateDomain_validateEmailDomain config _ Hdom) as (dom & Hd & Heq & _).
  assert (Hidt : truthy (id (AuthController.payloadOfProfile (oauth_user r))) = true).
  { cbn. apply isEmpty_false in Hid. now rewrite Hid. }
  assert (Hgen := generateToken_ok config (AuthController.payloadOfProfile (oauth_user r))
                    (user_email (oauth_user r)) dom None now span
                    Hidt eq_refl Hd Heq Hs Ht).
  eexists. exists (signedBody (JWTService.tokenPayload
                                 (AuthController.payloadOfProfile (oauth_user r))
                                 (Some dom)) now span), dom.
  split; [|split; [exact Heq|split]].
  - unfold AuthController.handleOAuthCallback. rewrite Herr, Hqc.
    apply isEmpty_false in Hcne. cbn [truthy]. rewrite Hcne. cbn [negb].
    rewrite <- Hqc, Hflow. cbn [bind]. rewrite Hgen. cbn [bind]. rewrite Hd.
    cbn [bind]. unfold encodeComponent.
    rewrite compact_wellFormed, stringify_wellFormed. reflexivity.
  - apply decodeToken_compact.
  - repeat split.
    intro Hpos.
    apply (verifyToken_compact config _ (user_email (oauth_user r)) dom now Hs);
      try reflexivity; try assumption.
    cbn. assert (Hle : (now + span <=? now) = false) by (apply Z.leb_gt; lia).
    now rewrite Hle.
Qed.

Lemma handleOAuthCallback_success_witness :
  exists tok d dom,
    AuthController.handleOAuthCallback (G := providerWithProfile "1" "a@wareongo.com")
      Reference.config (mkQuery (Some "4/0AX4XfWh") None None None) 1000
    = Redirect (frontendUrl Reference.config ++ "/auth/callback?token="
                ++ encodeURIComponent tok ++ "&user="
                ++ encodeURIComponent
                     (stringifyUserData
                        (mkUserData (user_id (oauth_user aliceFlow))
                                    (user_email (oauth_user aliceFlow))
                                    (user_name (oauth_user aliceFlow))
                                    (user_picture (oauth_user aliceFlow)) (Some dom))))
    /\ toLowerCase dom = toLowerCase (allowedDomain Reference.config)
    /\ JWTService.decodeToken tok = Ok (Some d)
    /\ id d = Some (user_id (oauth_user aliceFlow))
    /\ email d = Some (user_email (oauth_user aliceFlow))
    /\ name d = Some (user_name (oauth_user aliceFlow))
    /\ picture d = Some (user_picture (oauth_user aliceFlow))
    /\ domain d = Some dom
    /\ exp d = Some (1000 + 86400)
    /\ (0 < 86400 -> JWTService.verifyToken Reference.config tok 1000 = Ok d).
Proof.
  apply (handleOAuthCallback_success (C := ReferenceFacts.soundCodec)
           (G := providerWithProfile "1" "a@wareongo.com")
           Reference.config (mkQuery (Some "4/0AX4XfWh") None None None) 1000 86400
           aliceFlow).
  - reflexivity.
  - reflexivity.
  - discriminate.
  - reflexivity.
Defined.

(** ** Configuration: the health check and the start-up validation *)

Section Configuration.
Context {P : JwtPrimitives} {G : Provider} {U : UrlCodec}.

Lemma validateConfiguration_ok_iff (config : Config) :
  GoogleOAuthService.validateConfiguration config = Ok true
  <-> clientId config <> "" /\ clientSecret config <> ""
      /\ redirectUri config <> "" /\ allowedDomain config <> "".
Proof.
  unfold GoogleOAuthService.validateConfiguration, GoogleOAuthService.requiredFields.
  destruct (clientId config) as [|a1 s1], (clientSecret config) as [|a2 s2],
    (redirectUri config) as [|a3 s3], (allowedDomain config) as [|a4 s4];
    cbn; split; intro H; try discriminate H; try reflexivity;
    try (repeat split; discriminate);
    destruct H as (H1 & H2 & H3 & H4); congruence.
Qed.

Lemma validateConfiguration_cases (config : Config) :
  GoogleOAuthService.validateConfiguration config = Ok true
  \/ exists e, GoogleOAuthService.validateConfiguration config = Throw e.
Proof.
  unfold GoogleOAuthService.validateConfiguration.
  destruct (0 <? _)%nat; [right; eexists; reflexivity | now left].
Qed.

Lemma generateToken_without_secret (config : Config) (payload : option Claims)
      (expiresIn : option string) (now : Z) :
  jwtSecret config = "" ->
  exists e, JWTService.generateToken config payload expiresIn now = Throw e.
Proof.
  intro Hs. unfold JWTService.generateToken.
  destruct payload as [p|]; [|eexists; reflexivity].
  destruct (negb (truthy (id p)) || negb (truthy (email p))); [eexists; reflexivity|].
  destruct (JWTService.validateEmailDomain config (email p)) as [[|]|e];
    cbn [bind negb]; try (eexists; reflexivity).
  destruct (JWTService.extractDomain (email p)) as [dom|e]; cbn [bind];
    [|eexists; reflexivity].
  unfold Jsonwebtoken.sign. rewrite Hs. eexists; reflexivity.
Qed.

Lemma healthCheck_ok_iff_aux (config : Config) :
  api_status (AuthController.healthCheck config) = 200
  <-> clientId config <> "" /\ clientSecret config <> ""
      /\ redirectUri config <> "" /\ allowedDomain config <> "".
Proof.
  unfold AuthController.healthCheck. rewrite <- validateConfiguration_ok_iff.
  destruct (validateConfiguration_cases config) as [->|(e & ->)]; cbn; split;
    intro H; try reflexivity; discriminate H.
Qed.

End Configuration.

(** X21.  The health check answers 200 exactly when client id, client
    secret, redirect URI and allowed domain are all non-empty, and 503
    otherwise.  The signing key plays no part: with an empty key and
    those four fields set, the service reports healthy while every call
    of [generateToken] fails. *)
Theorem healthCheck_status :
  forall {P : JwtPrimitives} (config : Config),
    (api_status (AuthController.healthCheck config) = 200
     <-> clientId config <> "" /\ clientSecret config <> ""
         /\ redirectUri config <> "" /\ allowedDomain config <> "")
    /\ (api_status (AuthController.healthCheck config) = 200
        \/ api_status (AuthController.healthCheck config) = 503)
    /\ (jwtSecret config = "" ->
        forall payload expiresIn now,
        exists e, JWTService.generateToken config payload expiresIn now = Throw e).
Proof.
  intros P config. unfold AuthController.healthCheck.
  split; [|split].
  - exact (healthCheck_ok_iff_aux config).
  - destruct (validateConfiguration_cases config) as [->|(e & ->)]; cbn; auto.
  - intros Hs payload expiresIn now. now apply generateToken_without_secret.
Qed.

Lemma healthCheck_status_witness :
  exists e,
    JWTService.generateToken
      (mkConfig "" "24h" "wareongo.com" "http://localhost:3000" "client-id"
                "client-secret" "http://localhost:3001/auth/google/callback")
      (Some alicePayload) None 1000 = Throw e.
Proof.
  exact (proj2 (proj2 (healthCheck_status
                         (mkConfig "" "24h" "wareongo.com" "http://localhost:3000"
                                   "client-id" "client-secret"
                                   "http://localhost:3001/auth/google/callback")))
           eq_refl (Some alicePayload) None 1000).
Defined.

(** X22.  For a configuration loaded from the environment,
    [validateAuthConfig] passes exactly when [GOOGLE_CLIENT_ID] and
    [GOOGLE_CLIENT_SECRET] are set and non-empty, [JWT_SECRET] has at
    least 32 characters and the allowed domain (the variable, or
    [wareongo.com] when it is unset or empty) contains a dot; the
    allowed domain and the redirect URI are never empty after loading,
    so a configuration that passes the validation also passes the health
    check and has a signing key. *)
Theorem validateAuthConfig_loadConfig :
  forall {P : JwtPrimitives} (env : Environment),
    (validateAuthConfig (loadConfig env) = Ok tt
     <-> truthy (GOOGLE_CLIENT_ID env) = true /\ truthy (GOOGLE_CLIENT_SECRET env) = true
         /\ (32 <= String.length (orElse (JWT_SECRET env) ""))%nat
         /\ includes "." (orElse (ALLOWED_DOMAIN env) "wareongo.com") = true)
    /\ allowedDomain (loadConfig env) <> "" /\ redirectUri (loadConfig env) <> ""
    /\ (validateAuthConfig (loadConfig env) = Ok tt ->
        api_status (AuthController.healthCheck (loadConfig env)) = 200
        /\ jwtSecret (loadConfig env) <> "").
Proof.
  intros P env.
  assert (Ha : orElse (ALLOWED_DOMAIN env) "wareongo.com" <> "")
    by (apply orElse_nonempty; discriminate).
  assert (Hr : orElse (GOOGLE_REDIRECT_URI env)
                      "http://localhost:3001/auth/google/callback" <> "")
    by (apply orElse_nonempty; discriminate).
  assert (Hiff :
            validateAuthConfig (loadConfig env) = Ok tt
            <-> truthy (GOOGLE_CLIENT_ID env) = true
                /\ truthy (GOOGLE_CLIENT_SECRET env) = true
                /\ (32 <= String.length (orElse (JWT_SECRET env) ""))%nat
                /\ includes "." (orElse (ALLOWED_DOMAIN env) "wareongo.com") = true).
  { unfold validateAuthConfig, loadConfig.
    cbn [clientId clientSecret jwtSecret allowedDomain].
    apply isEmpty_false in Ha.
    assert (Hid : forall v, isEmpty (orElse v "") = negb (truthy v)).
    { intros [s|]; [|reflexivity]. cbn. now destruct s. }
    cbn [filter snd]. rewrite !Hid, Ha.
    destruct (truthy (GOOGLE_CLIENT_ID env)), (truthy (GOOGLE_CLIENT_SECRET env));
      cbn [negb];
      try (split; [destruct (negb (truthy (JWT_SECRET env))); cbn; discriminate
                  | intros (H1 & H2 & _); congruence]).
    destruct (truthy (JWT_SECRET env)) eqn:Hsec; cbn [negb List.length];
      [change (0 <? 0)%nat with false | change (0 <? 1)%nat with true]; cbv iota.
    - destruct (Nat.ltb_spec (String.length (orElse (JWT_SECRET env) "")) 32) as [Hlt|Hge].
      + split; [discriminate | intros (_ & _ & Hl & _); lia].
      + destruct (includes "." (orElse (ALLOWED_DOMAIN env) "wareongo.com")); cbn [negb].
        * split; auto.
        * split; [discriminate | intros (_ & _ & _ & Hf); discriminate].
    - split; [discriminate|]. intros (_ & _ & Hl & _).
      assert (He : isEmpty (orElse (JWT_SECRET env) "") = true)
        by (rewrite Hid, Hsec; reflexivity).
      apply isEmpty_true in He. rewrite He in Hl. cbn in Hl. lia. }
  split; [exact Hiff|]. split; [exact Ha|]. split; [exact Hr|].
  intro H. apply Hiff in H as (H1 & H2 & H3 & _).
  split.
  - apply (proj2 (healthCheck_ok_iff_aux (loadConfig env))).
    unfold loadConfig. cbn [clientId clientSecret redirectUri allowedDomain].
    repeat split; try assumption.
    + exact (proj2 (orElse_truthy _ "" H1)).
    + exact (proj2 (orElse_truthy _ "" H2)).
  - unfold loadConfig. cbn [jwtSecret]. intro He. rewrite He in H3. cbn in H3. lia.
Qed.

Lemma validateAuthConfig_loadConfig_witness :
  api_status (AuthController.healthCheck (loadConfig minimalEnvironment)) = 200
  /\ jwtSecret (loadConfig minimalEnvironment) <> "".
Proof.
  exact (proj2 (proj2 (proj2 (validateAuthConfig_loadConfig minimalEnvironment)))
           eq_refl).
Defined.

(** X23.  The controller's error replies with a status of 500 or more
    are determined by the code and the status code of the error alone:
    the message, the original error and the domain fields of the error
    never reach the client on such a reply. *)
Theorem handleAuthenticationError_hides_server_errors :
  forall (e1 e2 : JsError),
    code e1 = code e2 -> statusCode e1 = statusCode e2 ->
    500 <= api_status (AuthController.handleAuthenticationError e1) ->
    AuthController.handleAuthenticationError e1
    = AuthController.handleAuthenticationError e2.
Proof.
  intros e1 e2 Hc Hs. unfold AuthController.handleAuthenticationError.
  rewrite <- Hc, <- Hs.
  destruct (strictEquals (code e1) "DOMAIN_RESTRICTED"); [cbn; lia|].
  destruct (strictEquals (code e1) "INVALID_AUTH_CODE"); [reflexivity|].
  destruct (strictEquals (code e1) "OAUTH_SERVICE_UNAVAILABLE"
            || strictEquals (code e1) "GOOGLE_API_UNAVAILABLE"); [reflexivity|].
  destruct (strictEquals (code e1) "OAUTH_CONFIG_ERROR"); [reflexivity|].
  destruct (strictEquals (code e1) "TOKEN_EXPIRED"); [reflexivity|].
  destruct (strictEquals (code e1) "INVALID_TOKEN"); [reflexivity|].
  destruct (strictEquals (code e1) "INSUFFICIENT_PERMISSIONS"); [reflexivity|].
  cbn [AuthController.sendError api_status].
  intro H. apply Z.leb_le in H. now rewrite H.
Qed.

Lemma handleAuthenticationError_hides_server_errors_witness :
  AuthController.handleAuthenticationError
    (codedError "connect ECONNREFUSED 10.0.0.5:5432" "DB_DOWN" 500)
  = AuthController.handleAuthenticationError (codedError "" "DB_DOWN" 500).
Proof.
  apply (handleAuthenticationError_hides_server_errors
           (codedError "connect ECONNREFUSED 10.0.0.5:5432" "DB_DOWN" 500)
           (codedError "" "DB_DOWN" 500)); [reflexivity | reflexivity | cbn; lia].
Defined.

(** ** Reading a token without verifying it *)

(** X24.  What [verifyToken] returns is what [decodeToken] reads from the
    same input without any check.  On a verified token [isTokenExpired]
    answers [true] only when the token has no [exp] claim or an [exp] of
    zero: such a token passes [verifyToken] and is reported expired. *)
Theorem decodeToken_of_verified :
  forall {P : JwtPrimitives} (config : Config) (t : string) (now : Z) (d : Claims),
    JWTService.verifyToken config t now = Ok d ->
    JWTService.decodeToken t = Ok (Some d)
    /\ (JWTService.isTokenExpired t now = true <-> exp d = None \/ exp d = Some 0).
Proof.
  intros P config t now d H.
  assert (Hv := verifyToken_ok_verify config _ _ _ H).
  destruct (verifyToken_ok_live config _ _ _ H) as [Hexp _].
  assert (Hd : JWTService.decodeToken t = Ok (Some d)).
  { destruct (verify_ok_inv _ _ _ _ _ _ Hv) as (h & p & s & header & _ & Hdec & _).
    unfold JWTService.decodeToken, Jsonwebtoken.decode. now rewrite Hdec. }
  split; [exact Hd|].
  unfold JWTService.isTokenExpired. rewrite Hd.
  destruct (exp d) as [e|] eqn:He.
  - specialize (Hexp e eq_refl).
    destruct (Z.eqb_spec e 0) as [->|Hne].
    + split; auto.
    + assert (Hlt : (e <? now) = false) by (apply Z.ltb_ge; lia).
      rewrite Hlt. split; [discriminate|]. intros [Hn|Hz]; [discriminate|].
      injection Hz as ->. now contradiction Hne.
  - split; auto.
Qed.

Lemma decodeToken_of_verified_witness :
  JWTService.decodeToken aliceToken = Ok (Some aliceClaims)
  /\ (JWTService.isTokenExpired aliceToken 1000 = true
      <-> exp aliceClaims = None \/ exp aliceClaims = Some 0).
Proof.
  apply (decodeToken_of_verified Reference.config aliceToken 1000 aliceClaims).
  vm_compute. reflexivity.
Defined.
